(** * x402-hedera: the exact-scheme verify / settle / create-payment core

    A shallow embedding of the TypeScript sources of the x402 Hedera
    integration: the network registry and its chain-id tables
    ([types/shared/network.ts]), the Hedera transaction helpers
    ([shared/hedera/transaction.ts]), the Hedera client-side builder in its
    two revisions ([schemes/exact/hedera/client.ts]), the facilitator's
    [verify.ts] and [settle.ts], the family dispatcher
    ([facilitator/facilitator.ts]), the wallet factories
    ([shared/hedera/wallet.ts], [shared/hedera/rpc.ts],
    [types/shared/wallet.ts]) and the client-side dispatcher
    ([client/createPaymentHeader.ts]).

    Conventions.
    - A JavaScript string is a [string]; the sources only inspect ASCII
      content (sentinels, digits, error-message fragments).
    - A function that can throw returns [Result A]; [async] functions are
      run to completion, a rejected promise being a [Throw].
    - Code that talks to the ledger or produces signatures runs in the
      monad [M], which threads a [World] holding the trace of SDK effects.
    - The Hedera SDK, Node's [Buffer] and the modules of the package that
      the sources import but do not define are the fields of the class
      [Externals]. *)

From Stdlib Require Import String Ascii List ZArith NArith Bool Lia.
From Stdlib Require Import DecimalString DecimalN.
Import ListNotations.

Local Open Scope string_scope.
Local Open Scope Z_scope.

(* ===================================================================== *)
(** * The JavaScript run time *)
(* ===================================================================== *)

Module Js.

(** A thrown value.  Every [throw] of the sources throws [new Error(msg)],
    and the handlers only read [error.message]. *)
Inductive exn : Type :=
| Error (message : string).

Definition message (e : exn) : string :=
  match e with Error m => m end.

Inductive Result (A : Type) : Type :=
| Ok (a : A)
| Throw (e : exn).
Arguments Ok {A} a.
Arguments Throw {A} e.

Definition rbind {A B} (r : Result A) (k : A -> Result B) : Result B :=
  match r with
  | Ok a => k a
  | Throw e => Throw e
  end.

(** [try { body } catch (error) { handler }] *)
Definition try_catch {A} (body : Result A) (handler : exn -> A) : A :=
  match body with
  | Ok a => a
  | Throw e => handler e
  end.

(** ** Strings *)

Definition isUpperAscii (c : ascii) : bool :=
  let n := nat_of_ascii c in (Nat.leb 65 n && Nat.leb n 90)%bool.

Definition toLowerChar (c : ascii) : ascii :=
  if isUpperAscii c then ascii_of_nat (nat_of_ascii c + 32) else c.

(** [s.toLowerCase()] *)
Fixpoint toLowerCase (s : string) : string :=
  match s with
  | EmptyString => EmptyString
  | String c s' => String (toLowerChar c) (toLowerCase s')
  end.

(** [s.includes(sub)] *)
Fixpoint includes (s sub : string) : bool :=
  (String.prefix sub s
   || match s with
      | EmptyString => false
      | String _ s' => includes s' sub
      end)%bool.

(** [xs.includes(x)] on an array of strings *)
Definition Array_includes (xs : list string) (x : string) : bool :=
  existsb (String.eqb x) xs.

(** [!s] for a value that is a string or [undefined] *)
Definition falsy (s : option string) : bool :=
  match s with
  | None => true
  | Some s => String.eqb s ""
  end.

(** ** Numbers

    The only numbers the sources compute are the results of [parseInt]
    and their negations: integer-valued doubles, [NaN] and the
    infinities.  [Num z] is the double whose value is the integer [z]
    (the two zeros are not told apart). *)
Inductive Number : Type :=
| NaN
| Num (z : Z)
| Infinity (negative : bool).

(** unary minus *)
Definition neg (x : Number) : Number :=
  match x with
  | NaN => NaN
  | Num z => Num (- z)
  | Infinity b => Infinity (negb b)
  end.

(** Round a non-negative integer to the nearest double (ties to even):
    53 bits of significand are kept. *)
Definition roundToDouble (n : Z) : Z :=
  if n <? 2 ^ 53 then n
  else
    let e := Z.log2 n - 52 in
    let q := n / 2 ^ e in
    let r := n mod 2 ^ e in
    let half := 2 ^ (e - 1) in
    let q' := if (half <? r) || ((r =? half) && Z.odd q) then q + 1 else q in
    q' * 2 ^ e.

(** The Number value of the mathematical integer [sign * m], [0 <= m]. *)
Definition toNumber (negative : bool) (m : Z) : Number :=
  let d := roundToDouble m in
  if 2 ^ 1024 <=? d then Infinity negative
  else Num (if negative then - d else d).

(** StrWhiteSpaceChar, ASCII part: TAB, LF, VT, FF, CR, SP *)
Definition isWhiteSpace (c : ascii) : bool :=
  let n := nat_of_ascii c in
  (Nat.eqb n 9 || Nat.eqb n 10 || Nat.eqb n 11 || Nat.eqb n 12
   || Nat.eqb n 13 || Nat.eqb n 32)%bool.

Fixpoint trimStart (s : string) : string :=
  match s with
  | EmptyString => EmptyString
  | String c s' => if isWhiteSpace c then trimStart s' else s
  end.

(** The value of [c] as a digit, in any radix up to 36. *)
Definition digitOf (c : ascii) : option Z :=
  let n := Z.of_nat (nat_of_ascii c) in
  if (48 <=? n) && (n <=? 57) then Some (n - 48)
  else if (97 <=? n) && (n <=? 122) then Some (n - 87)
  else if (65 <=? n) && (n <=? 90) then Some (n - 55)
  else None.

Definition radixDigit (radix : Z) (c : ascii) : option Z :=
  match digitOf c with
  | Some d => if d <? radix then Some d else None
  | None => None
  end.

(** Value of the longest prefix of [s] made of radix-[radix] digits, read
    after the digits whose value is [acc]; [None] when [acc] is [None]
    and [s] starts with no digit. *)
Fixpoint parseDigits (radix : Z) (s : string) (acc : option Z) : option Z :=
  match s with
  | EmptyString => acc
  | String c s' =>
      match radixDigit radix c with
      | Some d =>
          parseDigits radix s'
            (Some (match acc with Some a => a * radix + d | None => d end))
      | None => acc
      end
  end.

(** [parseInt(s)], radix omitted (ECMA-262, 19.2.5). *)
Definition parseInt (s : string) : Number :=
  let S0 := trimStart s in
  let '(negative, S1) :=
    match S0 with
    | String "-" r => (true, r)
    | String "+" r => (false, r)
    | _ => (false, S0)
    end in
  let '(radix, S2) :=
    match S1 with
    | String "0" (String "x" r) => (16, r)
    | String "0" (String "X" r) => (16, r)
    | _ => (10, S1)
    end in
  match parseDigits radix S2 None with
  | None => NaN
  | Some m => toNumber negative m
  end.

End Js.

Import Js.

Notation "x <- r ;; k" := (rbind r (fun x => k))
  (at level 61, r at next level, right associativity).

(* ===================================================================== *)
(** * Network registry ([types/shared/network.ts]) *)
(* ===================================================================== *)

Definition Network : Type := string.

Definition NetworkSchema : list Network :=
  [ "base-sepolia"; "base"; "avalanche-fuji"; "avalanche"; "iotex";
    "solana-devnet"; "solana"; "sei"; "sei-testnet"; "polygon";
    "polygon-amoy"; "peaq"; "hedera-testnet"; "hedera-mainnet" ].

Definition SupportedEVMNetworks : list Network :=
  [ "base-sepolia"; "base"; "avalanche-fuji"; "avalanche"; "iotex";
    "sei"; "sei-testnet"; "polygon"; "polygon-amoy"; "peaq" ].

Definition SupportedSVMNetworks : list Network :=
  [ "solana-devnet"; "solana" ].

Definition SupportedHederaNetworks : list Network :=
  [ "hedera-testnet"; "hedera-mainnet" ].

Inductive NetworkFamily : Type := evm | svm | hedera.

Definition getNetworkFamily (network : Network) : Result NetworkFamily :=
  if Array_includes SupportedEVMNetworks network then Ok evm
  else if Array_includes SupportedSVMNetworks network then Ok svm
  else if Array_includes SupportedHederaNetworks network then Ok hedera
  else Throw (Error ("Unsupported network: " ++ network)).

(** The table each family claims, and the families that claim a network. *)
Definition networksOf (f : NetworkFamily) : list Network :=
  match f with
  | evm => SupportedEVMNetworks
  | svm => SupportedSVMNetworks
  | hedera => SupportedHederaNetworks
  end.

Definition familiesClaiming (network : Network) : list NetworkFamily :=
  filter (fun f => Array_includes (networksOf f) network) [evm; svm; hedera].

(* ===================================================================== *)
(** * The Hedera SDK values the sources handle ([@hashgraph/sdk]) *)
(* ===================================================================== *)

Module Sdk.

Definition decimal (n : N) : string :=
  NilEmpty.string_of_uint (N.to_uint n).

(** [AccountId]; [toString()] prints [shard.realm.num]. *)
Record AccountId : Type :=
  { shard : N; realm : N; num : N }.

Definition AccountId_toString (a : AccountId) : string :=
  decimal (shard a) ++ "." ++ decimal (realm a) ++ "." ++ decimal (num a).

Record TokenId : Type :=
  { tokenShard : N; tokenRealm : N; tokenNum : N }.

(** [TransactionId]: the account that pays the fee and the valid-start
    time.  [accountId] may be [null] on a decoded transaction. *)
Record TransactionId : Type :=
  { accountId : option AccountId; validStart : N }.

(** [transactionId.toString()]: [account@validStart]; throws when the
    account is not set. *)
Definition TransactionId_toString (t : TransactionId) : Result string :=
  match accountId t with
  | Some a => Ok (AccountId_toString a ++ "@" ++ decimal (validStart t))
  | None => Throw (Error "Neither `nonce` or `accountId` and `validStart` are set")
  end.

Definition PrivateKey : Type := string.

Record Client : Type :=
  { ledgerId : string }.

(** The run-time class of a [Transaction] object. *)
Inductive TransactionClass : Type :=
| TransferTransaction
| ContractExecuteTransaction
| OtherTransaction (name : string).

(** The argument the builder hands to [Hbar.fromTinybars]: either the
    amount string itself, or the Number [-amount] obtained by negating
    the string. *)
Inductive Tinybars : Type :=
| TinybarsOfString (amount : string)
| TinybarsOfNegated (amount : string).

Record Transaction : Type :=
  { class : TransactionClass;
    transactionId : option TransactionId;
    hbarTransfers : list (AccountId * Tinybars);
    tokenTransfers : list (TokenId * AccountId * Number);
    frozen : bool;
    signers : list PrivateKey }.

(** [new TransferTransaction()] *)
Definition newTransferTransaction : Transaction :=
  {| class := TransferTransaction; transactionId := None;
     hbarTransfers := []; tokenTransfers := [];
     frozen := false; signers := [] |}.

Definition setTransactionId (id : TransactionId) (t : Transaction) : Transaction :=
  {| class := class t; transactionId := Some id;
     hbarTransfers := hbarTransfers t; tokenTransfers := tokenTransfers t;
     frozen := frozen t; signers := signers t |}.

Definition addHbarTransfer (a : AccountId) (amount : Tinybars) (t : Transaction)
  : Transaction :=
  {| class := class t; transactionId := transactionId t;
     hbarTransfers := hbarTransfers t ++ [(a, amount)];
     tokenTransfers := tokenTransfers t;
     frozen := frozen t; signers := signers t |}.

Definition addTokenTransfer (tok : TokenId) (a : AccountId) (amount : Number)
    (t : Transaction) : Transaction :=
  {| class := class t; transactionId := transactionId t;
     hbarTransfers := hbarTransfers t;
     tokenTransfers := tokenTransfers t ++ [(tok, a, amount)];
     frozen := frozen t; signers := signers t |}.

Definition freezeWith (c : Client) (t : Transaction) : Transaction :=
  {| class := class t; transactionId := transactionId t;
     hbarTransfers := hbarTransfers t; tokenTransfers := tokenTransfers t;
     frozen := true; signers := signers t |}.

Definition isTransferTransaction (t : Transaction) : bool :=
  match class t with
  | TransferTransaction => true
  | _ => false
  end.

Inductive Status : Type :=
| Success
| Failed (code : string).

Definition isSuccess (s : Status) : bool :=
  match s with Success => true | Failed _ => false end.

Record TransactionReceipt : Type :=
  { status : Status }.

Record TransactionResponse : Type :=
  { responseTransactionId : TransactionId }.

(** What the ledger answers to [getReceipt]: the promise settles after
    [latencyMs] milliseconds with [outcome]. *)
Record Arrival : Type :=
  { latencyMs : N; outcome : Result TransactionReceipt }.

End Sdk.

Import Sdk.

(** [HederaSigner] ([shared/hedera/wallet.ts]) *)
Module Wallet.

Record HederaSigner : Type :=
  { client : Client;
    accountId : AccountId;
    privateKey : PrivateKey }.

End Wallet.

Abbreviation HederaSigner := Wallet.HederaSigner.

(* ===================================================================== *)
(** * Effects *)
(* ===================================================================== *)

(** What the code did to the outside world, oldest first. *)
Inductive Effect : Type :=
| Signed (key : PrivateKey) (t : Transaction)
| Executed (t : Transaction) (c : Client)
| ReceiptAwaited (r : TransactionResponse) (c : Client).

Record World : Type :=
  { trace : list Effect;
    nowMs : N }.

Definition emit (e : Effect) (w : World) : World :=
  {| trace := trace w ++ [e]; nowMs := nowMs w |}.

Definition elapse (ms : N) (w : World) : World :=
  {| trace := trace w; nowMs := (nowMs w + ms)%N |}.

Definition M (A : Type) : Type := World -> Result A * World.

Definition ret {A} (a : A) : M A := fun w => (Ok a, w).

Definition bind {A B} (m : M A) (k : A -> M B) : M B :=
  fun w =>
    match m w with
    | (Ok a, w') => k a w'
    | (Throw e, w') => (Throw e, w')
    end.

Definition lift {A} (r : Result A) : M A := fun w => (r, w).

Definition throw {A} (msg : string) : M A := fun w => (Throw (Error msg), w).

(** [try { body } catch (error) { handler }]: what [body] did before it
    threw stays done. *)
Definition tryM {A} (body : M A) (handler : exn -> M A) : M A :=
  fun w =>
    match body w with
    | (Ok a, w') => (Ok a, w')
    | (Throw e, w') => handler e w'
    end.

Notation "x <~ m ;; k" := (bind m (fun x => k))
  (at level 61, m at next level, right associativity).

(** [TransactionId.generate(accountId)]: the valid-start time is read off
    the clock. *)
Definition TransactionId_generate (a : AccountId) : M TransactionId :=
  fun w => (Ok {| accountId := Some a; validStart := nowMs w |}, w).

(* ===================================================================== *)
(** * Protocol types ([types/verify]) *)
(* ===================================================================== *)

(** The open [extra] bag; the sources read one field of it. *)
Record Extra : Type :=
  { feePayer : option string }.

Record PaymentRequirements : Type :=
  { req_scheme : string;
    req_network : Network;
    maxAmountRequired : string;
    resource : string;
    description : string;
    mimeType : string;
    payTo : string;
    maxTimeoutSeconds : N;
    asset : string;
    extra : option Extra }.

(** [paymentRequirements.extra?.feePayer] *)
Definition extra_feePayer (r : PaymentRequirements) : option string :=
  match extra r with
  | Some e => feePayer e
  | None => None
  end.

(** The family-specific part of a payload: the EVM shape
    [{signature, authorization: {from, ...}}] or the SVM / Hedera shape
    [{transaction}]. *)
Inductive ExactPayload : Type :=
| ExactEvmPayload (signature : string) (authorization_from : string)
| ExactTransactionPayload (transaction : string).

Record PaymentPayload : Type :=
  { x402Version : N;
    scheme : string;
    network : Network;
    payload : ExactPayload }.

(** [(payload.payload as ExactHederaPayload).transaction]: [None] is
    [undefined]. *)
Definition payload_transaction (p : PaymentPayload) : option string :=
  match payload p with
  | ExactTransactionPayload t => Some t
  | ExactEvmPayload _ _ => None
  end.

(** [(payload.payload as ExactEvmPayload).authorization.from]: reading
    [from] off a missing [authorization] is a TypeError. *)
Definition payload_authorization_from (p : PaymentPayload) : Result string :=
  match payload p with
  | ExactEvmPayload _ from => Ok from
  | ExactTransactionPayload _ =>
      Throw (Error "Cannot read properties of undefined (reading 'from')")
  end.

Record VerifyResponse : Type :=
  { isValid : bool;
    invalidReason : option string;
    verifyPayer : option string }.

Record SettleResponse : Type :=
  { success : bool;
    errorReason : option string;
    settlePayer : option string;
    settleTransaction : string;
    settleNetwork : Network }.

(** Modelled from the spec: the constant [SCHEME] of [schemes/exact/index.ts],
    which the sources import but do not define; the only scheme is "exact". *)
Definition SCHEME : string := "exact".

(* ===================================================================== *)
(** * What the sources call but do not define *)
(* ===================================================================== *)

Definition bytes : Type := list Byte.byte.

(** The Hedera SDK's parsers, codec, signing and ledger access, Node's
    base64 [Buffer] conversions, the package's [ErrorReasons] table and
    [encodePayment], and the EVM and SVM entries of the strategy table.
    [Signer] is the union [ConnectedClient | Signer] the dispatcher
    receives; [asHederaSigner] is the unchecked cast [client as HederaSigner]. *)
Class Externals : Type :=
  { AccountId_fromString : string -> Result AccountId;
    TokenId_fromString : string -> Result TokenId;
    Transaction_toBytes : Transaction -> Result bytes;
    Transaction_fromBytes : bytes -> Result Transaction;
    Transaction_sign : PrivateKey -> Transaction -> Result Transaction;
    Transaction_execute : World -> Transaction -> Client -> Result TransactionResponse;
    TransactionResponse_getReceipt : World -> TransactionResponse -> Client -> Arrival;
    Buffer_toBase64 : bytes -> string;
    Buffer_fromBase64 : string -> bytes;
    ErrorReasons : list string;
    encodePayment : PaymentPayload -> Result string;
    Signer : Type;
    asHederaSigner : Signer -> HederaSigner;
    verifyExactEvm : Signer -> PaymentPayload -> PaymentRequirements -> Result VerifyResponse;
    verifyExactSvm : Signer -> PaymentPayload -> PaymentRequirements -> Result VerifyResponse;
    settleExactEvm : Signer -> PaymentPayload -> PaymentRequirements -> M SettleResponse;
    settleExactSvm : Signer -> PaymentPayload -> PaymentRequirements -> M SettleResponse }.

(** [await transaction.sign(key)] *)
Definition sign `{Externals} (key : PrivateKey) (t : Transaction) : M Transaction :=
  fun w => (Transaction_sign key t, emit (Signed key t) w).

(** [await transaction.execute(client)] *)
Definition execute `{Externals} (t : Transaction) (c : Client) : M TransactionResponse :=
  fun w => (Transaction_execute w t c, emit (Executed t c) w).

(** [await transactionResponse.getReceipt(client)]: returns when the
    ledger's answer arrives, however long that takes. *)
Definition getReceipt `{Externals} (r : TransactionResponse) (c : Client)
  : M TransactionReceipt :=
  fun w =>
    let a := TransactionResponse_getReceipt w r c in
    (outcome a, elapse (latencyMs a) (emit (ReceiptAwaited r c) w)).

(** [Buffer.from(s, "base64")]: a TypeError when [s] is [undefined]. *)
Definition Buffer_from `{Externals} (s : option string) : Result bytes :=
  match s with
  | Some s => Ok (Buffer_fromBase64 s)
  | None =>
      Throw (Error "The first argument must be of type string or an instance of Buffer, ArrayBuffer, or Array or an Array-like Object. Received undefined")
  end.

(* ===================================================================== *)
(** * [shared/hedera/transaction.ts] *)
(* ===================================================================== *)

Module TransactionHelpers.

Definition createHbarTransferTransaction
    (fromAccount toAccount : AccountId) (amount : string) : Transaction :=
  addHbarTransfer toAccount (TinybarsOfString amount)
    (addHbarTransfer fromAccount (TinybarsOfNegated amount)
       newTransferTransaction).

Definition createTokenTransferTransaction
    (tokenId : TokenId) (fromAccount toAccount : AccountId) (amount : string)
  : Transaction :=
  addTokenTransfer tokenId toAccount (parseInt amount)
    (addTokenTransfer tokenId fromAccount (neg (parseInt amount))
       newTransferTransaction).

Definition serializeTransaction `{Externals} (t : Transaction) : Result string :=
  b <- Transaction_toBytes t ;;
  Ok (Buffer_toBase64 b).

Definition deserializeTransaction `{Externals} (transactionBytes : option string)
  : Result Transaction :=
  b <- Buffer_from transactionBytes ;;
  Transaction_fromBytes b.

Definition signTransaction `{Externals} (t : Transaction) (signer : HederaSigner)
  : M Transaction :=
  sign (Wallet.privateKey signer) t.

Definition addSignatureToTransaction `{Externals}
    (t : Transaction) (signer : HederaSigner) : M Transaction :=
  sign (Wallet.privateKey signer) t.

End TransactionHelpers.

(* ===================================================================== *)
(** * [schemes/exact/hedera/client.ts]: the builder *)
(* ===================================================================== *)

Module HederaClient.

Definition isHbarAddress (asset : string) : bool :=
  String.eqb asset "0.0.0" || String.eqb (toLowerCase asset) "hbar".

Definition createHbarTransferTransaction `{Externals}
    (client : HederaSigner) (facilitatorAccountId : AccountId)
    (paymentRequirements : PaymentRequirements) : M Transaction :=
  transactionId <~ TransactionId_generate facilitatorAccountId ;;
  let fromAccount := Wallet.accountId client in
  toAccount <~ lift (AccountId_fromString (payTo paymentRequirements)) ;;
  let amount := maxAmountRequired paymentRequirements in
  let transaction :=
    addHbarTransfer toAccount (TinybarsOfString amount)
      (addHbarTransfer fromAccount (TinybarsOfNegated amount)
         (setTransactionId transactionId newTransferTransaction)) in
  ret (freezeWith (Wallet.client client) transaction).

Definition createTokenTransferTransaction `{Externals}
    (client : HederaSigner) (facilitatorAccountId : AccountId)
    (paymentRequirements : PaymentRequirements) : M Transaction :=
  transactionId <~ TransactionId_generate facilitatorAccountId ;;
  let fromAccount := Wallet.accountId client in
  toAccount <~ lift (AccountId_fromString (payTo paymentRequirements)) ;;
  let amount := maxAmountRequired paymentRequirements in
  toTokenId <~ lift (TokenId_fromString (asset paymentRequirements)) ;;
  let transaction :=
    addTokenTransfer toTokenId toAccount (parseInt amount)
      (addTokenTransfer toTokenId fromAccount (neg (parseInt amount))
         (setTransactionId transactionId newTransferTransaction)) in
  ret (freezeWith (Wallet.client client) transaction).

Definition createTransferTransaction `{Externals}
    (client : HederaSigner) (paymentRequirements : PaymentRequirements)
  : M Transaction :=
  let facilitatorAccountIdStr := extra_feePayer paymentRequirements in
  match facilitatorAccountIdStr with
  | Some str =>
      if String.eqb str ""
      then throw "feePayer is required in paymentRequirements.extra"
      else
        facilitatorAccountId <~ lift (AccountId_fromString str) ;;
        if isHbarAddress (asset paymentRequirements)
        then createHbarTransferTransaction client facilitatorAccountId
               paymentRequirements
        else createTokenTransferTransaction client facilitatorAccountId
               paymentRequirements
  | None => throw "feePayer is required in paymentRequirements.extra"
  end.

Definition createAndSignPayment `{Externals}
    (client : HederaSigner) (x402Version : N)
    (paymentRequirements : PaymentRequirements) : M PaymentPayload :=
  transaction <~ createTransferTransaction client paymentRequirements ;;
  signedTransaction <~ sign (Wallet.privateKey client) transaction ;;
  base64EncodedTransaction <~
    lift (TransactionHelpers.serializeTransaction signedTransaction) ;;
  ret {| x402Version := x402Version;
         scheme := req_scheme paymentRequirements;
         network := req_network paymentRequirements;
         payload := ExactTransactionPayload base64EncodedTransaction |}.

Definition createPaymentHeader `{Externals}
    (client : HederaSigner) (x402Version : N)
    (paymentRequirements : PaymentRequirements) : M string :=
  paymentPayload <~ createAndSignPayment client x402Version paymentRequirements ;;
  lift (encodePayment paymentPayload).

End HederaClient.

(* ===================================================================== *)
(** * [schemes/exact/hedera/facilitator/verify.ts] *)
(* ===================================================================== *)

Module Verify.

Definition isHbarTransfer (asset : string) : bool :=
  String.eqb asset "0.0.0" || String.eqb (toLowerCase asset) "hbar".

Definition fail {A} (reason : string) : Result A := Throw (Error reason).

Definition verifySchemesAndNetworks
    (payload : PaymentPayload) (paymentRequirements : PaymentRequirements)
  : Result unit :=
  if negb (String.eqb (scheme payload) SCHEME)
     || negb (String.eqb (req_scheme paymentRequirements) SCHEME)
  then fail "unsupported_scheme"
  else if negb (String.eqb (network payload) (req_network paymentRequirements))
          || negb (Array_includes SupportedHederaNetworks
                     (req_network paymentRequirements))
  then fail "invalid_network"
  else Ok tt.

Definition validateHbarTransfer
    (transaction : Transaction) (paymentRequirements : PaymentRequirements)
  : Result unit :=
  if negb (isHbarTransfer (asset paymentRequirements))
  then fail "invalid_exact_hedera_payload_transaction_asset_mismatch"
  else Ok tt.

Definition validateTokenTransfer `{Externals}
    (transaction : Transaction) (paymentRequirements : PaymentRequirements)
  : Result unit :=
  if isHbarTransfer (asset paymentRequirements)
  then fail "invalid_exact_hedera_payload_transaction_asset_mismatch"
  else
    try_catch
      (_ <- TokenId_fromString (asset paymentRequirements) ;; Ok (Ok tt))
      (fun _ => fail "invalid_exact_hedera_payload_transaction_asset_mismatch").

Definition transactionIntrospection `{Externals}
    (signer : HederaSigner) (transaction : Transaction)
    (paymentRequirements : PaymentRequirements) : Result unit :=
  if negb (isTransferTransaction transaction)
  then fail "invalid_exact_hedera_payload_transaction"
  else
    match Sdk.transactionId transaction with
    | None => fail "invalid_exact_hedera_payload_transaction"
    | Some transactionId =>
        let signerId := AccountId_toString (Wallet.accountId signer) in
        let mismatch :=
          match Sdk.accountId transactionId with
          | None => true
          | Some transactionAccountId =>
              negb (String.eqb (AccountId_toString transactionAccountId) signerId)
          end in
        if mismatch
        then fail "invalid_exact_hedera_payload_transaction_signature"
        else
          let expectedFacilitatorId := extra_feePayer paymentRequirements in
          if falsy expectedFacilitatorId
             || negb (match expectedFacilitatorId with
                      | Some id => String.eqb id signerId
                      | None => false
                      end)
          then fail "invalid_exact_hedera_payload_transaction_signature"
          else
            transactionBytes <- Transaction_toBytes transaction ;;
            transactionBody <- Transaction_fromBytes transactionBytes ;;
            if isHbarTransfer (asset paymentRequirements)
            then validateHbarTransfer transaction paymentRequirements
            else validateTokenTransfer transaction paymentRequirements
    end.

Definition verify `{Externals}
    (signer : HederaSigner) (payload : PaymentPayload)
    (paymentRequirements : PaymentRequirements) : VerifyResponse :=
  try_catch
    (_ <- verifySchemesAndNetworks payload paymentRequirements ;;
     transaction <-
       TransactionHelpers.deserializeTransaction (payload_transaction payload) ;;
     _ <- transactionIntrospection signer transaction paymentRequirements ;;
     Ok {| isValid := true; invalidReason := None; verifyPayer := None |})
    (fun error =>
       if Array_includes ErrorReasons (message error)
       then {| isValid := false;
               invalidReason := Some (message error);
               verifyPayer := None |}
       else {| isValid := false;
               invalidReason := Some "unexpected_verify_error";
               verifyPayer := None |}).

End Verify.

(* ===================================================================== *)
(** * [schemes/exact/hedera/facilitator/settle.ts] *)
(* ===================================================================== *)

Module Settle.

Record Execution : Type :=
  { exec_success : bool;
    exec_errorReason : option string;
    exec_transactionId : string }.

Definition executeTransaction `{Externals}
    (transaction : Transaction) (signer : HederaSigner) : M Execution :=
  tryM
    (signedTransaction <~
       TransactionHelpers.addSignatureToTransaction transaction signer ;;
     transactionResponse <~ execute signedTransaction (Wallet.client signer) ;;
     receipt <~ getReceipt transactionResponse (Wallet.client signer) ;;
     if isSuccess (status receipt)
     then
       id <~ lift (TransactionId_toString
                     (responseTransactionId transactionResponse)) ;;
       ret {| exec_success := true;
              exec_errorReason := None;
              exec_transactionId := id |}
     else
       id <~ lift (TransactionId_toString
                     (responseTransactionId transactionResponse)) ;;
       ret {| exec_success := false;
              exec_errorReason := Some "settle_exact_hedera_transaction_failed";
              exec_transactionId := id |})
    (fun error =>
       if includes (message error) "INSUFFICIENT_ACCOUNT_BALANCE"
       then ret {| exec_success := false;
                   exec_errorReason :=
                     Some "invalid_exact_hedera_payload_transaction_insufficient_balance";
                   exec_transactionId := "" |}
       else if includes (message error) "timeout"
               || includes (message error) "TIMEOUT"
       then ret {| exec_success := false;
                   exec_errorReason :=
                     Some "settle_exact_hedera_transaction_confirmation_timeout";
                   exec_transactionId := "" |}
       else ret {| exec_success := false;
                   exec_errorReason := Some "settle_exact_hedera_transaction_failed";
                   exec_transactionId := "" |}).

Definition settle `{Externals}
    (signer : HederaSigner) (payload : PaymentPayload)
    (paymentRequirements : PaymentRequirements) : M SettleResponse :=
  let verifyResponse := Verify.verify signer payload paymentRequirements in
  if negb (isValid verifyResponse)
  then ret {| success := false;
              errorReason := invalidReason verifyResponse;
              settlePayer := None;
              settleTransaction := "";
              settleNetwork := network payload |}
  else
    transaction <~
      lift (TransactionHelpers.deserializeTransaction
              (payload_transaction payload)) ;;
    let payer := AccountId_toString (Wallet.accountId signer) in
    tryM
      (r <~ executeTransaction transaction signer ;;
       ret {| success := exec_success r;
              errorReason := exec_errorReason r;
              settlePayer := Some payer;
              settleTransaction := exec_transactionId r;
              settleNetwork := network payload |})
      (fun error =>
         ret {| success := false;
                errorReason := Some "unexpected_settle_error";
                settlePayer := None;
                settleTransaction := "";
                settleNetwork := network payload |}).

(** The default of the parameter [timeoutMs]. *)
Definition defaultTimeoutMs : N := 30000.

(** [Promise.race] of the receipt against a timer that rejects after
    [timeoutMs]: whichever settles first decides. *)
Definition waitForTransactionWithTimeout `{Externals}
    (transactionResponse : TransactionResponse) (client : Client)
    (timeoutMs : option N) : M TransactionReceipt :=
  fun w =>
    let timeoutMs := match timeoutMs with Some t => t | None => defaultTimeoutMs end in
    let a := TransactionResponse_getReceipt w transactionResponse client in
    let w' := emit (ReceiptAwaited transactionResponse client) w in
    if (latencyMs a <? timeoutMs)%N
    then (outcome a, elapse (latencyMs a) w')
    else (Throw (Error "Transaction confirmation timeout"), elapse timeoutMs w').

End Settle.

(* ===================================================================== *)
(** * The dispatcher: [verify] and [settle] over the strategy table *)
(* ===================================================================== *)

Module Facilitator.

(** [SupportedEVMNetworks.includes(network) ? payload.authorization.from : ""] *)
Definition fallbackPayer
    (payload : PaymentPayload) (paymentRequirements : PaymentRequirements)
  : Result string :=
  if Array_includes SupportedEVMNetworks (req_network paymentRequirements)
  then payload_authorization_from payload
  else Ok "".

Definition verify `{Externals}
    (client : Signer) (payload : PaymentPayload)
    (paymentRequirements : PaymentRequirements) : Result VerifyResponse :=
  let unsupported :=
    payer <- fallbackPayer payload paymentRequirements ;;
    Ok {| isValid := false;
          invalidReason := Some "invalid_scheme";
          verifyPayer := Some payer |} in
  if String.eqb (req_scheme paymentRequirements) "exact"
  then
    family <- getNetworkFamily (req_network paymentRequirements) ;;
    match family with
    | evm => verifyExactEvm client payload paymentRequirements
    | svm => verifyExactSvm client payload paymentRequirements
    | hedera =>
        Ok (Verify.verify (asHederaSigner client) payload paymentRequirements)
    end
  else unsupported.

Definition settle `{Externals}
    (client : Signer) (payload : PaymentPayload)
    (paymentRequirements : PaymentRequirements) : M SettleResponse :=
  let unsupported :=
    payer <~ lift (fallbackPayer payload paymentRequirements) ;;
    ret {| success := false;
           errorReason := Some "invalid_scheme";
           settlePayer := Some payer;
           settleTransaction := "";
           settleNetwork := req_network paymentRequirements |} in
  if String.eqb (req_scheme paymentRequirements) "exact"
  then
    family <~ lift (getNetworkFamily (req_network paymentRequirements)) ;;
    match family with
    | evm => settleExactEvm client payload paymentRequirements
    | svm => settleExactSvm client payload paymentRequirements
    | hedera =>
        Settle.settle (asHederaSigner client) payload paymentRequirements
    end
  else unsupported.

End Facilitator.

(* ===================================================================== *)
(** * The branch predicate as the specification words it *)
(* ===================================================================== *)

Module Spec.

(** Case-insensitive equality of two strings. *)
Definition equalsIgnoreCase (a b : string) : bool :=
  String.eqb (toLowerCase a) (toLowerCase b).

(** The fixed sentinel set that denotes the native currency. *)
Definition nativeSentinels : list string := ["0.0.0"; "hbar"; "HBAR"].

(** "native" when the asset matches a sentinel case-insensitively,
    "asset" otherwise. *)
Definition isNative (asset : string) : bool :=
  existsb (equalsIgnoreCase asset) nativeSentinels.

End Spec.

(* ===================================================================== *)
(** * Vocabulary of the statements *)
(* ===================================================================== *)

(** The sixteen spellings of "hbar". *)
Definition spelledHbar (s : string) : Prop :=
  exists c1 c2 c3 c4,
    s = String c1 (String c2 (String c3 (String c4 "")))
    /\ (c1 = "h"%char \/ c1 = "H"%char) /\ (c2 = "b"%char \/ c2 = "B"%char)
    /\ (c3 = "a"%char \/ c3 = "A"%char) /\ (c4 = "r"%char \/ c4 = "R"%char).

Definition isDecimalDigit (c : ascii) : bool :=
  let n := Z.of_nat (nat_of_ascii c) in (48 <=? n) && (n <=? 57).

(** A non-empty string of decimal digits. *)
Fixpoint allDecimalDigits (s : string) : bool :=
  match s with
  | EmptyString => true
  | String c s' => isDecimalDigit c && allDecimalDigits s'
  end.

Definition decimalDigits (s : string) : Prop :=
  s <> "" /\ allDecimalDigits s = true.

(** The integer a string of decimal digits denotes, read after [acc]. *)
Fixpoint decimalValueFrom (acc : Z) (s : string) : Z :=
  match s with
  | EmptyString => acc
  | String c s' => decimalValueFrom (acc * 10 + (Z.of_nat (nat_of_ascii c) - 48)) s'
  end.

Definition decimalValue (s : string) : Z := decimalValueFrom 0 s.

(** [t] starts with the letter that marks a hexadecimal literal after "0". *)
Definition hexMarker (t : string) : bool :=
  match t with
  | String "x" _ => true
  | String "X" _ => true
  | _ => false
  end.

(** The reason the identity step of the introspection throws. *)
Definition signatureMismatch : string :=
  "invalid_exact_hedera_payload_transaction_signature".

(** The response [verify] gives when a step throws [Error reason]: the
    reason itself when [ErrorReasons] lists it, the catch-all otherwise. *)
Definition rejection `{Externals} (reason : string) : VerifyResponse :=
  {| isValid := false;
     invalidReason :=
       Some (if Array_includes ErrorReasons reason then reason
             else "unexpected_verify_error");
     verifyPayer := None |}.

Definition accepted : VerifyResponse :=
  {| isValid := true; invalidReason := None; verifyPayer := None |}.

(** What [executeTransaction] returns when signing, submitting or the
    receipt query throws [e]. *)
Definition ledgerFailure (e : exn) : Settle.Execution :=
  {| Settle.exec_success := false;
     Settle.exec_errorReason :=
       Some (if includes (message e) "INSUFFICIENT_ACCOUNT_BALANCE"
             then "invalid_exact_hedera_payload_transaction_insufficient_balance"
             else if includes (message e) "timeout"
                     || includes (message e) "TIMEOUT"
             then "settle_exact_hedera_transaction_confirmation_timeout"
             else "settle_exact_hedera_transaction_failed");
     Settle.exec_transactionId := "" |}.

(** What [executeTransaction] returns once a receipt and the printed
    transaction id are in hand. *)
Definition ledgerVerdict (s : Status) (id : string) : Settle.Execution :=
  {| Settle.exec_success := isSuccess s;
     Settle.exec_errorReason :=
       if isSuccess s then None
       else Some "settle_exact_hedera_transaction_failed";
     Settle.exec_transactionId := id |}.

(** The response [settle] builds from an execution. *)
Definition settled (signer : HederaSigner) (payload : PaymentPayload)
    (r : Settle.Execution) : SettleResponse :=
  {| success := Settle.exec_success r;
     errorReason := Settle.exec_errorReason r;
     settlePayer := Some (AccountId_toString (Wallet.accountId signer));
     settleTransaction := Settle.exec_transactionId r;
     settleNetwork := network payload |}.

(** The frozen, unsigned transfer the builder makes: the fee payer's
    account and the clock in the transaction id, and the given legs. *)
Definition builtTransfer (feePayerAccount : AccountId) (now : N)
    (hbarLegs : list (AccountId * Tinybars))
    (tokenLegs : list (TokenId * AccountId * Number)) : Transaction :=
  {| class := TransferTransaction;
     transactionId :=
       Some {| Sdk.accountId := Some feePayerAccount; validStart := now |};
     hbarTransfers := hbarLegs;
     tokenTransfers := tokenLegs;
     frozen := true;
     signers := [] |}.

Definition hbarLegs (payerAccount payeeAccount : AccountId) (amount : string)
  : list (AccountId * Tinybars) :=
  [ (payerAccount, TinybarsOfNegated amount);
    (payeeAccount, TinybarsOfString amount) ].

Definition tokenLegs (tokenId : TokenId) (payerAccount payeeAccount : AccountId)
    (amount : string) : list (TokenId * AccountId * Number) :=
  [ (tokenId, payerAccount, neg (parseInt amount));
    (tokenId, payeeAccount, parseInt amount) ].

Definition feePayerRequired : exn :=
  Error "feePayer is required in paymentRequirements.extra".

(* ===================================================================== *)
(** * A test double for the SDK and the accounts of the test suite *)
(* ===================================================================== *)

Module Scenario.

Definition payer : AccountId := {| shard := 0; realm := 0; num := 123456 |}.
Definition payee : AccountId := {| shard := 0; realm := 0; num := 789012 |}.
Definition facilitator : AccountId := {| shard := 0; realm := 0; num := 999999 |}.
Definition stranger : AccountId := {| shard := 0; realm := 0; num := 555555 |}.
Definition usdc : TokenId :=
  {| tokenShard := 0; tokenRealm := 0; tokenNum := 429274 |}.

Definition testnet : Client := {| ledgerId := "testnet" |}.

Definition clientSigner : HederaSigner :=
  {| Wallet.client := testnet;
     Wallet.accountId := payer;
     Wallet.privateKey := "payer-key" |}.

Definition facilitatorSigner : HederaSigner :=
  {| Wallet.client := testnet;
     Wallet.accountId := facilitator;
     Wallet.privateKey := "facilitator-key" |}.

Fixpoint lookup {A} (table : list (string * A)) (key : string) : option A :=
  match table with
  | [] => None
  | (k, v) :: rest => if String.eqb k key then Some v else lookup rest key
  end.

Definition parseAccountId (s : string) : Result AccountId :=
  match lookup [ ("0.0.123456", payer); ("0.0.789012", payee);
                 ("0.0.999999", facilitator); ("0.0.555555", stranger) ] s with
  | Some a => Ok a
  | None => Throw (Error "Invalid account ID format")
  end.

Definition parseTokenId (s : string) : Result TokenId :=
  match lookup [ ("0.0.429274", usdc) ] s with
  | Some t => Ok t
  | None => Throw (Error "Invalid token ID format")
  end.

Definition addSigner (key : PrivateKey) (t : Transaction) : Transaction :=
  {| class := class t; transactionId := Sdk.transactionId t;
     hbarTransfers := hbarTransfers t; tokenTransfers := tokenTransfers t;
     frozen := frozen t; signers := signers t ++ [key] |}.

Definition submit (t : Transaction) : Result TransactionResponse :=
  match Sdk.transactionId t with
  | Some id => Ok {| responseTransactionId := id |}
  | None => Throw (Error "transactionId must be set")
  end.

Definition reasons : list string :=
  [ "insufficient_funds"; "invalid_scheme"; "invalid_network";
    "unsupported_scheme"; "unexpected_verify_error"; "unexpected_settle_error";
    "invalid_exact_hedera_payload_transaction";
    "invalid_exact_hedera_payload_transaction_signature";
    "invalid_exact_hedera_payload_transaction_asset_mismatch";
    "invalid_exact_hedera_payload_transaction_insufficient_balance";
    "settle_exact_hedera_transaction_failed";
    "settle_exact_hedera_transaction_confirmation_timeout" ].

Definition notExercised : VerifyResponse :=
  {| isValid := false; invalidReason := Some "unexpected_verify_error";
     verifyPayer := None |}.

(** The SDK double: every serialized transaction decodes to [decoded],
    and every receipt query is answered by [arrival]. *)
Definition sdk (decoded : Result Transaction) (arrival : Arrival) : Externals :=
  {| AccountId_fromString := parseAccountId;
     TokenId_fromString := parseTokenId;
     Transaction_toBytes := fun _ => Ok [];
     Transaction_fromBytes := fun _ => decoded;
     Transaction_sign := fun key t => Ok (addSigner key t);
     Transaction_execute := fun _ t _ => submit t;
     TransactionResponse_getReceipt := fun _ _ _ => arrival;
     Buffer_toBase64 := fun _ => "base64_encoded_transaction";
     Buffer_fromBase64 := fun _ => [];
     ErrorReasons := reasons;
     encodePayment := fun _ => Ok "encoded_payment_header";
     Signer := HederaSigner;
     asHederaSigner := fun s => s;
     verifyExactEvm := fun _ _ _ => Ok notExercised;
     verifyExactSvm := fun _ _ _ => Ok notExercised;
     settleExactEvm := fun _ _ _ => throw "not exercised";
     settleExactSvm := fun _ _ _ => throw "not exercised" |}.

Definition receiptAfter (ms : N) (s : Status) : Arrival :=
  {| latencyMs := ms; outcome := Ok {| status := s |} |}.

Definition start : World := {| trace := []; nowMs := 0 |}.

(** The requirements of the specification's scenario: 0.5 HBAR to
    0.0.789012, fees paid by 0.0.999999. *)
Definition hbarRequirements : PaymentRequirements :=
  {| req_scheme := "exact";
     req_network := "hedera-testnet";
     maxAmountRequired := "50000000";
     resource := "https://example.com/resource";
     description := "Test payment";
     mimeType := "application/json";
     payTo := "0.0.789012";
     maxTimeoutSeconds := 60;
     asset := "hbar";
     extra := Some {| feePayer := Some "0.0.999999" |} |}.

Definition withExtra (e : option Extra) (r : PaymentRequirements)
  : PaymentRequirements :=
  {| req_scheme := req_scheme r; req_network := req_network r;
     maxAmountRequired := maxAmountRequired r; resource := resource r;
     description := description r; mimeType := mimeType r;
     payTo := payTo r; maxTimeoutSeconds := maxTimeoutSeconds r;
     asset := asset r; extra := e |}.

Definition withNetwork (n : Network) (r : PaymentRequirements)
  : PaymentRequirements :=
  {| req_scheme := req_scheme r; req_network := n;
     maxAmountRequired := maxAmountRequired r; resource := resource r;
     description := description r; mimeType := mimeType r;
     payTo := payTo r; maxTimeoutSeconds := maxTimeoutSeconds r;
     asset := asset r; extra := extra r |}.

Definition withScheme (s : string) (r : PaymentRequirements)
  : PaymentRequirements :=
  {| req_scheme := s; req_network := req_network r;
     maxAmountRequired := maxAmountRequired r; resource := resource r;
     description := description r; mimeType := mimeType r;
     payTo := payTo r; maxTimeoutSeconds := maxTimeoutSeconds r;
     asset := asset r; extra := extra r |}.

Definition withAssetAmount (a amount : string) (r : PaymentRequirements)
  : PaymentRequirements :=
  {| req_scheme := req_scheme r; req_network := req_network r;
     maxAmountRequired := amount; resource := resource r;
     description := description r; mimeType := mimeType r;
     payTo := payTo r; maxTimeoutSeconds := maxTimeoutSeconds r;
     asset := a; extra := extra r |}.

(** The signed transfer the builder produces for [hbarRequirements]. *)
Definition hbarPayment : Transaction :=
  {| class := TransferTransaction;
     transactionId := Some {| accountId := Some facilitator; validStart := 0 |};
     hbarTransfers := [ (payer, TinybarsOfNegated "50000000");
                        (payee, TinybarsOfString "50000000") ];
     tokenTransfers := [];
     frozen := true;
     signers := ["payer-key"] |}.

(** That transfer before the payer signs it. *)
Definition hbarPayment_unsigned : Transaction :=
  {| class := TransferTransaction;
     transactionId := Some {| accountId := Some facilitator; validStart := 0 |};
     hbarTransfers := [ (payer, TinybarsOfNegated "50000000");
                        (payee, TinybarsOfString "50000000") ];
     tokenTransfers := [];
     frozen := true;
     signers := [] |}.

(** The same transfer labelled with another fee payer, and one that moves
    a different amount to a different account. *)
Definition strangerPayment : Transaction :=
  setTransactionId {| accountId := Some stranger; validStart := 0 |} hbarPayment.

Definition underpayment : Transaction :=
  {| class := TransferTransaction;
     transactionId := Some {| accountId := Some facilitator; validStart := 0 |};
     hbarTransfers := [ (payer, TinybarsOfNegated "1");
                        (stranger, TinybarsOfString "1") ];
     tokenTransfers := [];
     frozen := true;
     signers := ["payer-key"] |}.

Definition hbarPayload : PaymentPayload :=
  {| x402Version := 1;
     scheme := "exact";
     network := "hedera-testnet";
     payload := ExactTransactionPayload "base64_encoded_transaction" |}.

End Scenario.

(* ===================================================================== *)
(** * Chain identifiers ([types/shared/network.ts]) *)
(* ===================================================================== *)

Module ChainIds.

(** [map.set(k, v)]: a key keeps the place of its first insertion and
    takes the latest value. *)
Fixpoint Map_set {V} (k : string) (v : V) (m : list (string * V))
  : list (string * V) :=
  match m with
  | [] => [(k, v)]
  | (k', v') :: rest =>
      if String.eqb k' k then (k, v) :: rest else (k', v') :: Map_set k v rest
  end.

(** [new Map(entries)] and [Object.fromEntries(entries)] *)
Definition fromEntries {V} (entries : list (string * V)) : list (string * V) :=
  fold_left (fun m e => Map_set (fst e) (snd e) m) entries [].

Fixpoint get {V} (m : list (string * V)) (k : string) : option V :=
  match m with
  | [] => None
  | (k', v) :: rest => if String.eqb k' k then Some v else get rest k
  end.

Definition EvmNetworkToChainId : list (Network * N) :=
  fromEntries
    [ ("base-sepolia", 84532%N); ("base", 8453%N); ("avalanche-fuji", 43113%N);
      ("avalanche", 43114%N); ("iotex", 4689%N); ("sei", 1329%N);
      ("sei-testnet", 1328%N); ("polygon", 137%N); ("polygon-amoy", 80002%N);
      ("peaq", 3338%N) ].

Definition SvmNetworkToChainId : list (Network * N) :=
  fromEntries [ ("solana-devnet", 103%N); ("solana", 101%N) ].

Definition HederaNetworkToChainId : list (Network * N) :=
  fromEntries [ ("hedera-testnet", 296%N); ("hedera-mainnet", 295%N) ].

Definition chainIdNetworkPairs : list (Network * N) :=
  EvmNetworkToChainId ++ SvmNetworkToChainId ++ HederaNetworkToChainId.

(** [String(chainId)] keyed entries *)
Definition chainIdEntries : list (string * Network) :=
  map (fun p => (decimal (snd p), fst p)) chainIdNetworkPairs.

Definition ChainIdToNetwork : list (string * Network) :=
  fromEntries chainIdEntries.

(** [ChainIdToNetwork[chainId]] *)
Definition ChainIdToNetwork_at (chainId : N) : option Network :=
  get ChainIdToNetwork (decimal chainId).

End ChainIds.

(* ===================================================================== *)
(** * [shared/hedera/wallet.ts] and [shared/hedera/rpc.ts] *)
(* ===================================================================== *)

(** [PrivateKey.fromStringECDSA] of the SDK, and the EVM and SVM wallet
    modules that [types/shared/wallet.ts] dispatches to. *)
Class FamilyWallets : Type :=
  { PrivateKey_fromStringECDSA : string -> Result PrivateKey;
    EvmConnectedClient : Type;
    SvmConnectedClient : Type;
    EvmSigner : Type;
    SvmSigner : Type;
    evm_createConnectedClient : Network -> Result EvmConnectedClient;
    svm_createSvmConnectedClient : Network -> Result SvmConnectedClient;
    evm_createSigner : Network -> string -> Result EvmSigner;
    svm_createSignerFromBase58 : string -> Result SvmSigner }.

Module HederaWallet.

(** [Client.forTestnet()] and [Client.forMainnet()] *)
Definition Client_forTestnet : Client := {| ledgerId := "testnet" |}.
Definition Client_forMainnet : Client := {| ledgerId := "mainnet" |}.

Definition createHederaConnectedClient (network : string) : Result Client :=
  if String.eqb network "hedera-testnet" then Ok Client_forTestnet
  else if String.eqb network "hedera-mainnet" then Ok Client_forMainnet
  else Throw (Error ("Unsupported Hedera network: " ++ network)).

(** A signer together with the operator that [client.setOperator]
    installed on its client. *)
Record OperatedSigner : Type :=
  { signer : HederaSigner;
    operatorAccountId : AccountId;
    operatorKey : PrivateKey }.

Definition createHederaSigner `{Externals} `{FamilyWallets}
    (network privateKeyString accountId : string) : Result OperatedSigner :=
  client <- createHederaConnectedClient network ;;
  privateKey <- PrivateKey_fromStringECDSA privateKeyString ;;
  hederaAccountId <- AccountId_fromString accountId ;;
  Ok {| signer := {| Wallet.client := client;
                     Wallet.accountId := hederaAccountId;
                     Wallet.privateKey := privateKey |};
        operatorAccountId := hederaAccountId;
        operatorKey := privateKey |}.

(** [rpc.ts] *)
Definition getHederaClient (network : string) : Result Client :=
  createHederaConnectedClient network.

Definition getMirrorNodeUrl (network : string) : Result string :=
  if String.eqb network "hedera-testnet"
  then Ok "https://testnet.mirrornode.hedera.com"
  else if String.eqb network "hedera-mainnet"
  then Ok "https://mainnet-public.mirrornode.hedera.com"
  else Throw (Error ("Unsupported Hedera network: " ++ network)).

End HederaWallet.

(* ===================================================================== *)
(** * [types/shared/wallet.ts] *)
(* ===================================================================== *)

Module SharedWallet.

Inductive ConnectedClient `{FamilyWallets} : Type :=
| EvmConnected (c : EvmConnectedClient)
| SvmConnected (c : SvmConnectedClient)
| HederaConnected (c : Client).

Inductive AnySigner `{FamilyWallets} : Type :=
| OfEvm (s : EvmSigner)
| OfSvm (s : SvmSigner)
| OfHedera (s : HederaWallet.OperatedSigner).

Definition createConnectedClient `{FamilyWallets} (network : Network)
  : Result ConnectedClient :=
  if Array_includes SupportedEVMNetworks network
  then c <- evm_createConnectedClient network ;; Ok (EvmConnected c)
  else if Array_includes SupportedSVMNetworks network
  then c <- svm_createSvmConnectedClient network ;; Ok (SvmConnected c)
  else if Array_includes SupportedHederaNetworks network
  then c <- HederaWallet.createHederaConnectedClient network ;;
       Ok (HederaConnected c)
  else Throw (Error ("Unsupported network: " ++ network)).

(** The [options] record; the code reads [options?.accountId]. *)
Record SignerOptions : Type :=
  { option_accountId : option string }.

Definition options_accountId (options : option SignerOptions) : option string :=
  match options with
  | Some o => option_accountId o
  | None => None
  end.

Definition createSigner `{Externals} `{FamilyWallets}
    (network : Network) (privateKey : string)
    (options : option SignerOptions) : Result AnySigner :=
  if Array_includes SupportedEVMNetworks network
  then s <- evm_createSigner network privateKey ;; Ok (OfEvm s)
  else if Array_includes SupportedSVMNetworks network
  then s <- svm_createSignerFromBase58 privateKey ;; Ok (OfSvm s)
  else if Array_includes SupportedHederaNetworks network
  then
    match options_accountId options with
    | Some accountId =>
        if String.eqb accountId ""
        then Throw (Error "Hedera signer requires an accountId in options")
        else
          s <- HederaWallet.createHederaSigner network privateKey accountId ;;
          Ok (OfHedera s)
    | None => Throw (Error "Hedera signer requires an accountId in options")
    end
  else Throw (Error ("Unsupported network: " ++ network)).

End SharedWallet.

(* ===================================================================== *)
(** * [client/createPaymentHeader.ts]: the client-side dispatcher *)
(* ===================================================================== *)

Module ClientObjects.

(** A client object as the dispatcher inspects it.  [None] is [undefined];
    for [evm], [svm] and [hedera] the outer [option] tells whether the
    property is present (["evm" in client]).  [foreign] is whatever else
    the object holds: the state of an EVM or SVM wallet. *)
#[local] Set Warnings "-register-all".

Inductive ClientObject (F : Type) : Type :=
| Object (foreign : F)
         (client : option Client)
         (accountId : option AccountId)
         (privateKey : option PrivateKey)
         (evmMember svmMember hederaMember : option (option (ClientObject F))).
Arguments Object {F}.

Definition isDefined {A} (x : option A) : bool :=
  match x with Some _ => true | None => false end.

(** [client.evm], [client.svm], [client.hedera] *)
Definition prop_evm {F} (o : ClientObject F) : option (ClientObject F) :=
  match o with Object _ _ _ _ (Some v) _ _ => v | _ => None end.

Definition prop_svm {F} (o : ClientObject F) : option (ClientObject F) :=
  match o with Object _ _ _ _ _ (Some v) _ => v | _ => None end.

Definition prop_hedera {F} (o : ClientObject F) : option (ClientObject F) :=
  match o with Object _ _ _ _ _ _ (Some v) => v | _ => None end.

(** [isHederaSigner] of [shared/hedera/wallet.ts] *)
Definition isHederaSigner {F} (wallet : option (ClientObject F)) : bool :=
  match wallet with
  | None => false
  | Some (Object _ client accountId privateKey _ _ _) =>
      isDefined client && isDefined accountId && isDefined privateKey
  end.

(** [isMultiNetworkSigner] of [types/shared/wallet.ts] *)
Definition isMultiNetworkSigner {F} (wallet : ClientObject F) : bool :=
  match wallet with
  | Object _ _ _ _ evmMember svmMember hederaMember =>
      isDefined evmMember && isDefined svmMember && isDefined hederaMember
  end.

(** The object read as the [HederaSigner] the guard narrowed it to. *)
Definition narrowed {F} (wallet : option (ClientObject F)) : option HederaSigner :=
  match wallet with
  | Some (Object _ (Some c) (Some a) (Some k) _ _ _) =>
      Some {| Wallet.client := c; Wallet.accountId := a; Wallet.privateKey := k |}
  | _ => None
  end.

(** The object a [HederaSigner] is. *)
Definition ofHederaSigner {F} (foreign : F) (s : HederaSigner) : ClientObject F :=
  Object foreign (Some (Wallet.client s)) (Some (Wallet.accountId s))
    (Some (Wallet.privateKey s)) None None None.

End ClientObjects.

Import ClientObjects.

(** The EVM and SVM wallet guards and payment builders the dispatcher
    uses. *)
Class FamilyBuilders (F : Type) : Type :=
  { evm_isSignerWallet : option (ClientObject F) -> bool;
    evm_isAccount : option (ClientObject F) -> bool;
    svm_isSignerWallet : option (ClientObject F) -> bool;
    createPaymentHeaderExactEVM :
      option (ClientObject F) -> N -> PaymentRequirements -> M string;
    createPaymentHeaderExactSVM :
      option (ClientObject F) -> N -> PaymentRequirements -> M string }.

Module ClientDispatch.

Definition isEvmSignerWallet {F} `{FamilyBuilders F}
    (wallet : option (ClientObject F)) : bool :=
  evm_isSignerWallet wallet || evm_isAccount wallet.

Definition isSvmSignerWallet {F} `{FamilyBuilders F}
    (wallet : option (ClientObject F)) : bool :=
  svm_isSignerWallet wallet.

Definition isHederaSignerWallet {F} (wallet : option (ClientObject F)) : bool :=
  isHederaSigner wallet.

Definition createPaymentHeader {F} `{Externals} `{FamilyBuilders F}
    (client : ClientObject F) (x402Version : N)
    (paymentRequirements : PaymentRequirements) : M string :=
  if negb (String.eqb (req_scheme paymentRequirements) "exact")
  then throw "Unsupported scheme"
  else
    family <~ lift (getNetworkFamily (req_network paymentRequirements)) ;;
    match family with
    | evm =>
        let evmClient :=
          if isMultiNetworkSigner client then prop_evm client else Some client in
        if negb (isEvmSignerWallet evmClient)
        then throw "Invalid evm wallet client provided"
        else createPaymentHeaderExactEVM evmClient x402Version paymentRequirements
    | svm =>
        let svmClient :=
          if isMultiNetworkSigner client then prop_svm client else Some client in
        if negb (isSvmSignerWallet svmClient)
        then throw "Invalid svm wallet client provided"
        else createPaymentHeaderExactSVM svmClient x402Version paymentRequirements
    | hedera =>
        let hederaClient :=
          if isMultiNetworkSigner client then prop_hedera client else Some client in
        if negb (isHederaSignerWallet hederaClient)
        then throw "Invalid hedera wallet client provided"
        else
          match narrowed hederaClient with
          | Some signer =>
              HederaClient.createPaymentHeader signer x402Version
                paymentRequirements
          | None => throw "Invalid hedera wallet client provided"
          end
    end.

End ClientDispatch.

(* ===================================================================== *)
(** * [schemes/exact/hedera/client.ts], the revision that builds the
      transfer inline *)
(* ===================================================================== *)

Module HederaClientInline.

Definition isHbarAddress (asset : string) : bool :=
  String.eqb asset "0.0.0" || String.eqb (toLowerCase asset) "hbar".

Definition createTransferTransaction `{Externals}
    (client : HederaSigner) (paymentRequirements : PaymentRequirements)
  : M Transaction :=
  let fromAccount := Wallet.accountId client in
  toAccount <~ lift (AccountId_fromString (payTo paymentRequirements)) ;;
  let amount := maxAmountRequired paymentRequirements in
  let facilitatorAccountIdStr := extra_feePayer paymentRequirements in
  match facilitatorAccountIdStr with
  | Some str =>
      if String.eqb str ""
      then throw "feePayer is required in paymentRequirements.extra"
      else
        facilitatorAccountId <~ lift (AccountId_fromString str) ;;
        transactionId <~ TransactionId_generate facilitatorAccountId ;;
        if isHbarAddress (asset paymentRequirements)
        then
          let transaction :=
            addHbarTransfer toAccount (TinybarsOfString amount)
              (addHbarTransfer fromAccount (TinybarsOfNegated amount)
                 (setTransactionId transactionId newTransferTransaction)) in
          ret (freezeWith (Wallet.client client) transaction)
        else
          tokenId <~ lift (TokenId_fromString (asset paymentRequirements)) ;;
          let transaction :=
            addTokenTransfer tokenId toAccount (parseInt amount)
              (addTokenTransfer tokenId fromAccount (neg (parseInt amount))
                 (setTransactionId transactionId newTransferTransaction)) in
          ret (freezeWith (Wallet.client client) transaction)
  | None => throw "feePayer is required in paymentRequirements.extra"
  end.

Definition createAndSignPayment `{Externals}
    (client : HederaSigner) (x402Version : N)
    (paymentRequirements : PaymentRequirements) : M PaymentPayload :=
  transaction <~ createTransferTransaction client paymentRequirements ;;
  signedTransaction <~ sign (Wallet.privateKey client) transaction ;;
  base64EncodedTransaction <~
    lift (TransactionHelpers.serializeTransaction signedTransaction) ;;
  ret {| x402Version := x402Version;
         scheme := req_scheme paymentRequirements;
         network := req_network paymentRequirements;
         payload := ExactTransactionPayload base64EncodedTransaction |}.

Definition createPaymentHeader `{Externals}
    (client : HederaSigner) (x402Version : N)
    (paymentRequirements : PaymentRequirements) : M string :=
  paymentPayload <~ createAndSignPayment client x402Version paymentRequirements ;;
  lift (encodePayment paymentPayload).

End HederaClientInline.

(* ===================================================================== *)
(** * Test doubles for the wallet modules and the client objects *)
(* ===================================================================== *)

Module Fixtures.

Definition parseKey (s : string) : Result PrivateKey :=
  if String.eqb s "" then Throw (Error "Invalid private key") else Ok s.

Definition wallets : FamilyWallets :=
  {| PrivateKey_fromStringECDSA := parseKey;
     EvmConnectedClient := Network;
     SvmConnectedClient := Network;
     EvmSigner := string;
     SvmSigner := string;
     evm_createConnectedClient := fun n => Ok n;
     svm_createSvmConnectedClient := fun n => Ok n;
     evm_createSigner := fun _ key => Ok key;
     svm_createSignerFromBase58 := fun key => Ok key |}.

(** A contract call carrying the facilitator's transaction id, a token
    requirement, and a token transfer transaction. *)
Definition contractCall : Transaction :=
  {| class := ContractExecuteTransaction;
     transactionId :=
       Some {| Sdk.accountId := Some Scenario.facilitator; validStart := 0 |};
     hbarTransfers := [];
     tokenTransfers := [];
     frozen := true;
     signers := ["payer-key"] |}.

Definition usdcRequirements : PaymentRequirements :=
  Scenario.withAssetAmount "0.0.429274" "1000000" Scenario.hbarRequirements.

Definition badTokenRequirements : PaymentRequirements :=
  Scenario.withAssetAmount "invalid-token-id" "1000000"
    Scenario.hbarRequirements.

(** Guards and builders for the other families, and client objects: a
    bare object, a Hedera signer, and a multi-network signer whose Hedera
    member is that signer. *)
Definition builders : FamilyBuilders unit :=
  {| evm_isSignerWallet := fun _ => false;
     evm_isAccount := fun _ => false;
     svm_isSignerWallet := fun _ => false;
     createPaymentHeaderExactEVM := fun _ _ _ => throw "not exercised";
     createPaymentHeaderExactSVM := fun _ _ _ => throw "not exercised" |}.

Definition bareObject : ClientObject unit :=
  Object tt None None None None None None.

Definition hederaObject : ClientObject unit :=
  ofHederaSigner tt Scenario.clientSigner.

Definition multiObject : ClientObject unit :=
  Object tt None None None
    (Some (Some bareObject)) (Some (Some bareObject))
    (Some (Some hederaObject)).

End Fixtures.

(* ===================================================================== *)
(** * Theorems: the network registry *)
(* ===================================================================== *)

Lemma Array_includes_In (xs : list string) (x : string) :
  Array_includes xs x = true <-> In x xs.
Proof.
  unfold Array_includes. rewrite existsb_exists. split.
  - intros [y [Hin Heq]]. apply String.eqb_eq in Heq. now subst.
  - intros Hin. exists x. split; [assumption | apply String.eqb_refl].
Qed.

Lemma Array_includes_not_In (xs : list string) (x : string) :
  ~ In x xs -> Array_includes xs x = false.
Proof.
  intros Hn. destruct (Array_includes xs x) eqn:E; [|reflexivity].
  apply Array_includes_In in E. contradiction.
Qed.

Lemma family_tables_within_schema (f : NetworkFamily) (n : Network) :
  In n (networksOf f) -> In n NetworkSchema.
Proof.
  intros Hin. apply Array_includes_In.
  destruct f; simpl in Hin;
    repeat (destruct Hin as [<- | Hin]; [reflexivity|]); contradiction.
Qed.

(** C8. The classifier is total on the static network table, every
    network of the table is claimed by exactly one family, which is the
    one the classifier returns, and a network outside the table makes it
    throw "Unsupported network" instead of returning a family. *)
Theorem getNetworkFamily_total_exclusive (n : Network) :
  (In n NetworkSchema ->
     exists f, getNetworkFamily n = Ok f /\ familiesClaiming n = [f]) /\
  (~ In n NetworkSchema ->
     getNetworkFamily n = Throw (Error ("Unsupported network: " ++ n))
     /\ familiesClaiming n = []).
Proof.
  split.
  - intros Hin. simpl in Hin.
    repeat (destruct Hin as [<- | Hin];
            [eexists; split; reflexivity|]).
    contradiction.
  - intros Hout.
    assert (Hno : forall f, Array_includes (networksOf f) n = false).
    { intros f. apply Array_includes_not_In. intros Hin.
      apply Hout. eapply family_tables_within_schema; eassumption. }
    pose proof (Hno evm) as He. pose proof (Hno svm) as Hs.
    pose proof (Hno hedera) as Hh. cbn [networksOf] in He, Hs, Hh.
    unfold getNetworkFamily, familiesClaiming. cbn [filter networksOf].
    rewrite He, Hs, Hh. split; reflexivity.
Qed.

Lemma getNetworkFamily_total_exclusive_witness :
  (exists f, getNetworkFamily "hedera-testnet" = Ok f
             /\ familiesClaiming "hedera-testnet" = [f]) /\
  (getNetworkFamily "ethereum"
   = Throw (Error ("Unsupported network: " ++ "ethereum"))
   /\ familiesClaiming "ethereum" = []).
Proof.
  split.
  - apply (proj1 (getNetworkFamily_total_exclusive "hedera-testnet")).
    simpl. tauto.
  - apply (proj2 (getNetworkFamily_total_exclusive "ethereum")).
    simpl. intros H.
    repeat (destruct H as [H | H]; [discriminate H|]). exact H.
Defined.

(* ===================================================================== *)
(** * Theorems: the native-versus-asset branch *)
(* ===================================================================== *)

Ltac by_ascii_cases c :=
  destruct c as [[] [] [] [] [] [] [] []]; vm_compute;
  intros H; solve [ discriminate H | auto ].

Lemma toLowerChar_0 c : toLowerChar c = "0"%char -> c = "0"%char.
Proof. by_ascii_cases c. Qed.

Lemma toLowerChar_dot c : toLowerChar c = "."%char -> c = "."%char.
Proof. by_ascii_cases c. Qed.

Lemma toLowerChar_h c :
  toLowerChar c = "h"%char -> c = "h"%char \/ c = "H"%char.
Proof. by_ascii_cases c. Qed.

Lemma toLowerChar_b c :
  toLowerChar c = "b"%char -> c = "b"%char \/ c = "B"%char.
Proof. by_ascii_cases c. Qed.

Lemma toLowerChar_a c :
  toLowerChar c = "a"%char -> c = "a"%char \/ c = "A"%char.
Proof. by_ascii_cases c. Qed.

Lemma toLowerChar_r c :
  toLowerChar c = "r"%char -> c = "r"%char \/ c = "R"%char.
Proof. by_ascii_cases c. Qed.

Lemma toLowerCase_empty s : toLowerCase s = "" -> s = "".
Proof. destruct s; [reflexivity | discriminate]. Qed.

Lemma toLowerCase_zero_id s : toLowerCase s = "0.0.0" <-> s = "0.0.0".
Proof.
  split; [| intros ->; reflexivity].
  destruct s as [|c1 [|c2 [|c3 [|c4 [|c5 s]]]]]; try discriminate.
  simpl. intros H. injection H as H1 H2 H3 H4 H5 H6.
  apply toLowerChar_0 in H1, H3, H5. apply toLowerChar_dot in H2, H4.
  apply toLowerCase_empty in H6. now subst.
Qed.

Lemma toLowerCase_hbar s : toLowerCase s = "hbar" <-> spelledHbar s.
Proof.
  split.
  - destruct s as [|c1 [|c2 [|c3 [|c4 s]]]]; try discriminate.
    simpl. intros H. injection H as H1 H2 H3 H4 H5.
    apply toLowerCase_empty in H5. subst s.
    exists c1, c2, c3, c4. split; [reflexivity|].
    auto using toLowerChar_h, toLowerChar_b, toLowerChar_a, toLowerChar_r.
  - intros (c1 & c2 & c3 & c4 & -> & H1 & H2 & H3 & H4).
    destruct H1 as [-> | ->], H2 as [-> | ->], H3 as [-> | ->],
             H4 as [-> | ->]; reflexivity.
Qed.

Lemma isHbarTransfer_true asset :
  Verify.isHbarTransfer asset = true
  <-> asset = "0.0.0" \/ toLowerCase asset = "hbar".
Proof.
  unfold Verify.isHbarTransfer.
  rewrite orb_true_iff, !String.eqb_eq. reflexivity.
Qed.

(** C6. The builder's predicate [isHbarAddress] and the verifier's
    predicate [isHbarTransfer] are the same function; it answers "native"
    exactly for "0.0.0" and for the strings that equal "hbar" up to letter
    case, and it agrees with the case-insensitive match against the
    sentinel set {"0.0.0", "hbar", "HBAR"} of the specification. *)
Theorem native_branch_same_predicate (asset : string) :
  HederaClient.isHbarAddress asset = Verify.isHbarTransfer asset
  /\ (Verify.isHbarTransfer asset = true
      <-> asset = "0.0.0" \/ spelledHbar asset)
  /\ Verify.isHbarTransfer asset = Spec.isNative asset.
Proof.
  split; [reflexivity|]. split.
  - rewrite isHbarTransfer_true, toLowerCase_hbar. reflexivity.
  - apply eq_true_iff_eq. rewrite isHbarTransfer_true.
    unfold Spec.isNative, Spec.nativeSentinels, Spec.equalsIgnoreCase.
    cbn [existsb]. rewrite !orb_true_iff, !String.eqb_eq.
    change (toLowerCase "0.0.0") with "0.0.0".
    change (toLowerCase "hbar") with "hbar".
    change (toLowerCase "HBAR") with "hbar".
    rewrite toLowerCase_zero_id.
    split; [tauto | intros [H | [H | [H | H]]]; auto; discriminate H].
Qed.

Lemma native_branch_same_predicate_witness :
  Verify.isHbarTransfer "HbAr" = true.
Proof.
  apply (proj1 (proj2 (native_branch_same_predicate "HbAr"))).
  right. exists "H"%char, "b"%char, "A"%char, "r"%char.
  repeat split; auto.
Defined.

(* ===================================================================== *)
(** * Theorems: amounts of token transfers *)
(* ===================================================================== *)

Lemma radixDigit_decimal c :
  isDecimalDigit c = true ->
  radixDigit 10 c = Some (Z.of_nat (nat_of_ascii c) - 48).
Proof.
  unfold isDecimalDigit, radixDigit, digitOf. cbv zeta. intros H.
  rewrite H. apply andb_true_iff in H as [H1 H2].
  apply Z.leb_le in H1, H2.
  destruct (Z.of_nat (nat_of_ascii c) - 48 <? 10) eqn:E; [reflexivity|].
  apply Z.ltb_ge in E. lia.
Qed.

Lemma parseDigits_decimal s : forall acc rest,
  allDecimalDigits s = true ->
  parseDigits 10 (s ++ rest) (Some acc)
  = parseDigits 10 rest (Some (decimalValueFrom acc s)).
Proof.
  induction s as [|c s IH]; intros acc rest H; [reflexivity|].
  simpl in H. apply andb_true_iff in H as [Hc Hs].
  cbn [append parseDigits decimalValueFrom].
  rewrite (radixDigit_decimal c Hc). now rewrite IH.
Qed.

Lemma parseDigits_decimal_first s rest :
  decimalDigits s ->
  parseDigits 10 (s ++ rest) None
  = parseDigits 10 rest (Some (decimalValue s)).
Proof.
  intros [Hne H]. destruct s as [|c s]; [contradiction|].
  simpl in H. apply andb_true_iff in H as [Hc Hs].
  cbn [append parseDigits]. rewrite (radixDigit_decimal c Hc).
  rewrite parseDigits_decimal by assumption.
  unfold decimalValue. cbn [decimalValueFrom]. reflexivity.
Qed.

Lemma digit_first_plain c t :
  isDecimalDigit c = true -> hexMarker t = false ->
  parseInt (String c t)
  = match parseDigits 10 (String c t) None with
    | None => NaN
    | Some m => toNumber false m
    end.
Proof.
  intros Hc Hx. unfold parseInt. cbn [trimStart].
  destruct c as [[] [] [] [] [] [] [] []]; try discriminate Hc;
    try reflexivity;
    destruct t as [|d t]; try reflexivity;
    destruct d as [[] [] [] [] [] [] [] []];
    try discriminate Hx; reflexivity.
Qed.

Lemma hexMarker_digits s rest :
  allDecimalDigits s = true -> hexMarker rest = false ->
  hexMarker (s ++ rest) = false.
Proof.
  intros Hs Hrest. destruct s as [|d s]; [exact Hrest|].
  simpl in Hs. apply andb_true_iff in Hs as [Hd _].
  cbn [append].
  destruct d as [[] [] [] [] [] [] [] []]; try discriminate Hd; reflexivity.
Qed.

Lemma parseInt_decimal_prefix s rest :
  decimalDigits s -> hexMarker rest = false ->
  parseDigits 10 rest (Some (decimalValue s)) = Some (decimalValue s) ->
  parseInt (s ++ rest) = toNumber false (decimalValue s).
Proof.
  intros Hd Hx Hrest. pose proof Hd as [Hne Hall].
  destruct s as [|c s]; [contradiction|].
  simpl in Hall. apply andb_true_iff in Hall as [Hc Hs].
  cbn [append].
  rewrite (digit_first_plain c (s ++ rest) Hc (hexMarker_digits s rest Hs Hx)).
  change (String c (s ++ rest)) with (String c s ++ rest)%string.
  rewrite (parseDigits_decimal_first (String c s) rest Hd), Hrest.
  reflexivity.
Qed.

Lemma append_empty_r (s : string) : (s ++ "")%string = s.
Proof. induction s; simpl; congruence. Qed.

Lemma toNumber_exact (m : Z) :
  m < 2 ^ 53 -> toNumber false m = Num m.
Proof.
  intros Hm. unfold toNumber, roundToDouble. cbv zeta.
  destruct (m <? 2 ^ 53) eqn:E; [|apply Z.ltb_ge in E; lia].
  destruct (2 ^ 1024 <=? m) eqn:E2; [|reflexivity].
  apply Z.leb_le in E2.
  assert (2 ^ 53 < 2 ^ 1024) by (apply Z.pow_lt_mono_r; lia). lia.
Qed.

(** C7 (as the code has it). The token-transfer builders never reject an
    amount: both legs are computed with [parseInt], the debit leg being the
    negation of the credit leg.  [parseInt] keeps the leading digits of a
    fractional string and drops the rest, and on a string of decimal
    digits below 2^53 it yields exactly the declared amount. *)
Theorem token_legs_use_parseInt `{Externals}
    (client : HederaSigner) (facilitatorAccountId : AccountId)
    (paymentRequirements : PaymentRequirements) (w : World)
    (toAccount : AccountId) (tokenId : TokenId) :
  AccountId_fromString (payTo paymentRequirements) = Ok toAccount ->
  TokenId_fromString (asset paymentRequirements) = Ok tokenId ->
  let amount := maxAmountRequired paymentRequirements in
  let legs :=
    [ (tokenId, Wallet.accountId client, neg (parseInt amount));
      (tokenId, toAccount, parseInt amount) ] in
  (exists t,
     HederaClient.createTokenTransferTransaction client facilitatorAccountId
       paymentRequirements w = (Ok t, w)
     /\ tokenTransfers t = legs)
  /\ tokenTransfers
       (TransactionHelpers.createTokenTransferTransaction tokenId
          (Wallet.accountId client) toAccount amount) = legs
  /\ (forall digits fraction,
        decimalDigits digits ->
        parseInt (digits ++ "." ++ fraction) = parseInt digits)
  /\ (decimalDigits amount -> decimalValue amount < 2 ^ 53 ->
      parseInt amount = Num (decimalValue amount)).
Proof.
  intros Hto Htok amount legs. repeat split.
  - unfold HederaClient.createTokenTransferTransaction, bind, lift, ret,
      TransactionId_generate.
    rewrite Hto, Htok. eexists. split; reflexivity.
  - intros digits fraction Hd.
    rewrite <- (append_empty_r digits) at 2.
    rewrite !parseInt_decimal_prefix by (assumption || reflexivity).
    reflexivity.
  - intros Hd Hsmall.
    rewrite <- (append_empty_r amount) at 1.
    rewrite parseInt_decimal_prefix by (assumption || reflexivity).
    now apply toNumber_exact.
Qed.

(* ===================================================================== *)
(** * Theorems: the builder requires a fee payer *)
(* ===================================================================== *)

Ltac run_M :=
  unfold bind, lift, ret, throw, tryM, sign, execute, getReceipt,
    TransactionId_generate in *.

Lemma createTransferTransaction_no_feePayer `{Externals}
    (client : HederaSigner) (paymentRequirements : PaymentRequirements)
    (w : World) :
  falsy (extra_feePayer paymentRequirements) = true ->
  HederaClient.createTransferTransaction client paymentRequirements w
  = (Throw (Error "feePayer is required in paymentRequirements.extra"), w).
Proof.
  unfold HederaClient.createTransferTransaction, falsy.
  destruct (extra_feePayer paymentRequirements) as [str|]; [|reflexivity].
  intros ->. reflexivity.
Qed.

Lemma createTransferTransaction_feePayer `{Externals}
    (client : HederaSigner) (paymentRequirements : PaymentRequirements)
    (w w' : World) (t : Transaction) :
  HederaClient.createTransferTransaction client paymentRequirements w
  = (Ok t, w') ->
  exists str a,
    extra_feePayer paymentRequirements = Some str
    /\ str <> ""
    /\ AccountId_fromString str = Ok a
    /\ Sdk.transactionId t
       = Some {| Sdk.accountId := Some a; validStart := nowMs w |}
    /\ w' = w.
Proof.
  unfold HederaClient.createTransferTransaction.
  destruct (extra_feePayer paymentRequirements) as [str|];
    [|discriminate].
  destruct (String.eqb str "") eqn:Estr; [discriminate|].
  apply String.eqb_neq in Estr.
  unfold HederaClient.createHbarTransferTransaction,
    HederaClient.createTokenTransferTransaction.
  run_M.
  destruct (AccountId_fromString str) as [a|e] eqn:Ea; [|discriminate].
  intros Hrun. exists str, a.
  destruct (HederaClient.isHbarAddress (asset paymentRequirements));
    destruct (AccountId_fromString (payTo paymentRequirements));
    try discriminate Hrun.
  - injection Hrun as <- <-. repeat split; auto.
  - destruct (TokenId_fromString (asset paymentRequirements));
      try discriminate Hrun.
    injection Hrun as <- <-. repeat split; auto.
Qed.

(** C9. When [extra.feePayer] is missing (or empty), [createAndSignPayment]
    and [createPaymentHeader] throw "feePayer is required in
    paymentRequirements.extra" and leave the world as it was: no signature
    has been produced.  Whenever the builder does produce a transaction,
    its transaction id carries the account parsed from [extra.feePayer],
    not a default. *)
Theorem builder_requires_feePayer `{Externals}
    (client : HederaSigner) (x402Version : N)
    (paymentRequirements : PaymentRequirements) (w : World) :
  (falsy (extra_feePayer paymentRequirements) = true ->
     HederaClient.createAndSignPayment client x402Version paymentRequirements w
     = (Throw (Error "feePayer is required in paymentRequirements.extra"), w)
     /\ HederaClient.createPaymentHeader client x402Version paymentRequirements w
        = (Throw (Error "feePayer is required in paymentRequirements.extra"), w))
  /\ (forall t w',
        HederaClient.createTransferTransaction client paymentRequirements w
        = (Ok t, w') ->
        exists str a,
          extra_feePayer paymentRequirements = Some str
          /\ AccountId_fromString str = Ok a
          /\ Sdk.transactionId t
             = Some {| Sdk.accountId := Some a; validStart := nowMs w |}).
Proof.
  split.
  - intros Hmissing.
    assert (Hsign :
      HederaClient.createAndSignPayment client x402Version paymentRequirements w
      = (Throw (Error "feePayer is required in paymentRequirements.extra"), w)).
    { unfold HederaClient.createAndSignPayment, bind.
      now rewrite createTransferTransaction_no_feePayer. }
    split; [exact Hsign|].
    unfold HederaClient.createPaymentHeader, bind. now rewrite Hsign.
  - intros t w' Hrun.
    destruct (createTransferTransaction_feePayer _ _ _ _ _ Hrun)
      as (str & a & H1 & _ & H2 & H3 & _).
    exists str, a. auto.
Qed.

Lemma builder_requires_feePayer_witness :
  let ext := Scenario.sdk (Ok Scenario.hbarPayment)
               (Scenario.receiptAfter 100 Success) in
  let noFeePayer :=
    Scenario.withExtra (Some {| feePayer := None |}) Scenario.hbarRequirements in
  HederaClient.createAndSignPayment Scenario.clientSigner 1 noFeePayer
    Scenario.start
  = (Throw (Error "feePayer is required in paymentRequirements.extra"),
     Scenario.start)
  /\ HederaClient.createPaymentHeader Scenario.clientSigner 1 noFeePayer
       Scenario.start
     = (Throw (Error "feePayer is required in paymentRequirements.extra"),
        Scenario.start).
Proof.
  intros ext noFeePayer.
  apply (proj1 (@builder_requires_feePayer ext Scenario.clientSigner 1
                  noFeePayer Scenario.start)).
  reflexivity.
Defined.

(* ===================================================================== *)
(** * Theorems: the verifier *)
(* ===================================================================== *)

Lemma verify_of_throw `{Externals}
    (signer : HederaSigner) (payload : PaymentPayload)
    (paymentRequirements : PaymentRequirements) (msg : string) :
  (_ <- Verify.verifySchemesAndNetworks payload paymentRequirements ;;
   transaction <-
     TransactionHelpers.deserializeTransaction (payload_transaction payload) ;;
   Verify.transactionIntrospection signer transaction paymentRequirements)
  = Throw (Error msg) ->
  Verify.verify signer payload paymentRequirements
  = {| isValid := false;
       invalidReason :=
         Some (if Array_includes ErrorReasons msg then msg
               else "unexpected_verify_error");
       verifyPayer := None |}.
Proof.
  unfold Verify.verify, rbind.
  destruct (Verify.verifySchemesAndNetworks payload paymentRequirements)
    as [u|e]; cbn [try_catch].
  - destruct (TransactionHelpers.deserializeTransaction
                (payload_transaction payload)) as [t|e]; cbn [try_catch].
    + intros ->. cbn [try_catch message].
      destruct (Array_includes ErrorReasons msg); reflexivity.
    + intros [= ->]. cbn [message].
      destruct (Array_includes ErrorReasons msg); reflexivity.
  - intros [= ->]. cbn [message].
    destruct (Array_includes ErrorReasons msg); reflexivity.
Qed.

Lemma verify_of_ok `{Externals}
    (signer : HederaSigner) (payload : PaymentPayload)
    (paymentRequirements : PaymentRequirements) (t : Transaction) :
  Verify.verifySchemesAndNetworks payload paymentRequirements = Ok tt ->
  TransactionHelpers.deserializeTransaction (payload_transaction payload)
  = Ok t ->
  Verify.transactionIntrospection signer t paymentRequirements = Ok tt ->
  Verify.verify signer payload paymentRequirements
  = {| isValid := true; invalidReason := None; verifyPayer := None |}.
Proof.
  intros H1 H2 H3. unfold Verify.verify, rbind. now rewrite H1, H2, H3.
Qed.

(** The identity step of the introspection: the checks of lines 116-125. *)
Lemma introspection_identity `{Externals}
    (signer : HederaSigner) (t : Transaction)
    (paymentRequirements : PaymentRequirements)
    (id : TransactionId) (a : AccountId) :
  isTransferTransaction t = true ->
  Sdk.transactionId t = Some id ->
  Sdk.accountId id = Some a ->
  (extra_feePayer paymentRequirements <> Some (AccountId_toString a)
   \/ AccountId_toString a <> AccountId_toString (Wallet.accountId signer)) ->
  Verify.transactionIntrospection signer t paymentRequirements
  = Throw (Error signatureMismatch).
Proof.
  intros Hclass Hid Ha Hdiff. unfold Verify.transactionIntrospection.
  rewrite Hclass, Hid, Ha. cbn [negb].
  destruct (String.eqb (AccountId_toString a)
              (AccountId_toString (Wallet.accountId signer))) eqn:E;
    cbn [negb]; [|reflexivity].
  apply String.eqb_eq in E.
  destruct (extra_feePayer paymentRequirements) as [fp|]; [|reflexivity].
  cbn [falsy]. destruct (String.eqb fp "") ; [reflexivity|]. cbn [orb].
  destruct (String.eqb fp (AccountId_toString (Wallet.accountId signer)))
    eqn:E2; [|reflexivity].
  apply String.eqb_eq in E2. exfalso.
  destruct Hdiff as [Hd | Hd]; apply Hd; congruence.
Qed.

Lemma introspection_rejects `{Externals}
    (signer : HederaSigner) (t : Transaction)
    (paymentRequirements : PaymentRequirements)
    (id : TransactionId) (a : AccountId) :
  Sdk.transactionId t = Some id ->
  Sdk.accountId id = Some a ->
  (extra_feePayer paymentRequirements <> Some (AccountId_toString a)
   \/ AccountId_toString a <> AccountId_toString (Wallet.accountId signer)) ->
  exists msg,
    Verify.transactionIntrospection signer t paymentRequirements
    = Throw (Error msg).
Proof.
  intros Hid Ha Hdiff.
  destruct (isTransferTransaction t) eqn:Hclass.
  - eexists. eapply introspection_identity; eassumption.
  - unfold Verify.transactionIntrospection. rewrite Hclass.
    eexists. reflexivity.
Qed.

Lemma introspection_ok_inv `{Externals}
    (signer : HederaSigner) (t : Transaction)
    (paymentRequirements : PaymentRequirements) (u : unit) :
  Verify.transactionIntrospection signer t paymentRequirements = Ok u ->
  exists id a,
    isTransferTransaction t = true
    /\ Sdk.transactionId t = Some id
    /\ Sdk.accountId id = Some a
    /\ extra_feePayer paymentRequirements = Some (AccountId_toString a)
    /\ AccountId_toString a = AccountId_toString (Wallet.accountId signer).
Proof.
  unfold Verify.transactionIntrospection. intros Hok.
  destruct (isTransferTransaction t) eqn:Eclass; [|discriminate Hok].
  destruct (Sdk.transactionId t) as [id|] eqn:Eid; [|discriminate Hok].
  destruct (Sdk.accountId id) as [a|] eqn:Ea; [|discriminate Hok].
  destruct (String.eqb (AccountId_toString a)
              (AccountId_toString (Wallet.accountId signer))) eqn:Eown;
    [|discriminate Hok].
  apply String.eqb_eq in Eown. cbn [negb] in Hok.
  destruct (extra_feePayer paymentRequirements) as [fp|] eqn:Efp;
    [|discriminate Hok].
  cbn [falsy] in Hok.
  destruct (String.eqb fp "") ; [discriminate Hok|]. cbn [orb] in Hok.
  destruct (String.eqb fp (AccountId_toString (Wallet.accountId signer)))
    eqn:Efee; [|discriminate Hok].
  apply String.eqb_eq in Efee.
  exists id, a. repeat split; congruence.
Qed.

Lemma verify_valid_inv `{Externals}
    (signer : HederaSigner) (payload : PaymentPayload)
    (paymentRequirements : PaymentRequirements) :
  isValid (Verify.verify signer payload paymentRequirements) = true ->
  exists t,
    Verify.verifySchemesAndNetworks payload paymentRequirements = Ok tt
    /\ TransactionHelpers.deserializeTransaction (payload_transaction payload)
       = Ok t
    /\ Verify.transactionIntrospection signer t paymentRequirements = Ok tt.
Proof.
  unfold Verify.verify, rbind.
  destruct (Verify.verifySchemesAndNetworks payload paymentRequirements)
    as [[]|e1]; cbn [try_catch].
  - destruct (TransactionHelpers.deserializeTransaction
                (payload_transaction payload)) as [t|e2]; cbn [try_catch].
    + destruct (Verify.transactionIntrospection signer t paymentRequirements)
        as [[]|e3] eqn:E3; cbn [try_catch].
      * intros _. exists t. auto.
      * destruct (Array_includes ErrorReasons (message e3)); discriminate.
    + destruct (Array_includes ErrorReasons (message e2)); discriminate.
  - destruct (Array_includes ErrorReasons (message e1)); discriminate.
Qed.

(** C1. A payload whose decoded transaction names, in its transaction id,
    an account other than [requirements.extra.feePayer] or other than the
    facilitator signer's own account is rejected, whatever its transfers
    and whatever asset and amount the requirements name.  When the
    scheme/network check and the transfer-type check pass, the reason is
    the signature-mismatch reason (given that [ErrorReasons] lists it).
    Verification succeeds only when the payload decodes to a transfer whose
    transaction-id account, [extra.feePayer] and the signer's account
    agree. *)
Theorem verify_rejects_feePayer_mismatch `{Externals}
    (signer : HederaSigner) (payload : PaymentPayload)
    (paymentRequirements : PaymentRequirements) :
  let own := AccountId_toString (Wallet.accountId signer) in
  let response := Verify.verify signer payload paymentRequirements in
  (forall t id a,
     TransactionHelpers.deserializeTransaction (payload_transaction payload)
     = Ok t ->
     Sdk.transactionId t = Some id ->
     Sdk.accountId id = Some a ->
     (extra_feePayer paymentRequirements <> Some (AccountId_toString a)
      \/ AccountId_toString a <> own) ->
     isValid response = false
     /\ (Verify.verifySchemesAndNetworks payload paymentRequirements = Ok tt ->
         isTransferTransaction t = true ->
         Array_includes ErrorReasons signatureMismatch = true ->
         invalidReason response = Some signatureMismatch))
  /\ (isValid response = true ->
      exists t id a,
        TransactionHelpers.deserializeTransaction (payload_transaction payload)
        = Ok t
        /\ Sdk.transactionId t = Some id
        /\ Sdk.accountId id = Some a
        /\ extra_feePayer paymentRequirements = Some (AccountId_toString a)
        /\ AccountId_toString a = own).
Proof.
  intros own response. split.
  - intros t id a Hdecode Hid Ha Hdiff. subst response. split.
    + destruct (introspection_rejects signer t paymentRequirements id a
                  Hid Ha Hdiff) as [msg Hmsg].
      destruct (Verify.verifySchemesAndNetworks payload paymentRequirements)
        as [[]|[m]] eqn:Hs.
      * erewrite verify_of_throw; [reflexivity|].
        unfold rbind. rewrite Hs, Hdecode. exact Hmsg.
      * erewrite verify_of_throw; [reflexivity|].
        unfold rbind. rewrite Hs. reflexivity.
    + intros Hs Hclass Hlisted. erewrite verify_of_throw.
      * cbn [invalidReason]. now rewrite Hlisted.
      * unfold rbind. rewrite Hs, Hdecode.
        eapply introspection_identity; eassumption.
  - intros Hvalid.
    destruct (verify_valid_inv signer payload paymentRequirements Hvalid)
      as (t & _ & Hdecode & Hok).
    destruct (introspection_ok_inv signer t paymentRequirements tt Hok)
      as (id & a & _ & Hid & Ha & Hfee & Hown).
    exists t, id, a. auto.
Qed.

Lemma verify_rejects_feePayer_mismatch_witness :
  let ext := Scenario.sdk (Ok Scenario.strangerPayment)
               (Scenario.receiptAfter 100 Success) in
  let response :=
    Verify.verify Scenario.facilitatorSigner Scenario.hbarPayload
      Scenario.hbarRequirements in
  isValid response = false
  /\ invalidReason response = Some signatureMismatch.
Proof.
  intros ext response.
  pose proof (proj1 (@verify_rejects_feePayer_mismatch ext
                       Scenario.facilitatorSigner Scenario.hbarPayload
                       Scenario.hbarRequirements)
                Scenario.strangerPayment
                {| Sdk.accountId := Some Scenario.stranger; validStart := 0 |}
                Scenario.stranger eq_refl eq_refl eq_refl) as Hreject.
  assert (Hdiff :
    extra_feePayer Scenario.hbarRequirements
      <> Some (AccountId_toString Scenario.stranger)
    \/ AccountId_toString Scenario.stranger
       <> AccountId_toString (Wallet.accountId Scenario.facilitatorSigner)).
  { left. vm_compute. discriminate. }
  destruct (Hreject Hdiff) as [Hinvalid Hreason].
  split; [exact Hinvalid|].
  apply Hreason; reflexivity.
Defined.

Lemma append_nonempty_r (x y : string) : y <> "" -> (x ++ y)%string <> "".
Proof.
  intros Hy. destruct x; [exact Hy | discriminate].
Qed.

Lemma AccountId_toString_nonempty (a : AccountId) : AccountId_toString a <> "".
Proof.
  unfold AccountId_toString. apply append_nonempty_r. discriminate.
Qed.

Lemma String_eqb_nonempty (s : string) : s <> "" -> String.eqb s "" = false.
Proof. intros Hs. now apply String.eqb_neq. Qed.

(** C3. With a native-currency asset in the requirements, a decoded
    transfer transaction that passed the scheme/network check, the
    transfer-type check and the fee-payer identity checks is accepted,
    whatever its transfer legs are and whatever [maxAmountRequired] and
    [payTo] the requirements name: the only remaining test is the asset
    class of [requirements.asset].  (The decoded transaction is assumed to
    re-encode, as lines 128-129 re-serialize it before the asset check.) *)
Theorem hbar_verify_ignores_amount_and_recipient `{Externals}
    (signer : HederaSigner) (payload : PaymentPayload)
    (paymentRequirements : PaymentRequirements)
    (t : Transaction) (id : TransactionId) (a : AccountId)
    (encoded : bytes) (body : Transaction) :
  Verify.verifySchemesAndNetworks payload paymentRequirements = Ok tt ->
  TransactionHelpers.deserializeTransaction (payload_transaction payload)
  = Ok t ->
  isTransferTransaction t = true ->
  Sdk.transactionId t = Some id ->
  Sdk.accountId id = Some a ->
  AccountId_toString a = AccountId_toString (Wallet.accountId signer) ->
  extra_feePayer paymentRequirements
  = Some (AccountId_toString (Wallet.accountId signer)) ->
  Transaction_toBytes t = Ok encoded ->
  Transaction_fromBytes encoded = Ok body ->
  Verify.isHbarTransfer (asset paymentRequirements) = true ->
  Verify.verify signer payload paymentRequirements
  = {| isValid := true; invalidReason := None; verifyPayer := None |}.
Proof.
  intros Hs Hdecode Hclass Hid Ha Hown Hfee Henc Hdec Hnative.
  eapply verify_of_ok; [exact Hs | exact Hdecode |].
  unfold Verify.transactionIntrospection, Verify.validateHbarTransfer.
  rewrite Hclass, Hid, Ha, Hown, Hfee, String.eqb_refl.
  cbn [negb falsy orb].
  rewrite (String_eqb_nonempty _ (AccountId_toString_nonempty _)).
  cbn [orb]. unfold rbind. rewrite Henc, Hdec, Hnative. reflexivity.
Qed.

Lemma hbar_verify_ignores_amount_and_recipient_witness :
  let ext := Scenario.sdk (Ok Scenario.underpayment)
               (Scenario.receiptAfter 100 Success) in
  hbarTransfers Scenario.underpayment
  = [ (Scenario.payer, TinybarsOfNegated "1");
      (Scenario.stranger, TinybarsOfString "1") ]
  /\ maxAmountRequired Scenario.hbarRequirements = "50000000"
  /\ payTo Scenario.hbarRequirements = "0.0.789012"
  /\ Verify.verify Scenario.facilitatorSigner Scenario.hbarPayload
       Scenario.hbarRequirements
     = {| isValid := true; invalidReason := None; verifyPayer := None |}.
Proof.
  intros ext. do 3 (split; [reflexivity|]).
  apply (@hbar_verify_ignores_amount_and_recipient ext
           Scenario.facilitatorSigner Scenario.hbarPayload
           Scenario.hbarRequirements Scenario.underpayment
           {| Sdk.accountId := Some Scenario.facilitator; validStart := 0 |}
           Scenario.facilitator [] Scenario.underpayment);
    reflexivity.
Defined.

(* ===================================================================== *)
(** * Theorems: the settler *)
(* ===================================================================== *)

(** C2. When the verifier rejects a payload with reason [R], [settle]
    returns [success: false] with [errorReason] [R] and the empty
    transaction string, and the world is untouched: nothing was signed,
    nothing was submitted, no receipt was awaited. *)
Theorem settle_returns_verify_failure `{Externals}
    (signer : HederaSigner) (payload : PaymentPayload)
    (paymentRequirements : PaymentRequirements) (w : World) (R : string) :
  isValid (Verify.verify signer payload paymentRequirements) = false ->
  invalidReason (Verify.verify signer payload paymentRequirements) = Some R ->
  Settle.settle signer payload paymentRequirements w
  = (Ok {| success := false;
           errorReason := Some R;
           settlePayer := None;
           settleTransaction := "";
           settleNetwork := network payload |}, w).
Proof.
  intros Hinvalid Hreason. unfold Settle.settle.
  rewrite Hinvalid, Hreason. reflexivity.
Qed.

Lemma settle_returns_verify_failure_witness :
  let ext := Scenario.sdk (Ok Scenario.strangerPayment)
               (Scenario.receiptAfter 100 Success) in
  Settle.settle Scenario.facilitatorSigner Scenario.hbarPayload
    Scenario.hbarRequirements Scenario.start
  = (Ok {| success := false;
           errorReason := Some signatureMismatch;
           settlePayer := None;
           settleTransaction := "";
           settleNetwork := "hedera-testnet" |}, Scenario.start).
Proof.
  intros ext.
  apply (@settle_returns_verify_failure ext Scenario.facilitatorSigner
           Scenario.hbarPayload Scenario.hbarRequirements Scenario.start
           signatureMismatch); reflexivity.
Defined.

(** C5 (the code at a late receipt). [executeTransaction] awaits
    [getReceipt] directly; [waitForTransactionWithTimeout] is never called.
    With a ledger that delivers a successful receipt after 60 seconds,
    [settle] waits the full 60 seconds and reports success, where racing
    the same receipt against the 30-second timer fails after 30 seconds
    with a message that [executeTransaction] would map to the
    confirmation-timeout reason. *)
Theorem settle_late_receipt_not_timed_out :
  let ext := Scenario.sdk (Ok Scenario.hbarPayment)
               (Scenario.receiptAfter 60000 Success) in
  let run := Settle.settle Scenario.facilitatorSigner Scenario.hbarPayload
               Scenario.hbarRequirements Scenario.start in
  let response :=
    {| responseTransactionId :=
         {| Sdk.accountId := Some Scenario.facilitator; validStart := 0 |} |} in
  let raced := Settle.waitForTransactionWithTimeout response Scenario.testnet
                 None Scenario.start in
  fst run = Ok {| success := true;
                  errorReason := None;
                  settlePayer := Some "0.0.999999";
                  settleTransaction := "0.0.999999@0";
                  settleNetwork := "hedera-testnet" |}
  /\ nowMs (snd run) = 60000%N
  /\ (Settle.defaultTimeoutMs < nowMs (snd run))%N
  /\ fst raced = Throw (Error "Transaction confirmation timeout")
  /\ nowMs (snd raced) = Settle.defaultTimeoutMs
  /\ includes "Transaction confirmation timeout" "timeout" = true.
Proof.
  vm_compute. repeat split; reflexivity.
Qed.

Ltac split_run H :=
  repeat match type of H with
         | context [match ?x with _ => _ end] =>
             let E := fresh "E" in destruct x eqn:E
         | context [if ?b then _ else _] =>
             let E := fresh "E" in destruct b eqn:E
         end.

Lemma executeTransaction_success `{Externals}
    (t : Transaction) (signer : HederaSigner) (w w' : World)
    (r : Settle.Execution) :
  Settle.executeTransaction t signer w = (Ok r, w') ->
  Settle.exec_success r = true ->
  exists signed response wx,
    Transaction_sign (Wallet.privateKey signer) t = Ok signed
    /\ Transaction_execute wx signed (Wallet.client signer) = Ok response
    /\ TransactionId_toString (responseTransactionId response)
       = Ok (Settle.exec_transactionId r).
Proof.
  unfold Settle.executeTransaction,
    TransactionHelpers.addSignatureToTransaction.
  run_M. intros Hrun Hsuccess.
  destruct (Transaction_sign (Wallet.privateKey signer) t)
    as [signed|e1] eqn:Esign.
  - destruct (Transaction_execute
                (emit (Signed (Wallet.privateKey signer) t) w) signed
                (Wallet.client signer)) as [response|e2] eqn:Eexec.
    + exists signed, response,
        (emit (Signed (Wallet.privateKey signer) t) w).
      split; [reflexivity|]. split; [exact Eexec|].
      destruct (outcome
                  (TransactionResponse_getReceipt
                     (emit (Executed signed (Wallet.client signer))
                        (emit (Signed (Wallet.privateKey signer) t) w))
                     response (Wallet.client signer))) as [receipt|e3];
        [destruct (isSuccess (status receipt));
         destruct (TransactionId_toString (responseTransactionId response))
           as [id|e4]|];
        try (injection Hrun as <- <-; try discriminate Hsuccess; reflexivity);
        split_run Hrun; injection Hrun as <- <-; discriminate Hsuccess.
    + split_run Hrun; injection Hrun as <- <-; discriminate Hsuccess.
  - split_run Hrun; injection Hrun as <- <-; discriminate Hsuccess.
Qed.

Lemma TransactionId_toString_nonempty (id : TransactionId) (s : string) :
  TransactionId_toString id = Ok s -> s <> "".
Proof.
  unfold TransactionId_toString. destruct (Sdk.accountId id); [|discriminate].
  intros [= <-]. apply append_nonempty_r. discriminate.
Qed.

(** C10 (as the code has it). When [settle] reports success, its
    [transaction] field is the non-empty printed transaction id of the
    ledger's response to the submission, and its [payer] field is the
    facilitator signer's own account id: it is computed from the signer
    alone and not from the payload. *)
Theorem settle_success_fields `{Externals}
    (signer : HederaSigner) (payload : PaymentPayload)
    (paymentRequirements : PaymentRequirements) (w w' : World)
    (response : SettleResponse) :
  Settle.settle signer payload paymentRequirements w = (Ok response, w') ->
  success response = true ->
  settlePayer response = Some (AccountId_toString (Wallet.accountId signer))
  /\ settleTransaction response <> ""
  /\ exists submitted ledgerResponse wx,
       Transaction_execute wx submitted (Wallet.client signer)
       = Ok ledgerResponse
       /\ TransactionId_toString (responseTransactionId ledgerResponse)
          = Ok (settleTransaction response).
Proof.
  unfold Settle.settle. intros Hrun Hsuccess.
  destruct (isValid (Verify.verify signer payload paymentRequirements)).
  - cbn [negb] in Hrun. unfold bind at 1, lift in Hrun.
    destruct (TransactionHelpers.deserializeTransaction
                (payload_transaction payload)) as [t|e]; [|discriminate].
    unfold tryM, bind, ret in Hrun.
    destruct (Settle.executeTransaction t signer w) as [[r|e] w1] eqn:Eexec.
    + injection Hrun as <- <-. cbn [success] in Hsuccess.
      destruct (executeTransaction_success t signer w w1 r Eexec Hsuccess)
        as (signed & ledgerResponse & wx & _ & Hexec & Hid).
      cbn [settlePayer settleTransaction]. split; [reflexivity|]. split.
      * eapply TransactionId_toString_nonempty; exact Hid.
      * exists signed, ledgerResponse, wx. auto.
    + injection Hrun as <- <-. discriminate Hsuccess.
  - cbn [negb] in Hrun. unfold ret in Hrun.
    injection Hrun as <- <-. discriminate Hsuccess.
Qed.

Lemma settle_success_fields_witness :
  let ext := Scenario.sdk (Ok Scenario.hbarPayment)
               (Scenario.receiptAfter 100 Success) in
  let run := Settle.settle Scenario.facilitatorSigner Scenario.hbarPayload
               Scenario.hbarRequirements Scenario.start in
  let response :=
    {| success := true;
       errorReason := None;
       settlePayer := Some "0.0.999999";
       settleTransaction := "0.0.999999@0";
       settleNetwork := "hedera-testnet" |} in
  run = (Ok response, snd run)
  /\ settlePayer response
     = Some (AccountId_toString (Wallet.accountId Scenario.facilitatorSigner))
  /\ settleTransaction response <> "".
Proof.
  intros ext run response.
  assert (Hrun : run = (Ok response, snd run)) by reflexivity.
  split; [exact Hrun|].
  destruct (@settle_success_fields ext Scenario.facilitatorSigner
              Scenario.hbarPayload Scenario.hbarRequirements Scenario.start
              (snd run) response Hrun eq_refl) as (Hpayer & Hid & _).
  split; [exact Hpayer | exact Hid].
Defined.

(** C10 (counterexample). The payment of the specification's scenario is
    built and signed by the payer 0.0.123456, who is debited; settled by
    the facilitator 0.0.999999, the response's [payer] field is
    "0.0.999999", the facilitator's account, not the payer's address. *)
Lemma settle_payer_field_is_facilitator :
  let ext := Scenario.sdk (Ok Scenario.hbarPayment)
               (Scenario.receiptAfter 100 Success) in
  let built := HederaClient.createAndSignPayment Scenario.clientSigner 1
                 Scenario.hbarRequirements Scenario.start in
  let run := Settle.settle Scenario.facilitatorSigner Scenario.hbarPayload
               Scenario.hbarRequirements Scenario.start in
  fst built = Ok Scenario.hbarPayload
  /\ Transaction_sign "payer-key"
       (Scenario.hbarPayment_unsigned) = Ok Scenario.hbarPayment
  /\ trace (snd built) = [Signed "payer-key" Scenario.hbarPayment_unsigned]
  /\ map fst (hbarTransfers Scenario.hbarPayment)
     = [Scenario.payer; Scenario.payee]
  /\ exists response,
       fst run = Ok response
       /\ success response = true
       /\ settlePayer response
          = Some (AccountId_toString Scenario.facilitator)
       /\ settlePayer response
          <> Some (AccountId_toString
                     (Wallet.accountId Scenario.clientSigner)).
Proof.
  intros ext built run. do 4 (split; [reflexivity|]).
  eexists. split; [reflexivity|]. split; [reflexivity|].
  split; [reflexivity|]. vm_compute. discriminate.
Qed.

(* ===================================================================== *)
(** * Theorems: the dispatcher *)
(* ===================================================================== *)

Lemma getNetworkFamily_unknown (n : Network) :
  ~ In n NetworkSchema ->
  getNetworkFamily n = Throw (Error ("Unsupported network: " ++ n)).
Proof.
  intros Hout.
  assert (Hno : forall f, Array_includes (networksOf f) n = false).
  { intros f. apply Array_includes_not_In. intros Hin.
    apply Hout. eapply family_tables_within_schema; eassumption. }
  pose proof (Hno evm) as He. pose proof (Hno svm) as Hs.
  pose proof (Hno hedera) as Hh. cbn [networksOf] in He, Hs, Hh.
  unfold getNetworkFamily. now rewrite He, Hs, Hh.
Qed.

(** C4 (as the code has it). A scheme other than "exact" makes both
    entry points return the uniform failure carrying [invalid_scheme],
    touching nothing, provided the payload has the EVM shape whenever the
    network is an EVM network (its [authorization.from] is read for the
    [payer] field).  With the scheme "exact", a network outside the static
    table makes the classifier throw "Unsupported network", and the error
    leaves [verify] and [settle] uncaught. *)
Theorem dispatcher_failure_paths `{Externals}
    (client : Signer) (payload : PaymentPayload)
    (paymentRequirements : PaymentRequirements) (w : World) :
  (req_scheme paymentRequirements <> "exact" ->
   (Array_includes SupportedEVMNetworks (req_network paymentRequirements) = true ->
    exists from, payload_authorization_from payload = Ok from) ->
   exists payer,
     Facilitator.verify client payload paymentRequirements
     = Ok {| isValid := false;
             invalidReason := Some "invalid_scheme";
             verifyPayer := Some payer |}
     /\ Facilitator.settle client payload paymentRequirements w
        = (Ok {| success := false;
                 errorReason := Some "invalid_scheme";
                 settlePayer := Some payer;
                 settleTransaction := "";
                 settleNetwork := req_network paymentRequirements |}, w))
  /\ (req_scheme paymentRequirements = "exact" ->
      ~ In (req_network paymentRequirements) NetworkSchema ->
      Facilitator.verify client payload paymentRequirements
      = Throw (Error ("Unsupported network: "
                      ++ req_network paymentRequirements))
      /\ Facilitator.settle client payload paymentRequirements w
         = (Throw (Error ("Unsupported network: "
                          ++ req_network paymentRequirements)), w)).
Proof.
  split.
  - intros Hscheme Hshape. apply String.eqb_neq in Hscheme.
    unfold Facilitator.verify, Facilitator.settle, Facilitator.fallbackPayer.
    rewrite Hscheme. run_M. unfold rbind.
    destruct (Array_includes SupportedEVMNetworks
                (req_network paymentRequirements)).
    + destruct (Hshape eq_refl) as (from & Hp). rewrite Hp.
      exists from. split; reflexivity.
    + exists "". split; reflexivity.
  - intros Hscheme Hunknown.
    unfold Facilitator.verify, Facilitator.settle.
    rewrite Hscheme. cbn [String.eqb]. change (String.eqb "exact" "exact") with true.
    run_M. unfold rbind.
    rewrite (getNetworkFamily_unknown _ Hunknown). split; reflexivity.
Qed.

Lemma dispatcher_failure_paths_witness :
  let ext := Scenario.sdk (Ok Scenario.hbarPayment)
               (Scenario.receiptAfter 100 Success) in
  let upto := Scenario.withScheme "upto" Scenario.hbarRequirements in
  exists payer,
    Facilitator.verify Scenario.facilitatorSigner Scenario.hbarPayload upto
    = Ok {| isValid := false;
            invalidReason := Some "invalid_scheme";
            verifyPayer := Some payer |}
    /\ Facilitator.settle Scenario.facilitatorSigner Scenario.hbarPayload upto
         Scenario.start
       = (Ok {| success := false;
                errorReason := Some "invalid_scheme";
                settlePayer := Some payer;
                settleTransaction := "";
                settleNetwork := req_network upto |}, Scenario.start).
Proof.
  intros ext upto.
  apply (proj1 (@dispatcher_failure_paths ext Scenario.facilitatorSigner
                  Scenario.hbarPayload upto Scenario.start)).
  - discriminate.
  - intros Hevm. discriminate Hevm.
Defined.

(** C4 (counterexample). With the scheme "exact" and the unclassifiable
    network "ethereum", neither entry point returns a response: the
    classifier's error propagates out of both. *)
Lemma dispatcher_unknown_network_throws :
  let ext := Scenario.sdk (Ok Scenario.hbarPayment)
               (Scenario.receiptAfter 100 Success) in
  let unknown := Scenario.withNetwork "ethereum" Scenario.hbarRequirements in
  getNetworkFamily (req_network unknown)
  = Throw (Error "Unsupported network: ethereum")
  /\ Facilitator.verify Scenario.facilitatorSigner Scenario.hbarPayload unknown
     = Throw (Error "Unsupported network: ethereum")
  /\ fst (Facilitator.settle Scenario.facilitatorSigner Scenario.hbarPayload
            unknown Scenario.start)
     = Throw (Error "Unsupported network: ethereum")
  /\ ~ (exists response,
          Facilitator.verify Scenario.facilitatorSigner Scenario.hbarPayload
            unknown = Ok response
          /\ invalidReason response = Some "invalid_scheme").
Proof.
  intros ext unknown. do 3 (split; [reflexivity|]).
  intros (response & Hrun & _). discriminate Hrun.
Qed.

(* ===================================================================== *)
(** * Theorems: amounts that are not plain integers *)
(* ===================================================================== *)

Lemma token_legs_use_parseInt_witness :
  parseInt "1000000" = Num (decimalValue "1000000")
  /\ parseInt ("1000000" ++ "." ++ "5") = parseInt "1000000".
Proof.
  pose (ext := Scenario.sdk (Ok Scenario.hbarPayment)
                 (Scenario.receiptAfter 100 Success)).
  pose (req := Scenario.withAssetAmount "0.0.429274" "1000000"
                 Scenario.hbarRequirements).
  destruct (@token_legs_use_parseInt ext Scenario.clientSigner
              Scenario.facilitator req Scenario.start Scenario.payee
              Scenario.usdc eq_refl eq_refl)
    as (_ & _ & Htruncate & Hexact).
  split.
  - apply Hexact; [split; [discriminate | reflexivity] | reflexivity].
  - apply Htruncate. split; [discriminate | reflexivity].
Defined.

(** C7 (counterexample). The fractional amount "1000000.5" is not
    rejected: both builders produce the legs -1000000 and 1000000, and the
    payment is signed and returned.  A negative amount swaps the signs of
    the legs, and a non-numeric one yields NaN legs; neither is rejected. *)
Lemma token_builder_truncates_fraction :
  let ext := Scenario.sdk (Ok Scenario.hbarPayment)
               (Scenario.receiptAfter 100 Success) in
  let fractional := Scenario.withAssetAmount "0.0.429274" "1000000.5"
                      Scenario.hbarRequirements in
  let legs amount :=
    tokenTransfers
      (TransactionHelpers.createTokenTransferTransaction Scenario.usdc
         Scenario.payer Scenario.payee amount) in
  allDecimalDigits "1000000.5" = false
  /\ legs "1000000.5"
     = [ (Scenario.usdc, Scenario.payer, Num (-1000000));
         (Scenario.usdc, Scenario.payee, Num 1000000) ]
  /\ (exists t,
        HederaClient.createTransferTransaction Scenario.clientSigner fractional
          Scenario.start = (Ok t, Scenario.start)
        /\ tokenTransfers t
           = [ (Scenario.usdc, Scenario.payer, Num (-1000000));
               (Scenario.usdc, Scenario.payee, Num 1000000) ])
  /\ fst (HederaClient.createAndSignPayment Scenario.clientSigner 1 fractional
            Scenario.start)
     = Ok {| x402Version := 1;
             scheme := "exact";
             network := "hedera-testnet";
             payload := ExactTransactionPayload "base64_encoded_transaction" |}
  /\ legs "-5"
     = [ (Scenario.usdc, Scenario.payer, Num 5);
         (Scenario.usdc, Scenario.payee, Num (-5)) ]
  /\ legs "abc"
     = [ (Scenario.usdc, Scenario.payer, NaN);
         (Scenario.usdc, Scenario.payee, NaN) ].
Proof.
  intros ext fractional legs.
  do 2 (split; [reflexivity|]).
  split; [eexists; split; reflexivity|].
  repeat split; reflexivity.
Qed.

(* ===================================================================== *)
(** * Further properties: chain identifiers and wallets *)
(* ===================================================================== *)

Lemma decimal_inj (a b : N) : decimal a = decimal b -> a = b.
Proof.
  unfold decimal. intros H.
  assert (Hu : N.to_uint a = N.to_uint b).
  { pose proof (NilEmpty.usu (N.to_uint a)) as Ha.
    pose proof (NilEmpty.usu (N.to_uint b)) as Hb.
    rewrite H in Ha. rewrite Ha in Hb. now injection Hb. }
  rewrite <- (DecimalN.Unsigned.of_to a), <- (DecimalN.Unsigned.of_to b).
  now rewrite Hu.
Qed.

Lemma get_In {V} (m : list (string * V)) (k : string) (v : V) :
  ChainIds.get m k = Some v -> In (k, v) m.
Proof.
  induction m as [|[k' v'] m IH]; [discriminate|].
  cbn [ChainIds.get]. destruct (String.eqb k' k) eqn:E.
  - apply String.eqb_eq in E. intros [= ->]. left. now subst.
  - intros H. right. auto.
Qed.

(** X1. Every supported network has a chain id in its family's table, and
    the reverse table built from the three family tables maps a chain id
    to a network exactly when that pair is in one of them: no chain id is
    shared by two networks, so looking up a network's chain id gives the
    network back. *)
Theorem ChainIdToNetwork_round_trip (network : Network) :
  (In network NetworkSchema
   <-> exists chainId, In (network, chainId) ChainIds.chainIdNetworkPairs)
  /\ (forall chainId,
        In (network, chainId) ChainIds.chainIdNetworkPairs
        <-> ChainIds.ChainIdToNetwork_at chainId = Some network).
Proof.
  assert (Hpairs : ChainIds.chainIdNetworkPairs
    = [ ("base-sepolia", 84532%N); ("base", 8453%N); ("avalanche-fuji", 43113%N);
        ("avalanche", 43114%N); ("iotex", 4689%N); ("sei", 1329%N);
        ("sei-testnet", 1328%N); ("polygon", 137%N); ("polygon-amoy", 80002%N);
        ("peaq", 3338%N); ("solana-devnet", 103%N); ("solana", 101%N);
        ("hedera-testnet", 296%N); ("hedera-mainnet", 295%N) ])
    by reflexivity.
  split.
  - rewrite Hpairs. split.
    + intros Hin. cbn [In NetworkSchema] in Hin.
      repeat (destruct Hin as [<- | Hin];
              [eexists; cbn [In];
               solve [repeat (first [left; reflexivity | right])]|]).
      contradiction.
    + intros [chainId Hin]. cbn [In] in Hin. apply Array_includes_In.
      repeat (destruct Hin as [[= <- _] | Hin]; [reflexivity|]).
      contradiction.
  - intros chainId. split.
    + rewrite Hpairs. intros Hin. cbn [In] in Hin.
      repeat (destruct Hin as [[= <- <-] | Hin]; [reflexivity|]).
      contradiction.
    + unfold ChainIds.ChainIdToNetwork_at. intros Hget.
      apply get_In in Hget.
      assert (Hobject : ChainIds.ChainIdToNetwork = ChainIds.chainIdEntries)
        by reflexivity.
      rewrite Hobject in Hget. unfold ChainIds.chainIdEntries in Hget.
      apply in_map_iff in Hget as [[n c] [[= Hk ->] Hin]].
      cbn [snd] in Hk. apply decimal_inj in Hk. now subst c.
Qed.

Lemma ChainIdToNetwork_round_trip_witness :
  ChainIds.ChainIdToNetwork_at 296 = Some "hedera-testnet"
  /\ exists chainId,
       In ("hedera-mainnet", chainId) ChainIds.chainIdNetworkPairs.
Proof.
  split.
  - apply (proj2 (ChainIdToNetwork_round_trip "hedera-testnet")).
    vm_compute. intuition auto.
  - apply (proj1 (ChainIdToNetwork_round_trip "hedera-mainnet")).
    cbn. intuition auto.
Defined.

Lemma hedera_network_cases (network : string) :
  Array_includes SupportedHederaNetworks network
  = (String.eqb network "hedera-testnet" || String.eqb network "hedera-mainnet").
Proof.
  unfold Array_includes, SupportedHederaNetworks. cbn [existsb].
  now rewrite orb_false_r.
Qed.

Lemma createHederaConnectedClient_supported (network : string) :
  Array_includes SupportedHederaNetworks network = true ->
  exists c, HederaWallet.createHederaConnectedClient network = Ok c.
Proof.
  rewrite hedera_network_cases.
  unfold HederaWallet.createHederaConnectedClient.
  destruct (String.eqb network "hedera-testnet"); [eauto|].
  destruct (String.eqb network "hedera-mainnet"); [eauto | discriminate].
Qed.

(** X2. [createHederaConnectedClient], [getHederaClient] and
    [getMirrorNodeUrl] succeed on exactly the networks the registry lists
    as Hedera networks, and on every other string all three throw the same
    "Unsupported Hedera network" error. *)
Theorem hedera_factories_match_registry (network : string) :
  (Array_includes SupportedHederaNetworks network = true ->
   exists c url,
     HederaWallet.createHederaConnectedClient network = Ok c
     /\ HederaWallet.getHederaClient network = Ok c
     /\ HederaWallet.getMirrorNodeUrl network = Ok url)
  /\ (Array_includes SupportedHederaNetworks network = false ->
      let unsupported :=
        Error ("Unsupported Hedera network: " ++ network) in
      HederaWallet.createHederaConnectedClient network = Throw unsupported
      /\ HederaWallet.getHederaClient network = Throw unsupported
      /\ HederaWallet.getMirrorNodeUrl network = Throw unsupported).
Proof.
  rewrite hedera_network_cases.
  unfold HederaWallet.getHederaClient, HederaWallet.createHederaConnectedClient,
    HederaWallet.getMirrorNodeUrl.
  destruct (String.eqb network "hedera-testnet");
    destruct (String.eqb network "hedera-mainnet"); cbn [orb];
    (split; [intros Hin | intros Hout]); try discriminate;
    try (do 2 eexists; repeat split; reflexivity);
    repeat split; reflexivity.
Qed.

Lemma hedera_factories_match_registry_witness :
  (exists c url,
     HederaWallet.createHederaConnectedClient "hedera-mainnet" = Ok c
     /\ HederaWallet.getHederaClient "hedera-mainnet" = Ok c
     /\ HederaWallet.getMirrorNodeUrl "hedera-mainnet" = Ok url)
  /\ HederaWallet.getMirrorNodeUrl "Hedera-Testnet"
     = Throw (Error ("Unsupported Hedera network: " ++ "Hedera-Testnet")).
Proof.
  split.
  - apply (proj1 (hedera_factories_match_registry "hedera-mainnet")).
    reflexivity.
  - apply (proj2 (hedera_factories_match_registry "Hedera-Testnet")).
    reflexivity.
Defined.

Lemma getNetworkFamily_hedera (network : Network) :
  getNetworkFamily network = Ok hedera ->
  Array_includes SupportedEVMNetworks network = false
  /\ Array_includes SupportedSVMNetworks network = false
  /\ Array_includes SupportedHederaNetworks network = true.
Proof.
  unfold getNetworkFamily.
  destruct (Array_includes SupportedEVMNetworks network); [discriminate|].
  destruct (Array_includes SupportedSVMNetworks network); [discriminate|].
  destruct (Array_includes SupportedHederaNetworks network); [|discriminate].
  auto.
Qed.

Lemma getNetworkFamily_throws (network : Network) (e : exn) :
  getNetworkFamily network = Throw e ->
  Array_includes SupportedEVMNetworks network = false
  /\ Array_includes SupportedSVMNetworks network = false
  /\ Array_includes SupportedHederaNetworks network = false
  /\ e = Error ("Unsupported network: " ++ network).
Proof.
  unfold getNetworkFamily.
  destruct (Array_includes SupportedEVMNetworks network); [discriminate|].
  destruct (Array_includes SupportedSVMNetworks network); [discriminate|].
  destruct (Array_includes SupportedHederaNetworks network); [discriminate|].
  intros [= <-]. auto.
Qed.

(** X3. [createConnectedClient] follows the registry: on a network the
    classifier rejects it throws the classifier's own error, and on a
    Hedera network it always returns the Hedera client for that network
    (the "Unsupported Hedera network" branch of the factory is never
    reached through it). *)
Theorem createConnectedClient_follows_registry `{FamilyWallets}
    (network : Network) :
  (forall e, getNetworkFamily network = Throw e ->
     SharedWallet.createConnectedClient network = Throw e)
  /\ (getNetworkFamily network = Ok hedera ->
      exists c,
        HederaWallet.createHederaConnectedClient network = Ok c
        /\ SharedWallet.createConnectedClient network
           = Ok (SharedWallet.HederaConnected c)).
Proof.
  split.
  - intros e He.
    destruct (getNetworkFamily_throws network e He) as (H1 & H2 & H3 & ->).
    unfold SharedWallet.createConnectedClient. now rewrite H1, H2, H3.
  - intros Hh.
    destruct (getNetworkFamily_hedera network Hh) as (H1 & H2 & H3).
    destruct (createHederaConnectedClient_supported network H3) as (c & Hc).
    exists c. split; [exact Hc|].
    unfold SharedWallet.createConnectedClient. rewrite H1, H2, H3, Hc.
    reflexivity.
Qed.

Lemma createConnectedClient_follows_registry_witness :
  let w := Fixtures.wallets in
  SharedWallet.createConnectedClient "ethereum"
  = Throw (Error "Unsupported network: ethereum")
  /\ exists c,
       HederaWallet.createHederaConnectedClient "hedera-testnet" = Ok c
       /\ SharedWallet.createConnectedClient "hedera-testnet"
          = Ok (SharedWallet.HederaConnected c).
Proof.
  intros w. split.
  - apply (proj1 (@createConnectedClient_follows_registry w "ethereum")).
    reflexivity.
  - apply (proj2 (@createConnectedClient_follows_registry w "hedera-testnet")).
    reflexivity.
Defined.

(** X4. On a Hedera network [createSigner] throws "Hedera signer requires
    an accountId in options" when the options carry no account id, before
    the private key is looked at.  With an account id, a key that does
    not parse is reported before the account id is parsed; when both
    parse, the signer holds the network's client, the parsed account and
    key, and its client's operator is that same account and key. *)
Theorem createSigner_hedera `{Externals} `{FamilyWallets}
    (network : Network) (privateKey : string)
    (options : option SharedWallet.SignerOptions) :
  getNetworkFamily network = Ok hedera ->
  (falsy (SharedWallet.options_accountId options) = true ->
   SharedWallet.createSigner network privateKey options
   = Throw (Error "Hedera signer requires an accountId in options"))
  /\ (forall accountId,
        SharedWallet.options_accountId options = Some accountId ->
        accountId <> "" ->
        (forall e, PrivateKey_fromStringECDSA privateKey = Throw e ->
           SharedWallet.createSigner network privateKey options = Throw e)
        /\ (forall key account,
              PrivateKey_fromStringECDSA privateKey = Ok key ->
              AccountId_fromString accountId = Ok account ->
              exists c,
                HederaWallet.createHederaConnectedClient network = Ok c
                /\ SharedWallet.createSigner network privateKey options
                   = Ok (SharedWallet.OfHedera
                           {| HederaWallet.signer :=
                                {| Wallet.client := c;
                                   Wallet.accountId := account;
                                   Wallet.privateKey := key |};
                              HederaWallet.operatorAccountId := account;
                              HederaWallet.operatorKey := key |}))).
Proof.
  intros Hh.
  destruct (getNetworkFamily_hedera network Hh) as (H1 & H2 & H3).
  destruct (createHederaConnectedClient_supported network H3) as (c & Hc).
  unfold SharedWallet.createSigner. rewrite H1, H2, H3. split.
  - unfold falsy.
    destruct (SharedWallet.options_accountId options) as [a|]; [|reflexivity].
    intros ->. reflexivity.
  - intros accountId -> Hne. apply String.eqb_neq in Hne. rewrite Hne.
    unfold HederaWallet.createHederaSigner, rbind. rewrite Hc. split.
    + intros e ->. reflexivity.
    + intros key account -> ->. exists c. split; reflexivity.
Qed.

Lemma createSigner_hedera_witness :
  let ext := Scenario.sdk (Ok Scenario.hbarPayment)
               (Scenario.receiptAfter 100 Success) in
  let w := Fixtures.wallets in
  SharedWallet.createSigner "hedera-testnet" "payer-key" None
  = Throw (Error "Hedera signer requires an accountId in options")
  /\ exists c,
       HederaWallet.createHederaConnectedClient "hedera-testnet" = Ok c
       /\ SharedWallet.createSigner "hedera-testnet" "payer-key"
            (Some {| SharedWallet.option_accountId := Some "0.0.123456" |})
          = Ok (SharedWallet.OfHedera
                  {| HederaWallet.signer :=
                       {| Wallet.client := c;
                          Wallet.accountId := Scenario.payer;
                          Wallet.privateKey := "payer-key" |};
                     HederaWallet.operatorAccountId := Scenario.payer;
                     HederaWallet.operatorKey := "payer-key" |}).
Proof.
  intros ext w.
  pose proof (@createSigner_hedera ext w "hedera-testnet" "payer-key")
    as Hsigner.
  split.
  - apply (proj1 (Hsigner None eq_refl)). reflexivity.
  - apply (proj2 (proj2 (Hsigner
             (Some {| SharedWallet.option_accountId := Some "0.0.123456" |})
             eq_refl) "0.0.123456" eq_refl ltac:(discriminate)));
      reflexivity.
Defined.

(* ===================================================================== *)
(** * Further properties: the verifier *)
(* ===================================================================== *)

Lemma verifySchemesAndNetworks_ok
    (payload : PaymentPayload) (paymentRequirements : PaymentRequirements) :
  Verify.verifySchemesAndNetworks payload paymentRequirements = Ok tt
  <-> scheme payload = "exact"
      /\ req_scheme paymentRequirements = "exact"
      /\ network payload = req_network paymentRequirements
      /\ In (req_network paymentRequirements) SupportedHederaNetworks.
Proof.
  unfold Verify.verifySchemesAndNetworks, Verify.fail, SCHEME.
  rewrite <- Array_includes_In.
  destruct (String.eqb (scheme payload) "exact") eqn:E1;
    destruct (String.eqb (req_scheme paymentRequirements) "exact") eqn:E2;
    destruct (String.eqb (network payload) (req_network paymentRequirements))
      eqn:E3;
    destruct (Array_includes SupportedHederaNetworks
                (req_network paymentRequirements)) eqn:E4;
    cbn [negb orb];
    rewrite ?String.eqb_eq in *; rewrite ?String.eqb_neq in *;
    split; try discriminate; intuition (auto; try discriminate).
Qed.

Lemma verify_rejection_has_reason `{Externals}
    (signer : HederaSigner) (payload : PaymentPayload)
    (paymentRequirements : PaymentRequirements) :
  isValid (Verify.verify signer payload paymentRequirements) = false ->
  exists reason,
    invalidReason (Verify.verify signer payload paymentRequirements)
    = Some reason.
Proof.
  unfold Verify.verify.
  match goal with
  | |- context [try_catch ?body _] => destruct body as [r|e] eqn:Ebody
  end; cbn [try_catch].
  - unfold rbind in Ebody.
    destruct (Verify.verifySchemesAndNetworks payload paymentRequirements);
      [|discriminate].
    destruct (TransactionHelpers.deserializeTransaction
                (payload_transaction payload)) as [t|]; [|discriminate].
    destruct (Verify.transactionIntrospection signer t paymentRequirements);
      [|discriminate].
    injection Ebody as <-. discriminate.
  - destruct (Array_includes ErrorReasons (message e)); cbn; eauto.
Qed.

(** X5. Whatever the inputs, a rejection by [verify] carries a reason
    that is either listed in [ErrorReasons] or the catch-all
    "unexpected_verify_error" (an SDK error message is never passed on
    unless the table lists it); an acceptance carries no reason; and the
    response never names a payer. *)
Theorem verify_reason_taxonomy `{Externals}
    (signer : HederaSigner) (payload : PaymentPayload)
    (paymentRequirements : PaymentRequirements) :
  let response := Verify.verify signer payload paymentRequirements in
  verifyPayer response = None
  /\ (isValid response = true -> invalidReason response = None)
  /\ (isValid response = false ->
      exists reason,
        invalidReason response = Some reason
        /\ (Array_includes ErrorReasons reason = true
            \/ reason = "unexpected_verify_error")).
Proof.
  intros response. subst response. unfold Verify.verify.
  match goal with
  | |- context [try_catch ?body _] => destruct body as [r|e] eqn:Ebody
  end; cbn [try_catch].
  - assert (Hr : r = accepted).
    { unfold rbind in Ebody.
      destruct (Verify.verifySchemesAndNetworks payload paymentRequirements);
        [|discriminate].
      destruct (TransactionHelpers.deserializeTransaction
                  (payload_transaction payload)); [|discriminate].
      destruct (Verify.transactionIntrospection signer a0 paymentRequirements);
        [|discriminate].
      now injection Ebody as <-. }
    subst r. cbn. repeat split; auto. discriminate.
  - destruct (Array_includes ErrorReasons (message e)) eqn:Elisted; cbn;
      repeat split; try discriminate; intros _; eexists; split;
      try reflexivity; auto.
Qed.

Lemma verify_reason_taxonomy_witness :
  let ext := Scenario.sdk (Ok Scenario.strangerPayment)
               (Scenario.receiptAfter 100 Success) in
  exists reason,
    invalidReason
      (Verify.verify Scenario.facilitatorSigner Scenario.hbarPayload
         Scenario.hbarRequirements) = Some reason
    /\ (Array_includes ErrorReasons reason = true
        \/ reason = "unexpected_verify_error").
Proof.
  intros ext.
  apply (proj2 (proj2 (@verify_reason_taxonomy ext Scenario.facilitatorSigner
                         Scenario.hbarPayload Scenario.hbarRequirements))).
  reflexivity.
Defined.

(** X6. The scheme is checked before the network, and both before the
    payload is decoded: when either scheme is not "exact" the response is
    the rejection "unsupported_scheme"; otherwise, when the payload's
    network differs from the requirements' network or that network is not
    a Hedera network, it is the rejection "invalid_network", whatever the
    payload carries. *)
Theorem verify_scheme_then_network `{Externals}
    (signer : HederaSigner) (payload : PaymentPayload)
    (paymentRequirements : PaymentRequirements) :
  ((scheme payload <> "exact" \/ req_scheme paymentRequirements <> "exact") ->
   Verify.verify signer payload paymentRequirements
   = rejection "unsupported_scheme")
  /\ (scheme payload = "exact" ->
      req_scheme paymentRequirements = "exact" ->
      (network payload <> req_network paymentRequirements
       \/ ~ In (req_network paymentRequirements) SupportedHederaNetworks) ->
      Verify.verify signer payload paymentRequirements
      = rejection "invalid_network").
Proof.
  split.
  - intros Hscheme. apply verify_of_throw.
    unfold rbind, Verify.verifySchemesAndNetworks, Verify.fail, SCHEME.
    destruct (String.eqb (scheme payload) "exact") eqn:E1;
      [|reflexivity].
    destruct (String.eqb (req_scheme paymentRequirements) "exact") eqn:E2;
      [|reflexivity].
    apply String.eqb_eq in E1, E2. destruct Hscheme; contradiction.
  - intros E1 E2 Hnet. apply verify_of_throw.
    unfold rbind, Verify.verifySchemesAndNetworks, Verify.fail, SCHEME.
    rewrite E1, E2. cbn [String.eqb negb orb].
    change (String.eqb "exact" "exact") with true. cbn [negb orb].
    destruct (String.eqb (network payload) (req_network paymentRequirements))
      eqn:E3; [|reflexivity].
    destruct (Array_includes SupportedHederaNetworks
                (req_network paymentRequirements)) eqn:E4; [|reflexivity].
    apply String.eqb_eq in E3. apply Array_includes_In in E4.
    destruct Hnet; contradiction.
Qed.

Lemma verify_scheme_then_network_witness :
  let ext := Scenario.sdk (Ok Scenario.hbarPayment)
               (Scenario.receiptAfter 100 Success) in
  Verify.verify Scenario.facilitatorSigner Scenario.hbarPayload
    (Scenario.withScheme "upto"
       (Scenario.withNetwork "hedera-mainnet" Scenario.hbarRequirements))
  = rejection "unsupported_scheme"
  /\ Verify.verify Scenario.facilitatorSigner Scenario.hbarPayload
       (Scenario.withNetwork "hedera-mainnet" Scenario.hbarRequirements)
     = rejection "invalid_network".
Proof.
  intros ext. split.
  - apply (proj1 (@verify_scheme_then_network ext Scenario.facilitatorSigner
                    Scenario.hbarPayload
                    (Scenario.withScheme "upto"
                       (Scenario.withNetwork "hedera-mainnet"
                          Scenario.hbarRequirements)))).
    right. discriminate.
  - apply (proj2 (@verify_scheme_then_network ext Scenario.facilitatorSigner
                    Scenario.hbarPayload
                    (Scenario.withNetwork "hedera-mainnet"
                       Scenario.hbarRequirements)));
      [reflexivity | reflexivity | left; discriminate].
Defined.

Lemma introspection_ok_iff `{Externals}
    (signer : HederaSigner) (t : Transaction)
    (paymentRequirements : PaymentRequirements) :
  Verify.transactionIntrospection signer t paymentRequirements = Ok tt
  <-> isTransferTransaction t = true
      /\ (exists id a,
            Sdk.transactionId t = Some id
            /\ Sdk.accountId id = Some a
            /\ AccountId_toString a
               = AccountId_toString (Wallet.accountId signer))
      /\ extra_feePayer paymentRequirements
         = Some (AccountId_toString (Wallet.accountId signer))
      /\ (exists encoded body,
            Transaction_toBytes t = Ok encoded
            /\ Transaction_fromBytes encoded = Ok body)
      /\ (Verify.isHbarTransfer (asset paymentRequirements) = true
          \/ exists tokenId,
               TokenId_fromString (asset paymentRequirements) = Ok tokenId).
Proof.
  split.
  - intros Hok.
    destruct (introspection_ok_inv signer t paymentRequirements tt Hok)
      as (id & a & Hclass & Hid & Ha & Hfee & Hown).
    split; [exact Hclass|]. split; [eauto|].
    rewrite Hown in Hfee. split; [exact Hfee|].
    revert Hok. unfold Verify.transactionIntrospection.
    rewrite Hclass, Hid, Ha, Hown, Hfee, String.eqb_refl.
    cbn [negb falsy orb].
    rewrite (String_eqb_nonempty _ (AccountId_toString_nonempty _)).
    cbn [orb]. unfold rbind.
    destruct (Transaction_toBytes t) as [encoded|] eqn:Henc;
      [|intros Hx; discriminate Hx].
    destruct (Transaction_fromBytes encoded) as [body|] eqn:Hdec;
      [|intros Hx; discriminate Hx].
    intros Hasset. split; [exists encoded, body; auto|].
    destruct (Verify.isHbarTransfer (asset paymentRequirements)) eqn:Ehbar;
      [left; reflexivity|].
    right. unfold Verify.validateTokenTransfer in Hasset.
    rewrite Ehbar in Hasset. unfold rbind in Hasset.
    destruct (TokenId_fromString (asset paymentRequirements)) as [tok|];
      [exists tok; reflexivity | cbn in Hasset; discriminate Hasset].
  - intros (Hclass & (id & a & Hid & Ha & Hown) & Hfee
            & (encoded & body & Henc & Hdec) & Hasset).
    unfold Verify.transactionIntrospection.
    rewrite Hclass, Hid, Ha, Hown, Hfee, String.eqb_refl.
    cbn [negb falsy orb].
    rewrite (String_eqb_nonempty _ (AccountId_toString_nonempty _)).
    cbn [orb]. unfold rbind. rewrite Henc, Hdec.
    destruct (Verify.isHbarTransfer (asset paymentRequirements)) eqn:Ehbar.
    + unfold Verify.validateHbarTransfer. now rewrite Ehbar.
    + destruct Hasset as [Hn | [tok Htok]]; [discriminate|].
      unfold Verify.validateTokenTransfer. rewrite Ehbar.
      unfold rbind. now rewrite Htok.
Qed.

(** X7. [verify] accepts exactly when: both schemes are "exact", the two
    networks are equal and a Hedera network, the payload decodes to a
    transfer transaction whose transaction id names the signer's account,
    [extra.feePayer] is the signer's account id, the transaction
    re-encodes, and the asset is the native sentinel or parses as a token
    id.  Nothing else about the transaction or the requirements is
    examined. *)
Theorem verify_accepts_iff `{Externals}
    (signer : HederaSigner) (payload : PaymentPayload)
    (paymentRequirements : PaymentRequirements) :
  let own := AccountId_toString (Wallet.accountId signer) in
  isValid (Verify.verify signer payload paymentRequirements) = true
  <-> scheme payload = "exact"
      /\ req_scheme paymentRequirements = "exact"
      /\ network payload = req_network paymentRequirements
      /\ In (req_network paymentRequirements) SupportedHederaNetworks
      /\ exists t,
           TransactionHelpers.deserializeTransaction
             (payload_transaction payload) = Ok t
           /\ isTransferTransaction t = true
           /\ (exists id a,
                 Sdk.transactionId t = Some id
                 /\ Sdk.accountId id = Some a
                 /\ AccountId_toString a = own)
           /\ extra_feePayer paymentRequirements = Some own
           /\ (exists encoded body,
                 Transaction_toBytes t = Ok encoded
                 /\ Transaction_fromBytes encoded = Ok body)
           /\ (Verify.isHbarTransfer (asset paymentRequirements) = true
               \/ exists tokenId,
                    TokenId_fromString (asset paymentRequirements)
                    = Ok tokenId).
Proof.
  intros own. split.
  - intros Hvalid.
    destruct (verify_valid_inv signer payload paymentRequirements Hvalid)
      as (t & Hs & Hdecode & Hok).
    apply verifySchemesAndNetworks_ok in Hs as (H1 & H2 & H3 & H4).
    apply introspection_ok_iff in Hok.
    repeat (split; [assumption|]). exists t. split; assumption.
  - intros (H1 & H2 & H3 & H4 & t & Hdecode & Hrest).
    erewrite verify_of_ok; [reflexivity | | exact Hdecode |].
    + apply verifySchemesAndNetworks_ok. auto.
    + apply introspection_ok_iff. exact Hrest.
Qed.

Lemma verify_accepts_iff_witness :
  let ext := Scenario.sdk (Ok Scenario.hbarPayment)
               (Scenario.receiptAfter 100 Success) in
  isValid (Verify.verify Scenario.facilitatorSigner Scenario.hbarPayload
             Scenario.hbarRequirements) = true.
Proof.
  intros ext.
  apply (proj2 (@verify_accepts_iff ext Scenario.facilitatorSigner
                  Scenario.hbarPayload Scenario.hbarRequirements)).
  do 3 (split; [reflexivity|]). split; [cbn; auto|].
  exists Scenario.hbarPayment. split; [reflexivity|].
  split; [reflexivity|]. split.
  - exists {| Sdk.accountId := Some Scenario.facilitator; validStart := 0 |},
      Scenario.facilitator. repeat split.
  - split; [reflexivity|]. split.
    + exists [], Scenario.hbarPayment. split; reflexivity.
    + left. reflexivity.
Defined.

(** X8. Once the scheme/network check passes, a payload that does not
    decode is rejected with the decoder's message as reason only if
    [ErrorReasons] lists it (the catch-all otherwise), and a payload that
    decodes to something other than a transfer transaction, or to one
    without a transaction id, is rejected as
    "invalid_exact_hedera_payload_transaction", before any identity or
    asset check. *)
Theorem verify_structural_rejection `{Externals}
    (signer : HederaSigner) (payload : PaymentPayload)
    (paymentRequirements : PaymentRequirements) :
  Verify.verifySchemesAndNetworks payload paymentRequirements = Ok tt ->
  (forall e,
     TransactionHelpers.deserializeTransaction (payload_transaction payload)
     = Throw e ->
     Verify.verify signer payload paymentRequirements
     = rejection (message e))
  /\ (forall t,
        TransactionHelpers.deserializeTransaction (payload_transaction payload)
        = Ok t ->
        (isTransferTransaction t = false \/ Sdk.transactionId t = None) ->
        Verify.verify signer payload paymentRequirements
        = rejection "invalid_exact_hedera_payload_transaction").
Proof.
  intros Hs. split.
  - intros [m] Hdecode. apply verify_of_throw.
    unfold rbind. now rewrite Hs, Hdecode.
  - intros t Hdecode Hshape. apply verify_of_throw.
    unfold rbind. rewrite Hs, Hdecode.
    unfold Verify.transactionIntrospection, Verify.fail.
    destruct (isTransferTransaction t); [|reflexivity].
    destruct Hshape as [Hc | ->]; [discriminate | reflexivity].
Qed.

Lemma verify_structural_rejection_witness :
  let undecodable := Scenario.sdk (Throw (Error "invalid wire type"))
                       (Scenario.receiptAfter 100 Success) in
  let wrongClass := Scenario.sdk (Ok Fixtures.contractCall)
                      (Scenario.receiptAfter 100 Success) in
  @Verify.verify undecodable Scenario.facilitatorSigner Scenario.hbarPayload
    Scenario.hbarRequirements
  = @rejection undecodable "invalid wire type"
  /\ @Verify.verify wrongClass Scenario.facilitatorSigner Scenario.hbarPayload
       Scenario.hbarRequirements
     = @rejection wrongClass "invalid_exact_hedera_payload_transaction".
Proof.
  intros undecodable wrongClass. split.
  - apply (proj1 (@verify_structural_rejection undecodable
                    Scenario.facilitatorSigner Scenario.hbarPayload
                    Scenario.hbarRequirements eq_refl)
             (Error "invalid wire type")).
    reflexivity.
  - apply (proj2 (@verify_structural_rejection wrongClass
                    Scenario.facilitatorSigner Scenario.hbarPayload
                    Scenario.hbarRequirements eq_refl)
             Fixtures.contractCall).
    + reflexivity.
    + left. reflexivity.
Defined.

(** X9. For a token requirement (an asset that is not the native
    sentinel), a transaction that passed the earlier checks is accepted as
    soon as [requirements.asset] parses as a token id, whatever its
    transfer legs are (it may move no token at all), and rejected as an
    asset mismatch when the asset does not parse, the parser's own error
    being replaced. *)
Theorem token_verify_checks_only_asset_format `{Externals}
    (signer : HederaSigner) (payload : PaymentPayload)
    (paymentRequirements : PaymentRequirements)
    (t : Transaction) (id : TransactionId) (a : AccountId)
    (encoded : bytes) (body : Transaction) :
  Verify.verifySchemesAndNetworks payload paymentRequirements = Ok tt ->
  TransactionHelpers.deserializeTransaction (payload_transaction payload)
  = Ok t ->
  isTransferTransaction t = true ->
  Sdk.transactionId t = Some id ->
  Sdk.accountId id = Some a ->
  AccountId_toString a = AccountId_toString (Wallet.accountId signer) ->
  extra_feePayer paymentRequirements
  = Some (AccountId_toString (Wallet.accountId signer)) ->
  Transaction_toBytes t = Ok encoded ->
  Transaction_fromBytes encoded = Ok body ->
  Verify.isHbarTransfer (asset paymentRequirements) = false ->
  (forall tokenId,
     TokenId_fromString (asset paymentRequirements) = Ok tokenId ->
     Verify.verify signer payload paymentRequirements = accepted)
  /\ (forall e,
        TokenId_fromString (asset paymentRequirements) = Throw e ->
        Verify.verify signer payload paymentRequirements
        = rejection "invalid_exact_hedera_payload_transaction_asset_mismatch").
Proof.
  intros Hs Hdecode Hclass Hid Ha Hown Hfee Henc Hdec Htoken.
  assert (Hsteps :
    Verify.transactionIntrospection signer t paymentRequirements
    = Verify.validateTokenTransfer t paymentRequirements).
  { unfold Verify.transactionIntrospection.
    rewrite Hclass, Hid, Ha, Hown, Hfee, String.eqb_refl.
    cbn [negb falsy orb].
    rewrite (String_eqb_nonempty _ (AccountId_toString_nonempty _)).
    cbn [orb]. unfold rbind. now rewrite Henc, Hdec, Htoken. }
  split.
  - intros tokenId Hparse. eapply verify_of_ok; [exact Hs | exact Hdecode |].
    rewrite Hsteps. unfold Verify.validateTokenTransfer, rbind.
    now rewrite Htoken, Hparse.
  - intros e Hparse. apply verify_of_throw.
    unfold rbind at 1 2. rewrite Hs, Hdecode, Hsteps.
    unfold Verify.validateTokenTransfer, rbind.
    now rewrite Htoken, Hparse.
Qed.

Lemma token_verify_checks_only_asset_format_witness :
  let ext := Scenario.sdk (Ok Scenario.underpayment)
               (Scenario.receiptAfter 100 Success) in
  tokenTransfers Scenario.underpayment = []
  /\ Verify.verify Scenario.facilitatorSigner Scenario.hbarPayload
       Fixtures.usdcRequirements = accepted
  /\ Verify.verify Scenario.facilitatorSigner Scenario.hbarPayload
       Fixtures.badTokenRequirements
     = rejection "invalid_exact_hedera_payload_transaction_asset_mismatch".
Proof.
  intros ext. split; [reflexivity|].
  pose (id := {| Sdk.accountId := Some Scenario.facilitator; validStart := 0 |}).
  split.
  - apply (proj1 (@token_verify_checks_only_asset_format ext
                    Scenario.facilitatorSigner Scenario.hbarPayload
                    Fixtures.usdcRequirements Scenario.underpayment id
                    Scenario.facilitator [] Scenario.underpayment
                    eq_refl eq_refl eq_refl eq_refl eq_refl eq_refl eq_refl
                    eq_refl eq_refl eq_refl) Scenario.usdc).
    reflexivity.
  - apply (proj2 (@token_verify_checks_only_asset_format ext
                    Scenario.facilitatorSigner Scenario.hbarPayload
                    Fixtures.badTokenRequirements Scenario.underpayment id
                    Scenario.facilitator [] Scenario.underpayment
                    eq_refl eq_refl eq_refl eq_refl eq_refl eq_refl eq_refl
                    eq_refl eq_refl eq_refl)
             (Error "Invalid token ID format")).
    reflexivity.
Defined.

(* ===================================================================== *)
(** * Further properties: the settler *)
(* ===================================================================== *)

(** The run of [executeTransaction], step by step. *)
Lemma executeTransaction_run `{Externals}
    (t : Transaction) (signer : HederaSigner) (w : World) :
  let key := Wallet.privateKey signer in
  let c := Wallet.client signer in
  let w1 := emit (Signed key t) w in
  Settle.executeTransaction t signer w
  = match Transaction_sign key t with
    | Throw e => (Ok (ledgerFailure e), w1)
    | Ok signed =>
        let w2 := emit (Executed signed c) w1 in
        match Transaction_execute w1 signed c with
        | Throw e => (Ok (ledgerFailure e), w2)
        | Ok response =>
            let arrival := TransactionResponse_getReceipt w2 response c in
            let w3 := elapse (latencyMs arrival)
                        (emit (ReceiptAwaited response c) w2) in
            match outcome arrival with
            | Throw e => (Ok (ledgerFailure e), w3)
            | Ok receipt =>
                match TransactionId_toString
                        (responseTransactionId response) with
                | Throw e => (Ok (ledgerFailure e), w3)
                | Ok id => (Ok (ledgerVerdict (status receipt) id), w3)
                end
            end
        end
    end.
Proof.
  intros key c w1. subst key c w1.
  unfold Settle.executeTransaction,
    TransactionHelpers.addSignatureToTransaction, ledgerFailure, ledgerVerdict.
  run_M.
  destruct (Transaction_sign (Wallet.privateKey signer) t) as [signed|e1].
  - destruct (Transaction_execute
                (emit (Signed (Wallet.privateKey signer) t) w) signed
                (Wallet.client signer)) as [response|e2].
    + destruct (outcome
                  (TransactionResponse_getReceipt
                     (emit (Executed signed (Wallet.client signer))
                        (emit (Signed (Wallet.privateKey signer) t) w))
                     response (Wallet.client signer))) as [receipt|e3].
      * destruct (isSuccess (status receipt));
          destruct (TransactionId_toString (responseTransactionId response))
            as [id|e4]; try reflexivity;
          destruct (includes (message e4) "INSUFFICIENT_ACCOUNT_BALANCE");
          try reflexivity;
          destruct (includes (message e4) "timeout"
                    || includes (message e4) "TIMEOUT"); reflexivity.
      * destruct (includes (message e3) "INSUFFICIENT_ACCOUNT_BALANCE");
          try reflexivity;
          destruct (includes (message e3) "timeout"
                    || includes (message e3) "TIMEOUT"); reflexivity.
    + destruct (includes (message e2) "INSUFFICIENT_ACCOUNT_BALANCE");
        try reflexivity;
        destruct (includes (message e2) "timeout"
                  || includes (message e2) "TIMEOUT"); reflexivity.
  - destruct (includes (message e1) "INSUFFICIENT_ACCOUNT_BALANCE");
      try reflexivity;
      destruct (includes (message e1) "timeout"
                || includes (message e1) "TIMEOUT"); reflexivity.
Qed.

Lemma executeTransaction_returns `{Externals}
    (t : Transaction) (signer : HederaSigner) (w : World) :
  exists r w', Settle.executeTransaction t signer w = (Ok r, w').
Proof.
  rewrite executeTransaction_run. cbv zeta.
  repeat match goal with
         | |- context [match ?x with _ => _ end] => destruct x
         end; eauto.
Qed.

(** The run of [settle] on a payload the verifier accepts. *)
Lemma settle_run `{Externals}
    (signer : HederaSigner) (payload : PaymentPayload)
    (paymentRequirements : PaymentRequirements) (w : World) :
  isValid (Verify.verify signer payload paymentRequirements) = true ->
  exists t r w',
    TransactionHelpers.deserializeTransaction (payload_transaction payload)
    = Ok t
    /\ Settle.executeTransaction t signer w = (Ok r, w')
    /\ Settle.settle signer payload paymentRequirements w
       = (Ok (settled signer payload r), w').
Proof.
  intros Hvalid.
  destruct (verify_valid_inv signer payload paymentRequirements Hvalid)
    as (t & _ & Hdecode & _).
  destruct (executeTransaction_returns t signer w) as (r & w' & Hrun).
  exists t, r, w'. split; [exact Hdecode|]. split; [exact Hrun|].
  unfold Settle.settle. rewrite Hvalid, Hdecode. cbn [negb].
  unfold bind at 1, lift, tryM, bind, ret. now rewrite Hrun.
Qed.

Lemma settle_returns `{Externals}
    (signer : HederaSigner) (payload : PaymentPayload)
    (paymentRequirements : PaymentRequirements) (w : World) :
  exists response w',
    Settle.settle signer payload paymentRequirements w = (Ok response, w').
Proof.
  destruct (isValid (Verify.verify signer payload paymentRequirements))
    eqn:Hvalid.
  - destruct (settle_run signer payload paymentRequirements w Hvalid)
      as (t & r & w' & _ & _ & Hsettle). eauto.
  - unfold Settle.settle. rewrite Hvalid. cbn [negb]. unfold ret. eauto.
Qed.

(** X10. [settle] never throws: on every payload, requirements, signer
    and ledger behaviour it returns a response, whose network is the
    payload's network. *)
Theorem settle_always_returns `{Externals}
    (signer : HederaSigner) (payload : PaymentPayload)
    (paymentRequirements : PaymentRequirements) (w : World) :
  exists response w',
    Settle.settle signer payload paymentRequirements w = (Ok response, w')
    /\ settleNetwork response = network payload.
Proof.
  destruct (settle_returns signer payload paymentRequirements w)
    as (response & w' & Hsettle).
  exists response, w'. split; [exact Hsettle|].
  destruct (isValid (Verify.verify signer payload paymentRequirements))
    eqn:Hvalid.
  - destruct (settle_run signer payload paymentRequirements w Hvalid)
      as (t & r & w1 & _ & _ & Hs).
    rewrite Hs in Hsettle. now injection Hsettle as <- _.
  - unfold Settle.settle in Hsettle. rewrite Hvalid in Hsettle.
    cbn [negb] in Hsettle. unfold ret in Hsettle.
    now injection Hsettle as <- _.
Qed.

(** X11. The reasons [settle] can report for an accepted payload are the
    three ledger reasons (insufficient balance, confirmation timeout,
    transaction failed) or none: the catch-all "unexpected_settle_error"
    of its outer handler is never produced, and the response always names
    the facilitator's account as payer and the payload's network. *)
Theorem settle_reason_taxonomy `{Externals}
    (signer : HederaSigner) (payload : PaymentPayload)
    (paymentRequirements : PaymentRequirements) (w w' : World)
    (response : SettleResponse) :
  isValid (Verify.verify signer payload paymentRequirements) = true ->
  Settle.settle signer payload paymentRequirements w = (Ok response, w') ->
  (errorReason response = None
   \/ errorReason response
      = Some "invalid_exact_hedera_payload_transaction_insufficient_balance"
   \/ errorReason response
      = Some "settle_exact_hedera_transaction_confirmation_timeout"
   \/ errorReason response = Some "settle_exact_hedera_transaction_failed")
  /\ errorReason response <> Some "unexpected_settle_error"
  /\ settlePayer response = Some (AccountId_toString (Wallet.accountId signer))
  /\ settleNetwork response = network payload.
Proof.
  intros Hvalid Hsettle.
  destruct (settle_run signer payload paymentRequirements w Hvalid)
    as (t & r & w1 & _ & Hrun & Hs).
  rewrite Hs in Hsettle. injection Hsettle as <- <-.
  assert (Hreason :
    Settle.exec_errorReason r = None
    \/ Settle.exec_errorReason r
       = Some "invalid_exact_hedera_payload_transaction_insufficient_balance"
    \/ Settle.exec_errorReason r
       = Some "settle_exact_hedera_transaction_confirmation_timeout"
    \/ Settle.exec_errorReason r
       = Some "settle_exact_hedera_transaction_failed").
  { rewrite executeTransaction_run in Hrun. cbv zeta in Hrun.
    unfold ledgerFailure, ledgerVerdict in Hrun.
    split_run Hrun; injection Hrun as <- _; cbn; auto. }
  cbn [settled errorReason settlePayer settleNetwork].
  split; [exact Hreason|]. split; [|split; reflexivity].
  destruct Hreason as [-> | [-> | [-> | ->]]]; discriminate.
Qed.

Lemma settle_reason_taxonomy_witness :
  let ext := Scenario.sdk (Ok Scenario.hbarPayment)
               (Scenario.receiptAfter 100 (Failed "INVALID_SIGNATURE")) in
  let run := Settle.settle Scenario.facilitatorSigner Scenario.hbarPayload
               Scenario.hbarRequirements Scenario.start in
  let response :=
    {| success := false;
       errorReason := Some "settle_exact_hedera_transaction_failed";
       settlePayer := Some "0.0.999999";
       settleTransaction := "0.0.999999@0";
       settleNetwork := "hedera-testnet" |} in
  run = (Ok response, snd run)
  /\ errorReason response <> Some "unexpected_settle_error".
Proof.
  intros ext run response.
  assert (Hrun : run = (Ok response, snd run)) by reflexivity.
  split; [exact Hrun|].
  exact (proj1 (proj2 (@settle_reason_taxonomy ext Scenario.facilitatorSigner
                         Scenario.hbarPayload Scenario.hbarRequirements
                         Scenario.start (snd run) response eq_refl Hrun))).
Defined.




(** X13. When signing, submitting or the receipt query throws, [settle]
    still returns a response: [success] is false, [transaction] is the
    empty string, and the reason is chosen from the error message alone:
    insufficient balance when it contains "INSUFFICIENT_ACCOUNT_BALANCE"
    (even if it also mentions a timeout), confirmation timeout when it
    contains "timeout" or "TIMEOUT", transaction failed otherwise. *)
Theorem settle_ledger_exception `{Externals}
    (signer : HederaSigner) (payload : PaymentPayload)
    (paymentRequirements : PaymentRequirements) (w : World)
    (t : Transaction) (e : exn) :
  let key := Wallet.privateKey signer in
  let c := Wallet.client signer in
  let w1 := emit (Signed key t) w in
  isValid (Verify.verify signer payload paymentRequirements) = true ->
  TransactionHelpers.deserializeTransaction (payload_transaction payload)
  = Ok t ->
  (Transaction_sign key t = Throw e
   \/ (exists signed,
         Transaction_sign key t = Ok signed
         /\ (Transaction_execute w1 signed c = Throw e
             \/ exists response,
                  Transaction_execute w1 signed c = Ok response
                  /\ outcome (TransactionResponse_getReceipt
                                (emit (Executed signed c) w1) response c)
                     = Throw e))) ->
  exists response,
    fst (Settle.settle signer payload paymentRequirements w) = Ok response
    /\ success response = false
    /\ settleTransaction response = ""
    /\ errorReason response
       = Some (if includes (message e) "INSUFFICIENT_ACCOUNT_BALANCE"
               then "invalid_exact_hedera_payload_transaction_insufficient_balance"
               else if includes (message e) "timeout"
                       || includes (message e) "TIMEOUT"
               then "settle_exact_hedera_transaction_confirmation_timeout"
               else "settle_exact_hedera_transaction_failed").
Proof.
  intros key c w1 Hvalid Hdecode Hthrown.
  destruct (settle_run signer payload paymentRequirements w Hvalid)
    as (t' & r & w' & Hdecode' & Hrun & Hs).
  rewrite Hdecode in Hdecode'. injection Hdecode' as <-.
  rewrite Hs. cbn [fst]. exists (settled signer payload r).
  split; [reflexivity|].
  assert (Hr : r = ledgerFailure e).
  { rewrite executeTransaction_run in Hrun. cbv zeta in Hrun.
    fold key c w1 in Hrun.
    destruct Hthrown as [Hsign | (signed & Hsign & Hrest)];
      rewrite Hsign in Hrun; [now injection Hrun|].
    destruct Hrest as [Hexec | (response & Hexec & Hreceipt)];
      rewrite Hexec in Hrun; [now injection Hrun|].
    rewrite Hreceipt in Hrun. now injection Hrun. }
  subst r. repeat split.
Qed.

Lemma settle_ledger_exception_witness :
  let submitFails : Externals :=
    {| AccountId_fromString := Scenario.parseAccountId;
       TokenId_fromString := Scenario.parseTokenId;
       Transaction_toBytes := fun _ => Ok [];
       Transaction_fromBytes := fun _ => Ok Scenario.hbarPayment;
       Transaction_sign := fun key t => Ok (Scenario.addSigner key t);
       Transaction_execute := fun _ _ _ =>
         Throw (Error "INSUFFICIENT_ACCOUNT_BALANCE after timeout");
       TransactionResponse_getReceipt := fun _ _ _ =>
         Scenario.receiptAfter 100 Success;
       Buffer_toBase64 := fun _ => "base64_encoded_transaction";
       Buffer_fromBase64 := fun _ => [];
       ErrorReasons := Scenario.reasons;
       encodePayment := fun _ => Ok "encoded_payment_header";
       Signer := HederaSigner;
       asHederaSigner := fun s => s;
       verifyExactEvm := fun _ _ _ => Ok Scenario.notExercised;
       verifyExactSvm := fun _ _ _ => Ok Scenario.notExercised;
       settleExactEvm := fun _ _ _ => throw "not exercised";
       settleExactSvm := fun _ _ _ => throw "not exercised" |} in
  exists response,
    fst (Settle.settle Scenario.facilitatorSigner Scenario.hbarPayload
           Scenario.hbarRequirements Scenario.start) = Ok response
    /\ success response = false
    /\ settleTransaction response = ""
    /\ errorReason response
       = Some "invalid_exact_hedera_payload_transaction_insufficient_balance".
Proof.
  intros submitFails.
  apply (@settle_ledger_exception submitFails Scenario.facilitatorSigner
           Scenario.hbarPayload Scenario.hbarRequirements Scenario.start
           Scenario.hbarPayment
           (Error "INSUFFICIENT_ACCOUNT_BALANCE after timeout")
           eq_refl eq_refl).
  right. eexists. split; [reflexivity|]. left. reflexivity.
Defined.

(** X14. [settle] reports success exactly when the verifier accepts the
    payload, the facilitator's signature and the submission go through,
    the ledger's receipt has status SUCCESS and the response's transaction
    id prints.  In particular no success is reported without a SUCCESS
    receipt. *)
Theorem settle_success_iff `{Externals}
    (signer : HederaSigner) (payload : PaymentPayload)
    (paymentRequirements : PaymentRequirements) (w : World) :
  let key := Wallet.privateKey signer in
  let c := Wallet.client signer in
  (exists response w',
     Settle.settle signer payload paymentRequirements w = (Ok response, w')
     /\ success response = true)
  <-> isValid (Verify.verify signer payload paymentRequirements) = true
      /\ exists t signed ledgerResponse receipt id,
           TransactionHelpers.deserializeTransaction
             (payload_transaction payload) = Ok t
           /\ Transaction_sign key t = Ok signed
           /\ Transaction_execute (emit (Signed key t) w) signed c
              = Ok ledgerResponse
           /\ outcome (TransactionResponse_getReceipt
                         (emit (Executed signed c) (emit (Signed key t) w))
                         ledgerResponse c) = Ok receipt
           /\ status receipt = Success
           /\ TransactionId_toString (responseTransactionId ledgerResponse)
              = Ok id.
Proof.
  intros key c. split.
  - intros (response & w' & Hsettle & Hsuccess).
    destruct (isValid (Verify.verify signer payload paymentRequirements))
      eqn:Hvalid.
    + split; [reflexivity|].
      destruct (settle_run signer payload paymentRequirements w Hvalid)
        as (t & r & w1 & Hdecode & Hrun & Hs).
      rewrite Hs in Hsettle. injection Hsettle as <- <-.
      cbn [settled success] in Hsuccess.
      rewrite executeTransaction_run in Hrun. cbv zeta in Hrun.
      fold key c in Hrun. exists t.
      destruct (Transaction_sign key t) as [signed|] eqn:Esign;
        [|injection Hrun as <- _; discriminate Hsuccess].
      destruct (Transaction_execute (emit (Signed key t) w) signed c)
        as [ledgerResponse|] eqn:Eexec;
        [|injection Hrun as <- _; discriminate Hsuccess].
      destruct (outcome
                  (TransactionResponse_getReceipt
                     (emit (Executed signed c) (emit (Signed key t) w))
                     ledgerResponse c)) as [receipt|] eqn:Ereceipt;
        [|injection Hrun as <- _; discriminate Hsuccess].
      destruct (TransactionId_toString (responseTransactionId ledgerResponse))
        as [id|] eqn:Eid;
        [|injection Hrun as <- _; discriminate Hsuccess].
      injection Hrun as <- _. cbn [ledgerVerdict Settle.exec_success] in Hsuccess.
      exists signed, ledgerResponse, receipt, id.
      do 4 (split; [assumption || reflexivity|]).
      split; [|exact Eid].
      destruct (status receipt); [reflexivity | discriminate Hsuccess].
    + unfold Settle.settle in Hsettle. rewrite Hvalid in Hsettle.
      cbn [negb] in Hsettle. unfold ret in Hsettle.
      injection Hsettle as <- _. discriminate Hsuccess.
  - intros (Hvalid & t & signed & ledgerResponse & receipt & id
            & Hdecode & Hsign & Hexec & Hreceipt & Hstatus & Hid).
    destruct (settle_run signer payload paymentRequirements w Hvalid)
      as (t' & r & w1 & Hdecode' & Hrun & Hs).
    rewrite Hdecode in Hdecode'. injection Hdecode' as <-.
    exists (settled signer payload r), w1. split; [exact Hs|].
    rewrite executeTransaction_run in Hrun. cbv zeta in Hrun.
    fold key c in Hrun.
    rewrite Hsign, Hexec, Hreceipt, Hid, Hstatus in Hrun.
    now injection Hrun as <- _.
Qed.

Lemma settle_success_iff_witness :
  let ext := Scenario.sdk (Ok Scenario.hbarPayment)
               (Scenario.receiptAfter 100 Success) in
  exists response w',
    Settle.settle Scenario.facilitatorSigner Scenario.hbarPayload
      Scenario.hbarRequirements Scenario.start = (Ok response, w')
    /\ success response = true.
Proof.
  intros ext.
  apply (proj2 (@settle_success_iff ext Scenario.facilitatorSigner
                  Scenario.hbarPayload Scenario.hbarRequirements
                  Scenario.start)).
  split; [reflexivity|].
  exists Scenario.hbarPayment,
    (Scenario.addSigner "facilitator-key" Scenario.hbarPayment),
    {| responseTransactionId :=
         {| Sdk.accountId := Some Scenario.facilitator; validStart := 0 |} |},
    {| status := Success |}, "0.0.999999@0".
  repeat split.
Defined.

(** X15. When the ledger's receipt has a status other than SUCCESS,
    [settle] answers [success: false] with the transaction-failed reason
    but still reports the ledger's transaction id (a non-empty string) in
    [transaction], unlike the failures caused by an exception, which carry
    the empty string. *)
Theorem settle_failed_receipt_keeps_id `{Externals}
    (signer : HederaSigner) (payload : PaymentPayload)
    (paymentRequirements : PaymentRequirements) (w : World)
    (t signed : Transaction) (ledgerResponse : TransactionResponse)
    (code id : string) :
  let key := Wallet.privateKey signer in
  let c := Wallet.client signer in
  isValid (Verify.verify signer payload paymentRequirements) = true ->
  TransactionHelpers.deserializeTransaction (payload_transaction payload)
  = Ok t ->
  Transaction_sign key t = Ok signed ->
  Transaction_execute (emit (Signed key t) w) signed c = Ok ledgerResponse ->
  outcome (TransactionResponse_getReceipt
             (emit (Executed signed c) (emit (Signed key t) w))
             ledgerResponse c) = Ok {| status := Failed code |} ->
  TransactionId_toString (responseTransactionId ledgerResponse) = Ok id ->
  fst (Settle.settle signer payload paymentRequirements w)
  = Ok {| success := false;
          errorReason := Some "settle_exact_hedera_transaction_failed";
          settlePayer := Some (AccountId_toString (Wallet.accountId signer));
          settleTransaction := id;
          settleNetwork := network payload |}
  /\ id <> "".
Proof.
  intros key c Hvalid Hdecode Hsign Hexec Hreceipt Hid.
  split; [|eapply TransactionId_toString_nonempty; exact Hid].
  destruct (settle_run signer payload paymentRequirements w Hvalid)
    as (t' & r & w1 & Hdecode' & Hrun & Hs).
  rewrite Hdecode in Hdecode'. injection Hdecode' as <-.
  rewrite Hs. cbn [fst].
  rewrite executeTransaction_run in Hrun. cbv zeta in Hrun.
  fold key c in Hrun. rewrite Hsign, Hexec, Hreceipt, Hid in Hrun.
  injection Hrun as <- _. reflexivity.
Qed.

Lemma settle_failed_receipt_keeps_id_witness :
  let ext := Scenario.sdk (Ok Scenario.hbarPayment)
               (Scenario.receiptAfter 100 (Failed "INVALID_SIGNATURE")) in
  fst (Settle.settle Scenario.facilitatorSigner Scenario.hbarPayload
         Scenario.hbarRequirements Scenario.start)
  = Ok {| success := false;
          errorReason := Some "settle_exact_hedera_transaction_failed";
          settlePayer := Some "0.0.999999";
          settleTransaction := "0.0.999999@0";
          settleNetwork := "hedera-testnet" |}
  /\ "0.0.999999@0" <> "".
Proof.
  intros ext.
  apply (@settle_failed_receipt_keeps_id ext Scenario.facilitatorSigner
           Scenario.hbarPayload Scenario.hbarRequirements Scenario.start
           Scenario.hbarPayment
           (Scenario.addSigner "facilitator-key" Scenario.hbarPayment)
           {| responseTransactionId :=
                {| Sdk.accountId := Some Scenario.facilitator;
                   validStart := 0 |} |}
           "INVALID_SIGNATURE" "0.0.999999@0");
    reflexivity.
Defined.

(** X16. In every response of [settle], [success] is true exactly when
    [errorReason] is absent; a failure always names a reason. *)
Theorem settle_success_xor_reason `{Externals}
    (signer : HederaSigner) (payload : PaymentPayload)
    (paymentRequirements : PaymentRequirements) (w w' : World)
    (response : SettleResponse) :
  Settle.settle signer payload paymentRequirements w = (Ok response, w') ->
  (success response = true <-> errorReason response = None).
Proof.
  intros Hsettle.
  destruct (isValid (Verify.verify signer payload paymentRequirements))
    eqn:Hvalid.
  - destruct (settle_run signer payload paymentRequirements w Hvalid)
      as (t & r & w1 & _ & Hrun & Hs).
    rewrite Hs in Hsettle. injection Hsettle as <- <-.
    cbn [settled success errorReason].
    rewrite executeTransaction_run in Hrun. cbv zeta in Hrun.
    unfold ledgerFailure, ledgerVerdict in Hrun.
    split_run Hrun; injection Hrun as <- _; cbn; split; congruence.
  - destruct (verify_rejection_has_reason signer payload paymentRequirements
                Hvalid) as (reason & Hreason).
    unfold Settle.settle in Hsettle. rewrite Hvalid, Hreason in Hsettle.
    cbn [negb] in Hsettle. unfold ret in Hsettle.
    injection Hsettle as <- _. cbn. split; discriminate.
Qed.

Lemma settle_success_xor_reason_witness :
  let ext := Scenario.sdk (Ok Scenario.strangerPayment)
               (Scenario.receiptAfter 100 Success) in
  let run := Settle.settle Scenario.facilitatorSigner Scenario.hbarPayload
               Scenario.hbarRequirements Scenario.start in
  let response :=
    {| success := false;
       errorReason := Some signatureMismatch;
       settlePayer := None;
       settleTransaction := "";
       settleNetwork := "hedera-testnet" |} in
  run = (Ok response, snd run)
  /\ (success response = true <-> errorReason response = None).
Proof.
  intros ext run response.
  assert (Hrun : run = (Ok response, snd run)) by reflexivity.
  split; [exact Hrun|].
  exact (@settle_success_xor_reason ext Scenario.facilitatorSigner
           Scenario.hbarPayload Scenario.hbarRequirements Scenario.start
           (snd run) response Hrun).
Defined.



(* ===================================================================== *)
(** * Further properties: the dispatcher *)
(* ===================================================================== *)

Lemma getNetworkFamily_of_hedera (n : Network) :
  In n SupportedHederaNetworks -> getNetworkFamily n = Ok hedera.
Proof.
  intros Hin. cbn [In SupportedHederaNetworks] in Hin.
  destruct Hin as [<- | [<- | []]]; reflexivity.
Qed.

(** X18. For the scheme "exact" and a Hedera network, the dispatcher's
    [verify] is the Hedera verifier and its [settle] is the Hedera settler,
    run on the client cast to a Hedera signer; on these networks neither
    entry point throws. *)
Theorem dispatcher_routes_hedera `{Externals}
    (client : Signer) (payload : PaymentPayload)
    (paymentRequirements : PaymentRequirements) (w : World) :
  req_scheme paymentRequirements = "exact" ->
  In (req_network paymentRequirements) SupportedHederaNetworks ->
  Facilitator.verify client payload paymentRequirements
  = Ok (Verify.verify (asHederaSigner client) payload paymentRequirements)
  /\ Facilitator.settle client payload paymentRequirements w
     = Settle.settle (asHederaSigner client) payload paymentRequirements w
  /\ exists response w',
       Facilitator.settle client payload paymentRequirements w
       = (Ok response, w').
Proof.
  intros Hscheme Hnet. apply getNetworkFamily_of_hedera in Hnet.
  assert (Hsettle :
    Facilitator.settle client payload paymentRequirements w
    = Settle.settle (asHederaSigner client) payload paymentRequirements w).
  { unfold Facilitator.settle. rewrite Hscheme.
    change (String.eqb "exact" "exact") with true. cbv iota.
    unfold bind, lift. now rewrite Hnet. }
  split; [|split; [exact Hsettle|]].
  - unfold Facilitator.verify. rewrite Hscheme.
    change (String.eqb "exact" "exact") with true. cbv iota.
    unfold rbind. now rewrite Hnet.
  - rewrite Hsettle. apply settle_returns.
Qed.

Lemma dispatcher_routes_hedera_witness :
  let ext := Scenario.sdk (Ok Scenario.hbarPayment)
               (Scenario.receiptAfter 100 Success) in
  Facilitator.verify Scenario.facilitatorSigner Scenario.hbarPayload
    Scenario.hbarRequirements
  = Ok (Verify.verify Scenario.facilitatorSigner Scenario.hbarPayload
          Scenario.hbarRequirements)
  /\ exists response w',
       Facilitator.settle Scenario.facilitatorSigner Scenario.hbarPayload
         Scenario.hbarRequirements Scenario.start = (Ok response, w').
Proof.
  intros ext.
  destruct (@dispatcher_routes_hedera ext Scenario.facilitatorSigner
              Scenario.hbarPayload Scenario.hbarRequirements Scenario.start
              eq_refl) as (Hverify & _ & Hreturns).
  - cbn. auto.
  - split; [exact Hverify | exact Hreturns].
Defined.

(** X19. With a scheme other than "exact" and an EVM network, a payload of
    the [{transaction}] shape makes both entry points throw: the failure
    response needs [payload.authorization.from] for its [payer] field, and
    reading it off a payload that has no [authorization] is a TypeError
    that nothing catches. *)
Theorem dispatcher_payer_lookup_throws `{Externals}
    (client : Signer) (paymentPayload : PaymentPayload)
    (paymentRequirements : PaymentRequirements) (w : World)
    (transaction : string) :
  req_scheme paymentRequirements <> "exact" ->
  In (req_network paymentRequirements) SupportedEVMNetworks ->
  payload_transaction paymentPayload = Some transaction ->
  exists e,
    Facilitator.verify client paymentPayload paymentRequirements = Throw e
    /\ Facilitator.settle client paymentPayload paymentRequirements w
       = (Throw e, w).
Proof.
  intros Hscheme Hnet Hshape.
  apply String.eqb_neq in Hscheme. apply Array_includes_In in Hnet.
  unfold Facilitator.verify, Facilitator.settle, Facilitator.fallbackPayer.
  rewrite Hscheme, Hnet.
  unfold payload_authorization_from, payload_transaction in *.
  destruct (payload paymentPayload) as [sig from | tx]; [discriminate|].
  eexists. split; reflexivity.
Qed.

Lemma dispatcher_payer_lookup_throws_witness :
  let ext := Scenario.sdk (Ok Scenario.hbarPayment)
               (Scenario.receiptAfter 100 Success) in
  let onBase := Scenario.withScheme "upto"
                  (Scenario.withNetwork "base" Scenario.hbarRequirements) in
  exists e,
    Facilitator.verify Scenario.facilitatorSigner Scenario.hbarPayload onBase
    = Throw e
    /\ Facilitator.settle Scenario.facilitatorSigner Scenario.hbarPayload
         onBase Scenario.start = (Throw e, Scenario.start).
Proof.
  intros ext onBase.
  apply (@dispatcher_payer_lookup_throws ext Scenario.facilitatorSigner
           Scenario.hbarPayload onBase Scenario.start
           "base64_encoded_transaction").
  - discriminate.
  - cbn. auto.
  - reflexivity.
Defined.

(* ===================================================================== *)
(** * Further properties: the builder *)
(* ===================================================================== *)

(** The run of [createTransferTransaction], step by step. *)
Lemma createTransferTransaction_run `{Externals}
    (client : HederaSigner) (paymentRequirements : PaymentRequirements)
    (w : World) :
  let amount := maxAmountRequired paymentRequirements in
  let payerAccount := Wallet.accountId client in
  HederaClient.createTransferTransaction client paymentRequirements w
  = match extra_feePayer paymentRequirements with
    | None => (Throw feePayerRequired, w)
    | Some str =>
        if String.eqb str "" then (Throw feePayerRequired, w)
        else
          match AccountId_fromString str with
          | Throw e => (Throw e, w)
          | Ok feePayerAccount =>
              match AccountId_fromString (payTo paymentRequirements) with
              | Throw e => (Throw e, w)
              | Ok payeeAccount =>
                  if HederaClient.isHbarAddress (asset paymentRequirements)
                  then (Ok (builtTransfer feePayerAccount (nowMs w)
                              (hbarLegs payerAccount payeeAccount amount) []),
                        w)
                  else
                    match TokenId_fromString (asset paymentRequirements) with
                    | Throw e => (Throw e, w)
                    | Ok tokenId =>
                        (Ok (builtTransfer feePayerAccount (nowMs w) []
                               (tokenLegs tokenId payerAccount payeeAccount
                                  amount)), w)
                    end
              end
          end
    end.
Proof.
  intros amount payerAccount. subst amount payerAccount.
  unfold HederaClient.createTransferTransaction,
    HederaClient.createHbarTransferTransaction,
    HederaClient.createTokenTransferTransaction.
  run_M.
  destruct (extra_feePayer paymentRequirements) as [str|]; [|reflexivity].
  destruct (String.eqb str ""); [reflexivity|].
  destruct (AccountId_fromString str); [|reflexivity].
  destruct (HederaClient.isHbarAddress (asset paymentRequirements));
    destruct (AccountId_fromString (payTo paymentRequirements));
    reflexivity.
Qed.

Lemma createAndSignPayment_run `{Externals}
    (client : HederaSigner) (x402Version : N)
    (paymentRequirements : PaymentRequirements) (w : World) :
  let key := Wallet.privateKey client in
  HederaClient.createAndSignPayment client x402Version paymentRequirements w
  = match HederaClient.createTransferTransaction client paymentRequirements w with
    | (Throw e, w1) => (Throw e, w1)
    | (Ok t, w1) =>
        let w2 := emit (Signed key t) w1 in
        match Transaction_sign key t with
        | Throw e => (Throw e, w2)
        | Ok signed =>
            match Transaction_toBytes signed with
            | Throw e => (Throw e, w2)
            | Ok encoded =>
                (Ok {| x402Version := x402Version;
                       scheme := req_scheme paymentRequirements;
                       network := req_network paymentRequirements;
                       payload :=
                         ExactTransactionPayload (Buffer_toBase64 encoded) |},
                 w2)
            end
        end
    end.
Proof.
  intros key. subst key.
  unfold HederaClient.createAndSignPayment,
    TransactionHelpers.serializeTransaction.
  run_M. unfold rbind.
  destruct (HederaClient.createTransferTransaction client paymentRequirements w)
    as [[t|e] w1]; [|reflexivity].
  destruct (Transaction_sign (Wallet.privateKey client) t); [|reflexivity].
  destruct (Transaction_toBytes a); reflexivity.
Qed.

Lemma createTransferTransaction_world `{Externals}
    (client : HederaSigner) (paymentRequirements : PaymentRequirements)
    (w : World) :
  snd (HederaClient.createTransferTransaction client paymentRequirements w) = w.
Proof.
  rewrite createTransferTransaction_run. cbv zeta.
  repeat match goal with
         | |- context [match ?x with _ => _ end] => destruct x
         | |- context [if ?b then _ else _] => destruct b
         end; reflexivity.
Qed.



(** X21. Whatever happens, [createAndSignPayment] never submits anything
    and signs at most once: either the world is unchanged (the transfer
    could not be created), or the only effect is one signature, by the
    client's key, of the transfer that was created.  An unparsable
    [payTo] or token id is thrown to the caller as the parser reported it,
    before any signature. *)
Theorem createAndSignPayment_effects `{Externals}
    (client : HederaSigner) (x402Version : N)
    (paymentRequirements : PaymentRequirements) (w : World) :
  let run := HederaClient.createAndSignPayment client x402Version
               paymentRequirements w in
  let key := Wallet.privateKey client in
  (snd run = w
   \/ exists t,
        HederaClient.createTransferTransaction client paymentRequirements w
        = (Ok t, w)
        /\ snd run = emit (Signed key t) w)
  /\ (forall str feePayerAccount,
        extra_feePayer paymentRequirements = Some str ->
        str <> "" ->
        AccountId_fromString str = Ok feePayerAccount ->
        (forall e,
           AccountId_fromString (payTo paymentRequirements) = Throw e ->
           run = (Throw e, w))
        /\ (forall payeeAccount e,
              AccountId_fromString (payTo paymentRequirements)
              = Ok payeeAccount ->
              HederaClient.isHbarAddress (asset paymentRequirements) = false ->
              TokenId_fromString (asset paymentRequirements) = Throw e ->
              run = (Throw e, w))).
Proof.
  intros run key. subst run. split.
  - rewrite createAndSignPayment_run. cbv zeta. fold key.
    pose proof (createTransferTransaction_world client paymentRequirements w)
      as Hworld.
    destruct (HederaClient.createTransferTransaction client
                paymentRequirements w) as [[t|e] w1];
      cbn [snd] in Hworld; subst w1.
    + right. exists t. split; [reflexivity|].
      destruct (Transaction_sign key t) as [signed|]; [|reflexivity].
      destruct (Transaction_toBytes signed); reflexivity.
    + left. reflexivity.
  - intros str feePayerAccount Hfee Hne Hparse.
    apply String.eqb_neq in Hne.
    rewrite createAndSignPayment_run, createTransferTransaction_run.
    cbv zeta. rewrite Hfee, Hne, Hparse. split.
    + intros e ->. reflexivity.
    + intros payeeAccount e -> -> ->. reflexivity.
Qed.

Lemma createAndSignPayment_effects_witness :
  let ext := Scenario.sdk (Ok Scenario.hbarPayment)
               (Scenario.receiptAfter 100 Success) in
  HederaClient.createAndSignPayment Scenario.clientSigner 1
    Fixtures.badTokenRequirements Scenario.start
  = (Throw (Error "Invalid token ID format"), Scenario.start).
Proof.
  intros ext.
  apply (proj2 (proj2 (@createAndSignPayment_effects ext Scenario.clientSigner
                         1 Fixtures.badTokenRequirements Scenario.start)
                  "0.0.999999" Scenario.facilitator eq_refl
                  ltac:(discriminate) eq_refl)
           Scenario.payee (Error "Invalid token ID format"));
    reflexivity.
Defined.

(** X22. What the builder produces, the verifier accepts.  If the
    requirements name the scheme "exact", a Hedera network and the
    facilitator's own account id as [extra.feePayer], then whenever the
    builder's transfer is created and signed, and the SDK's signing keeps
    the transaction's class and id and its codec and base64 round-trip on
    the signed transaction, [createAndSignPayment] returns a payload that
    the facilitator's [verify] accepts, for the native currency and for
    tokens alike. *)
Theorem built_payment_verifies `{Externals}
    (client facilitator : HederaSigner) (x402Version : N)
    (paymentRequirements : PaymentRequirements) (w : World)
    (t signed body : Transaction) (encoded : bytes) :
  let facilitatorId := AccountId_toString (Wallet.accountId facilitator) in
  req_scheme paymentRequirements = "exact" ->
  In (req_network paymentRequirements) SupportedHederaNetworks ->
  extra_feePayer paymentRequirements = Some facilitatorId ->
  AccountId_fromString facilitatorId = Ok (Wallet.accountId facilitator) ->
  HederaClient.createTransferTransaction client paymentRequirements w
  = (Ok t, w) ->
  Transaction_sign (Wallet.privateKey client) t = Ok signed ->
  class signed = class t ->
  Sdk.transactionId signed = Sdk.transactionId t ->
  Transaction_toBytes signed = Ok encoded ->
  Transaction_fromBytes (Buffer_fromBase64 (Buffer_toBase64 encoded))
  = Ok signed ->
  Transaction_fromBytes encoded = Ok body ->
  exists paymentPayload w',
    HederaClient.createAndSignPayment client x402Version paymentRequirements w
    = (Ok paymentPayload, w')
    /\ Verify.verify facilitator paymentPayload paymentRequirements = accepted.
Proof.
  intros facilitatorId Hscheme Hnet Hfee Hparse Hbuild Hsign Hclass Hid
    Henc Hwire Hdec. subst facilitatorId.
  eexists. eexists. split.
  - rewrite createAndSignPayment_run. cbv zeta.
    rewrite Hbuild, Hsign, Henc. reflexivity.
  - eapply verify_of_ok.
    + apply verifySchemesAndNetworks_ok. cbn [scheme network]. auto.
    + unfold TransactionHelpers.deserializeTransaction, payload_transaction,
        Buffer_from, rbind. cbn [payload]. exact Hwire.
    + apply introspection_ok_iff.
      rewrite createTransferTransaction_run in Hbuild. cbv zeta in Hbuild.
      rewrite Hfee in Hbuild.
      rewrite (String_eqb_nonempty _ (AccountId_toString_nonempty _)) in Hbuild.
      rewrite Hparse in Hbuild.
      destruct (AccountId_fromString (payTo paymentRequirements))
        as [payeeAccount|]; [|discriminate Hbuild].
      assert (Hshape :
        class t = TransferTransaction
        /\ Sdk.transactionId t
           = Some {| Sdk.accountId := Some (Wallet.accountId facilitator);
                     validStart := nowMs w |}
        /\ (Verify.isHbarTransfer (asset paymentRequirements) = true
            \/ exists tokenId,
                 TokenId_fromString (asset paymentRequirements) = Ok tokenId)).
      { change HederaClient.isHbarAddress with Verify.isHbarTransfer in Hbuild.
        destruct (Verify.isHbarTransfer (asset paymentRequirements)).
        - injection Hbuild as <-. auto.
        - destruct (TokenId_fromString (asset paymentRequirements))
            as [tokenId|]; [|discriminate Hbuild].
          injection Hbuild as <-. repeat split. right. eauto. }
      destruct Hshape as (Ht & Htid & Hasset).
      split; [unfold isTransferTransaction; now rewrite Hclass, Ht|].
      split; [rewrite Hid, Htid; do 2 eexists; repeat split|].
      split; [exact Hfee|].
      split; [exists encoded, body; auto | exact Hasset].
Qed.

Lemma built_payment_verifies_witness :
  let ext := Scenario.sdk (Ok Scenario.hbarPayment)
               (Scenario.receiptAfter 100 Success) in
  exists paymentPayload w',
    HederaClient.createAndSignPayment Scenario.clientSigner 1
      Scenario.hbarRequirements Scenario.start = (Ok paymentPayload, w')
    /\ Verify.verify Scenario.facilitatorSigner paymentPayload
         Scenario.hbarRequirements = accepted.
Proof.
  intros ext.
  apply (@built_payment_verifies ext Scenario.clientSigner
           Scenario.facilitatorSigner 1 Scenario.hbarRequirements
           Scenario.start Scenario.hbarPayment_unsigned Scenario.hbarPayment
           Scenario.hbarPayment []);
    first [reflexivity | cbn; auto].
Defined.

(** X23. The two revisions of the builder's [createTransferTransaction]
    (fee payer checked first, or [payTo] parsed first) create the same
    unsigned transfer in the same cases, so [createAndSignPayment] returns
    the same payments; they differ only in which error is thrown when
    several inputs are bad: with the fee payer missing, the inline
    revision reports an unparsable [payTo] first and the missing fee payer
    otherwise, and in both cases nothing is signed. *)
Theorem client_revisions_agree `{Externals}
    (client : HederaSigner) (x402Version : N)
    (paymentRequirements : PaymentRequirements) (w : World) :
  (forall t w',
     HederaClient.createTransferTransaction client paymentRequirements w
     = (Ok t, w')
     <-> HederaClientInline.createTransferTransaction client
           paymentRequirements w = (Ok t, w'))
  /\ (forall paymentPayload w',
        HederaClient.createAndSignPayment client x402Version
          paymentRequirements w = (Ok paymentPayload, w')
        <-> HederaClientInline.createAndSignPayment client x402Version
              paymentRequirements w = (Ok paymentPayload, w'))
  /\ (falsy (extra_feePayer paymentRequirements) = true ->
      HederaClientInline.createAndSignPayment client x402Version
        paymentRequirements w
      = (Throw match AccountId_fromString (payTo paymentRequirements) with
               | Ok _ => feePayerRequired
               | Throw e => e
               end, w)).
Proof.
  assert (Hcreate : forall t w',
    HederaClient.createTransferTransaction client paymentRequirements w
    = (Ok t, w')
    <-> HederaClientInline.createTransferTransaction client
          paymentRequirements w = (Ok t, w')).
  { intros t w'.
    rewrite createTransferTransaction_run. cbv zeta.
    unfold HederaClientInline.createTransferTransaction. run_M.
    change HederaClientInline.isHbarAddress with HederaClient.isHbarAddress.
    destruct (AccountId_fromString (payTo paymentRequirements));
      destruct (extra_feePayer paymentRequirements) as [str|];
      try (destruct (String.eqb str ""));
      try (destruct (AccountId_fromString str));
      try (destruct (HederaClient.isHbarAddress (asset paymentRequirements)));
      try (destruct (TokenId_fromString (asset paymentRequirements)));
      split; intros Hx; first [discriminate Hx | exact Hx]. }
  split; [exact Hcreate|]. split.
  - intros paymentPayload w'.
    unfold HederaClient.createAndSignPayment,
      HederaClientInline.createAndSignPayment, bind.
    destruct (HederaClient.createTransferTransaction client
                paymentRequirements w) as [[t|e] w1] eqn:E1;
      destruct (HederaClientInline.createTransferTransaction client
                  paymentRequirements w) as [[t2|e2] w2] eqn:E2.
    + pose proof (proj1 (Hcreate t w1) eq_refl) as Hsame.
      injection Hsame as -> ->. reflexivity.
    + pose proof (proj1 (Hcreate t w1) eq_refl) as Hsame. discriminate Hsame.
    + pose proof (proj2 (Hcreate t2 w2) eq_refl) as Hsame. discriminate Hsame.
    + split; discriminate.
  - intros Hmissing.
    unfold HederaClientInline.createAndSignPayment,
      HederaClientInline.createTransferTransaction, feePayerRequired.
    run_M. unfold falsy in Hmissing.
    destruct (AccountId_fromString (payTo paymentRequirements));
      [|reflexivity].
    destruct (extra_feePayer paymentRequirements) as [str|];
      [rewrite Hmissing|]; reflexivity.
Qed.

Lemma client_revisions_agree_witness :
  let ext := Scenario.sdk (Ok Scenario.hbarPayment)
               (Scenario.receiptAfter 100 Success) in
  let noFeePayer :=
    Scenario.withExtra (Some {| feePayer := None |}) Scenario.hbarRequirements in
  HederaClientInline.createAndSignPayment Scenario.clientSigner 1
    Scenario.hbarRequirements Scenario.start
  = (Ok Scenario.hbarPayload,
     emit (Signed "payer-key" Scenario.hbarPayment_unsigned) Scenario.start)
  /\ HederaClientInline.createAndSignPayment Scenario.clientSigner 1
       noFeePayer Scenario.start = (Throw feePayerRequired, Scenario.start).
Proof.
  intros ext noFeePayer. split.
  - apply (proj1 (proj2 (@client_revisions_agree ext Scenario.clientSigner 1
                           Scenario.hbarRequirements Scenario.start))).
    reflexivity.
  - apply (proj2 (proj2 (@client_revisions_agree ext Scenario.clientSigner 1
                           noFeePayer Scenario.start))).
    reflexivity.
Defined.

(* ===================================================================== *)
(** * Further properties: amounts with a sign *)
(* ===================================================================== *)

Lemma parseInt_minus c t :
  isDecimalDigit c = true -> hexMarker t = false ->
  parseInt (String "-" (String c t))
  = match parseDigits 10 (String c t) None with
    | None => NaN
    | Some m => toNumber true m
    end.
Proof.
  intros Hc Hx. unfold parseInt. cbn [trimStart].
  change (isWhiteSpace "-") with false. cbv iota.
  destruct c as [[] [] [] [] [] [] [] []]; try discriminate Hc;
    try reflexivity;
    destruct t as [|d t]; try reflexivity;
    destruct d as [[] [] [] [] [] [] [] []];
    try discriminate Hx; reflexivity.
Qed.

Lemma toNumber_exact_negative (m : Z) :
  m < 2 ^ 53 -> toNumber true m = Num (- m).
Proof.
  intros Hm. unfold toNumber, roundToDouble. cbv zeta.
  destruct (m <? 2 ^ 53) eqn:E; [|apply Z.ltb_ge in E; lia].
  destruct (2 ^ 1024 <=? m) eqn:E2; [|reflexivity].
  apply Z.leb_le in E2.
  assert (2 ^ 53 < 2 ^ 1024) by (apply Z.pow_lt_mono_r; lia). lia.
Qed.

(** X24. A negative amount reverses a token transfer.  For an amount
    string made of "-" followed by decimal digits (of value below 2^53),
    the helper and the builder give the sender the positive leg and the
    recipient the negative one: the transaction moves the tokens from
    [payTo] to the payer. *)
Theorem token_negative_amount_reverses
    (tokenId : TokenId) (fromAccount toAccount : AccountId) (digits : string) :
  decimalDigits digits ->
  decimalValue digits < 2 ^ 53 ->
  let amount := ("-" ++ digits)%string in
  let reversed :=
    [ (tokenId, fromAccount, Num (decimalValue digits));
      (tokenId, toAccount, Num (- decimalValue digits)) ] in
  tokenTransfers
    (TransactionHelpers.createTokenTransferTransaction tokenId fromAccount
       toAccount amount) = reversed
  /\ tokenLegs tokenId fromAccount toAccount amount = reversed.
Proof.
  intros Hd Hsmall amount reversed.
  assert (Hparse : parseInt amount = Num (- decimalValue digits)).
  { subst amount. pose proof Hd as [Hne Hall].
    destruct digits as [|c s]; [contradiction|].
    cbn [allDecimalDigits] in Hall. apply andb_true_iff in Hall as [Hc Hs].
    cbn [append].
    rewrite <- (append_empty_r s) at 1.
    rewrite (parseInt_minus c (s ++ "")
               Hc (hexMarker_digits s "" Hs eq_refl)).
    change (String c (s ++ "")) with (String c s ++ "")%string.
    rewrite (parseDigits_decimal_first (String c s) "" Hd).
    cbn [parseDigits]. now apply toNumber_exact_negative. }
  assert (Hlegs : tokenLegs tokenId fromAccount toAccount amount = reversed).
  { unfold tokenLegs. rewrite Hparse. cbn [neg].
    now rewrite Z.opp_involutive. }
  split; [exact Hlegs | exact Hlegs].
Qed.

Lemma token_negative_amount_reverses_witness :
  tokenTransfers
    (TransactionHelpers.createTokenTransferTransaction Scenario.usdc
       Scenario.payer Scenario.payee ("-" ++ "1000000"))
  = [ (Scenario.usdc, Scenario.payer, Num (decimalValue "1000000"));
      (Scenario.usdc, Scenario.payee, Num (- decimalValue "1000000")) ].
Proof.
  apply (token_negative_amount_reverses Scenario.usdc Scenario.payer
           Scenario.payee "1000000").
  - split; [discriminate | reflexivity].
  - reflexivity.
Defined.

(* ===================================================================== *)
(** * Further properties: the client-side dispatcher *)
(* ===================================================================== *)

(** X25. The client-side [createPaymentHeader] fails fast, before any
    builder runs or anything is signed: with "Unsupported scheme" when the
    scheme is not "exact" (whatever the network), with the classifier's
    "Unsupported network" error when the network is unknown, and with
    "Invalid hedera wallet client provided" when the network is a Hedera
    network and the client (or, for a multi-network signer, its [hedera]
    member) lacks one of [client], [accountId], [privateKey]. *)
Theorem client_dispatch_fails_fast {F} `{Externals} `{FamilyBuilders F}
    (client : ClientObject F) (x402Version : N)
    (paymentRequirements : PaymentRequirements) (w : World) :
  let run := ClientDispatch.createPaymentHeader client x402Version
               paymentRequirements w in
  (req_scheme paymentRequirements <> "exact" ->
   run = (Throw (Error "Unsupported scheme"), w))
  /\ (req_scheme paymentRequirements = "exact" ->
      ~ In (req_network paymentRequirements) NetworkSchema ->
      run = (Throw (Error ("Unsupported network: "
                           ++ req_network paymentRequirements)), w))
  /\ (req_scheme paymentRequirements = "exact" ->
      In (req_network paymentRequirements) SupportedHederaNetworks ->
      isHederaSigner
        (if isMultiNetworkSigner client then prop_hedera client
         else Some client) = false ->
      run = (Throw (Error "Invalid hedera wallet client provided"), w)).
Proof.
  intros run. subst run. unfold ClientDispatch.createPaymentHeader.
  split; [|split].
  - intros Hscheme. apply String.eqb_neq in Hscheme. now rewrite Hscheme.
  - intros Hscheme Hunknown. rewrite Hscheme.
    change (String.eqb "exact" "exact") with true. cbv iota.
    unfold bind, lift. now rewrite (getNetworkFamily_unknown _ Hunknown).
  - intros Hscheme Hnet Hguard. rewrite Hscheme.
    change (String.eqb "exact" "exact") with true. cbv iota.
    unfold bind, lift. rewrite (getNetworkFamily_of_hedera _ Hnet).
    unfold ClientDispatch.isHederaSignerWallet. now rewrite Hguard.
Qed.

Lemma client_dispatch_fails_fast_witness :
  let ext := Scenario.sdk (Ok Scenario.hbarPayment)
               (Scenario.receiptAfter 100 Success) in
  let b := Fixtures.builders in
  ClientDispatch.createPaymentHeader Fixtures.bareObject 1
    (Scenario.withScheme "upto"
       (Scenario.withNetwork "ethereum" Scenario.hbarRequirements))
    Scenario.start
  = (Throw (Error "Unsupported scheme"), Scenario.start)
  /\ ClientDispatch.createPaymentHeader Fixtures.bareObject 1
       Scenario.hbarRequirements Scenario.start
     = (Throw (Error "Invalid hedera wallet client provided"), Scenario.start).
Proof.
  intros ext b. split.
  - apply (proj1 (@client_dispatch_fails_fast unit ext b Fixtures.bareObject 1
                    (Scenario.withScheme "upto"
                       (Scenario.withNetwork "ethereum"
                          Scenario.hbarRequirements)) Scenario.start)).
    discriminate.
  - apply (proj2 (proj2 (@client_dispatch_fails_fast unit ext b
                           Fixtures.bareObject 1 Scenario.hbarRequirements
                           Scenario.start)));
      [reflexivity | cbn; auto | reflexivity].
Defined.

Lemma narrowed_guard {F} (o : option (ClientObject F)) (s : HederaSigner) :
  narrowed o = Some s -> isHederaSigner o = true.
Proof.
  destruct o as [[f [c|] [a|] [k|] e v h]|]; try discriminate. reflexivity.
Qed.

(** X26. On a Hedera network the client-side [createPaymentHeader] runs
    the Hedera builder on the signer it is given: the client object itself
    when it is not a multi-network signer, its [hedera] member when it is
    (whatever other members it has); the result and the effects are
    exactly those of the Hedera [createPaymentHeader]. *)
Theorem client_dispatch_routes_hedera {F} `{Externals} `{FamilyBuilders F}
    (client : ClientObject F) (x402Version : N)
    (paymentRequirements : PaymentRequirements) (w : World)
    (signer : HederaSigner) :
  req_scheme paymentRequirements = "exact" ->
  In (req_network paymentRequirements) SupportedHederaNetworks ->
  narrowed (if isMultiNetworkSigner client then prop_hedera client
            else Some client) = Some signer ->
  ClientDispatch.createPaymentHeader client x402Version paymentRequirements w
  = HederaClient.createPaymentHeader signer x402Version paymentRequirements w.
Proof.
  intros Hscheme Hnet Hsigner.
  unfold ClientDispatch.createPaymentHeader. rewrite Hscheme.
  change (String.eqb "exact" "exact") with true. cbv iota.
  unfold bind at 1, lift. rewrite (getNetworkFamily_of_hedera _ Hnet).
  unfold ClientDispatch.isHederaSignerWallet.
  rewrite (narrowed_guard _ _ Hsigner), Hsigner. reflexivity.
Qed.

Lemma client_dispatch_routes_hedera_witness :
  let ext := Scenario.sdk (Ok Scenario.hbarPayment)
               (Scenario.receiptAfter 100 Success) in
  let b := Fixtures.builders in
  ClientDispatch.createPaymentHeader Fixtures.multiObject 1
    Scenario.hbarRequirements Scenario.start
  = HederaClient.createPaymentHeader Scenario.clientSigner 1
      Scenario.hbarRequirements Scenario.start
  /\ ClientDispatch.createPaymentHeader Fixtures.hederaObject 1
       Scenario.hbarRequirements Scenario.start
     = HederaClient.createPaymentHeader Scenario.clientSigner 1
         Scenario.hbarRequirements Scenario.start.
Proof.
  intros ext b. split.
  - apply (@client_dispatch_routes_hedera unit ext b Fixtures.multiObject 1
             Scenario.hbarRequirements Scenario.start Scenario.clientSigner);
      [reflexivity | cbn; auto | reflexivity].
  - apply (@client_dispatch_routes_hedera unit ext b Fixtures.hederaObject 1
             Scenario.hbarRequirements Scenario.start Scenario.clientSigner);
      [reflexivity | cbn; auto | reflexivity].
Defined.
